(** * udcode: the dense colour-grid codec of [udcode.py]

    A shallow embedding of [Converter.file_to_image], [Converter.image_to_file],
    [Converter._get_marker_color] and [Converter._find_closest_color], and the
    properties of the codec proved about it.

    Conventions of the embedding:
    - Python [int] is [Z]; values that are non-negative by construction
      (byte values, palette indices) are [N];
    - [bytes] / [bytearray] are [list byte];
    - the [str] of ['0'] / ['1'] characters built by [format(_, '08b')] is a
      [list bool] ([false] is ['0'], [true] is ['1']);
    - the dict [data_grid] is a [gmap (Z * Z) N];
    - a PIL image is its size and its pixel store; an image file holds the
      pixels handed to [img.save] (as a PNG file does), and [Image.open]
      hands them over unless the size exceeds Pillow's limit;
    - [img.save] is the event [SaveImage]: the embedding describes the runs
      in which the save succeeds, and a save Pillow or the file system
      refuses (an output name without a known image extension, for one) is
      outside it;
    - exceptions are the [Raise] outcome of [result]; what the functions print,
      save and write is the event trace of [io];
    - [zlib] is an interface ([Zlib]) the codec is parametric in. *)

From Stdlib Require Import ZArith NArith List Lia String.
From Stdlib.Strings Require Import Byte.
From stdpp Require Import base option list gmap.
From Equations Require Import Equations.

Open Scope Z_scope.

(** ** Outcomes, events and the [io] monad *)

Inductive exn : Type :=
| ZeroDivisionError
| StructError
| ValueError (reason : string)
| IndexError
| ZlibError
| DecompressionBombError.

Inductive result (A : Type) : Type :=
| Ok (a : A)
| Raise (e : exn).
Arguments Ok {A} a.
Arguments Raise {A} e.

#[global] Instance result_ret : MRet result := @Ok.
#[global] Instance result_bind : MBind result :=
  λ A B f r, match r with Ok a => f a | Raise e => Raise e end.

Definition color : Type := Z * Z * Z.

(** [Image.new('RGB', (w, h))] and what [draw.rectangle] / [getpixel] act on. *)
Record image : Type := Image {
  img_width : Z;
  img_height : Z;
  img_pixel : Z → Z → color
}.

(** One constructor per [print(..., file=sys.stderr)] of the two functions
    (the arguments are the values the f-string formats), and one for the
    warning Pillow issues when it opens a large image. *)
Inductive message : Type :=
| MsgCompression (original_size compressed_size : Z)
| MsgCreated (output_image : string)
| MsgGrid (grid_width grid_height data_cells : Z)
| MsgResolution (width height : Z)
| MsgEfficiency (original_size data_cells : Z)
| MsgDecodingGrid (grid_width grid_height : Z)
| MsgCrcMismatch
| MsgDecompressed (compressed_size decompressed_size : Z)
| MsgDecompressionFailed
| MsgDecoded (output_file : string) (size : Z)
| MsgCrcStatus (ok : bool)
| MsgDecompressionBombWarning (pixels : Z).

Inductive event : Type :=
| Stderr (m : message)
| SaveImage (output_image : string) (img : image)
| WriteBytes (output_file : option string) (data : list byte).

(** A computation: the events it produced, in order, and how it ended. *)
Definition io (A : Type) : Type := (list event * result A)%type.

#[global] Instance io_ret : MRet io := λ A a, ([], Ok a).
#[global] Instance io_bind : MBind io :=
  λ A B f c,
    match c with
    | (t, Ok a) => let '(t', r) := f a in (t ++ t', r)
    | (t, Raise e) => (t, Raise e)
    end.

Definition emit (e : event) : io unit := ([e], Ok tt).
Definition print (m : message) : io unit := emit (Stderr m).
Definition lift {A} (r : result A) : io A := ([], r).
Definition when (b : bool) (c : io unit) : io unit := if b then c else mret tt.

(** The trace and the outcome of a computation. *)
Definition trace {A} (c : io A) : list event := c.1.
Definition outcome {A} (c : io A) : result A := c.2.

(** The image the last [img.save] of a trace stored. *)
Definition saved_image (t : list event) : option image :=
  foldl (λ acc e, match e with SaveImage _ img => Some img | _ => acc end) None t.

(** ** The pieces of Python the codec uses *)

Definition len {A} (l : list A) : Z := Z.of_nat (length l).

(** [l[i:j]] for non-negative [i], [j] (the only slices the code takes). *)
Definition py_slice {A} (l : list A) (i j : Z) : list A :=
  take (Z.to_nat j - Z.to_nat i)%nat (drop (Z.to_nat i) l).

(** [range(start, stop, step)] for a positive [step]. *)
Definition py_range (start stop step : Z) : list Z :=
  (λ k, start + step * k) <$> seqZ 0 ((stop - start + step - 1) / step).

(** [l[i]] for a non-negative index. *)
Definition py_index {A} (l : list A) (i : N) : result A :=
  match l !! N.to_nat i with
  | Some x => Ok x
  | None => Raise IndexError
  end.

(** [enumerate(l)]. *)
Definition enumerate {A} (l : list A) : list (N * A) :=
  zip (N.of_nat <$> seq 0 (length l)) l.

(** [a / b] on ints: only whether it raises matters to the model. *)
Definition py_truediv (a b : Z) : result unit :=
  if b =? 0 then Raise ZeroDivisionError else Ok tt.

(** A left fold whose body may raise: the [for] loops that cannot [break]. *)
Fixpoint for_each {A S} (body : S → A → result S) (xs : list A) (s : S)
  : result S :=
  match xs with
  | [] => Ok s
  | x :: xs' =>
      match body s x with
      | Ok s' => for_each body xs' s'
      | Raise e => Raise e
      end
  end.

(** Binary digits of a positive number, most significant first. *)
Fixpoint bin_digits_pos (p : positive) : list bool :=
  match p with
  | xH => [true]
  | xO q => bin_digits_pos q ++ [false]
  | xI q => bin_digits_pos q ++ [true]
  end.

Definition bin_digits (n : N) : list bool :=
  match n with
  | N0 => [false]
  | Npos p => bin_digits_pos p
  end.

(** [format(n, '0<width>b')]: binary, zero-padded on the left to at least
    [width] characters. *)
Definition format_b (width : nat) (n : N) : list bool :=
  let digits := bin_digits n in
  replicate (width - length digits) false ++ digits.

(** [int(s, 2)] on a non-empty string of binary digits. *)
Definition int2 (s : list bool) : N :=
  foldl (λ acc (c : bool), (2 * acc + (if c then 1 else 0))%N) 0%N s.

Definition byte_val (b : byte) : N := Byte.to_N b.

(** [bytearray.append(v)]. *)
Definition bytearray_item (v : N) : result byte :=
  match Byte.of_N v with
  | Some b => Ok b
  | None => Raise (ValueError "byte must be in range(0, 256)")
  end.

(** *** [struct] with the format ['>III?'] *)

Definition byte_of_Z (z : Z) : byte :=
  default x00 (Byte.of_N (Z.to_N (z mod 256))).

(** One ['>I'] field: four bytes, big-endian; [struct.error] out of range. *)
Definition pack_u32 (v : Z) : result (list byte) :=
  if (0 <=? v) && (v <? 2 ^ 32)
  then Ok [byte_of_Z (v / 2 ^ 24); byte_of_Z (v / 2 ^ 16);
           byte_of_Z (v / 2 ^ 8); byte_of_Z v]
  else Raise StructError.

Definition unpack_u32 (bs : list byte) : Z :=
  foldl (λ acc b, acc * 256 + Z.of_N (byte_val b)) 0 bs.

Definition struct_pack (a b c : Z) (flag : bool) : result (list byte) :=
  fa ← pack_u32 a;
  fb ← pack_u32 b;
  fc ← pack_u32 c;
  mret (fa ++ fb ++ fc ++ [if flag then x01 else x00]).

Definition struct_unpack (bs : list byte) : result (Z * Z * Z * bool) :=
  if len bs =? 13
  then Ok (unpack_u32 (py_slice bs 0 4), unpack_u32 (py_slice bs 4 8),
           unpack_u32 (py_slice bs 8 12),
           negb (unpack_u32 (py_slice bs 12 13) =? 0))
  else Raise StructError.

(** *** [zlib] *)

Class Zlib : Type := {
  zlib_crc32 : list byte → Z;
  zlib_compress : list byte → list byte;
  zlib_decompress : list byte → option (list byte)
}.

(** ** The converter *)

Definition PALETTE : list color :=
  [ (0, 0, 0); (255, 0, 0); (0, 255, 0); (0, 0, 255);
    (255, 255, 0); (255, 0, 255); (0, 255, 255); (255, 255, 255) ].

Definition MARKER_SIZE : Z := 3.
Definition PIXEL_SIZE : Z := 8.

Definition black : color := (0, 0, 0).
Definition white : color := (255, 255, 255).

Definition Image_new (w h : Z) : image := Image w h (λ _ _, black).

(** [draw.rectangle([x0, y0, x1, y1], fill=c)]: both corners included. *)
Definition draw_rectangle (img : image) (x0 y0 x1 y1 : Z) (c : color) : image :=
  Image (img_width img) (img_height img)
    (λ x y, if (x0 <=? x) && (x <=? x1) && (y0 <=? y) && (y <=? y1)
            then c else img_pixel img x y).

(** [img.getpixel((x, y))]: a negative coordinate counts from the far edge;
    outside the image it raises [IndexError]. *)
Definition getpixel (img : image) (x y : Z) : result color :=
  let x := if x <? 0 then img_width img + x else x in
  let y := if y <? 0 then img_height img + y else y in
  if (0 <=? x) && (x <? img_width img) && (0 <=? y) && (y <? img_height img)
  then Ok (img_pixel img x y)
  else Raise IndexError.

(** Pillow's [Image.MAX_IMAGE_PIXELS], [int(1024 * 1024 * 1024 // 4 // 3)]. *)
Definition MAX_IMAGE_PIXELS : Z := 89478485.

(** [Image.open(input_image).convert('RGB')] on the image stored at
    [input_image]: Pillow's check of the size ([_decompression_bomb_check])
    raises [DecompressionBombError] above twice [MAX_IMAGE_PIXELS], warns
    above [MAX_IMAGE_PIXELS], and the image is handed over otherwise. *)
Definition Image_open (input_image : image) : io image :=
  let pixels := Z.max 1 (img_width input_image) * Z.max 1 (img_height input_image) in
  if 2 * MAX_IMAGE_PIXELS <? pixels then lift (Raise DecompressionBombError)
  else
    when (MAX_IMAGE_PIXELS <? pixels) (print (MsgDecompressionBombWarning pixels));;
    mret input_image.

Section Converter.
Context `{Zlib}.

Definition compress_data (data : list byte) : list byte := zlib_compress data.

Definition decompress_data (compressed : list byte) : result (list byte) :=
  match zlib_decompress compressed with
  | Some data => Ok data
  | None => Raise ZlibError
  end.

(** [zlib.crc32(data) & 0xFFFFFFFF] *)
Definition checksum_of (data : list byte) : Z :=
  Z.land (zlib_crc32 data) 0xFFFFFFFF.

(** *** [_get_marker_color]: [Some c] is [(True, c)], [None] is [(False, None)] *)
Definition _get_marker_color (col row grid_width grid_height : Z)
  : option color :=
  let m := MARKER_SIZE in
  if (col <? m) && (row <? m) then
    Some (if (col + row) mod 2 =? 0 then white else black)
  else if (col >=? grid_width - m) && (row <? m) then
    let dx := col - (grid_width - m) in
    Some (if dx mod 2 =? 0 then black else white)
  else if (col <? m) && (row >=? grid_height - m) then
    let dy := row - (grid_height - m) in
    Some (if dy mod 2 =? 0 then black else white)
  else if (col >=? grid_width - m) && (row >=? grid_height - m) then
    let dx := col - (grid_width - m) in
    let dy := row - (grid_height - m) in
    let dist := Z.min (Z.min dx dy) (Z.min (m - 1 - dx) (m - 1 - dy)) in
    Some (if dist mod 2 =? 0 then black else white)
  else None.

(** *** [_find_closest_color] *)

Definition color_dist (a b : color) : Z :=
  let '(a1, a2, a3) := a in
  let '(b1, b2, b3) := b in
  (a1 - b1) ^ 2 + (a2 - b2) ^ 2 + (a3 - b3) ^ 2.

(** [dist < min_dist], where [None] is [float('inf')]. *)
Definition lt_min_dist (dist : Z) (min_dist : option Z) : bool :=
  match min_dist with
  | None => true
  | Some d => dist <? d
  end.

Definition closest_step (pixel_color : color) (st : option Z * N)
  (entry : N * color) : option Z * N :=
  let '(min_dist, closest_idx) := st in
  let '(idx, palette_color) := entry in
  let dist := color_dist pixel_color palette_color in
  if lt_min_dist dist min_dist then (Some dist, idx) else (min_dist, closest_idx).

Definition _find_closest_color (pixel_color : color) : N :=
  (foldl (closest_step pixel_color) (None, 0%N) (enumerate PALETTE)).2.

(** *** The cell classification both functions repeat inline *)
Definition is_marker_cell (col row grid_width grid_height : Z) : bool :=
  let m := MARKER_SIZE in
  let is_top_left := (col <? m) && (row <? m) in
  let is_top_right := (col >=? grid_width - m) && (row <? m) in
  let is_bottom_left := (col <? m) && (row >=? grid_height - m) in
  let is_bottom_right := (col >=? grid_width - m) && (row >=? grid_height - m) in
  is_top_left || is_top_right || is_bottom_left || is_bottom_right.

(** *** Bytes to 3-bit values (encode) *)

(** [while len(bit_string) % 3 != 0: bit_string += '0'] *)
Equations? pad_bit_string (bit_string : list bool) : list bool
  by wf (Z.to_nat ((- len bit_string) mod 3)) lt :=
  pad_bit_string bit_string with Z.eq_dec (len bit_string mod 3) 0 => {
    | left _ := bit_string;
    | right _ := pad_bit_string (bit_string ++ [false]) }.
Proof.
  clear pad_bit_string. unfold len in *. rewrite length_app. simpl length.
  generalize dependent (length bit_string). intros k Hk.
  apply Z2Nat.inj_lt; Z.div_mod_to_equations; lia.
Qed.

Definition bytes_to_bit_string (full_data : list byte) : list bool :=
  concat ((λ b, format_b 8 (byte_val b)) <$> full_data).

Definition bit_string_to_indices (bit_string : list bool) : list N :=
  (λ i, int2 (py_slice bit_string i (i + 3))) <$> py_range 0 (len bit_string) 3.

Definition bytes_to_indices (full_data : list byte) : list N :=
  bit_string_to_indices (pad_bit_string (bytes_to_bit_string full_data)).

(** *** 3-bit values to bytes (decode) *)

Definition indices_to_bit_string (color_indices : list N) : list bool :=
  concat (format_b 3 <$> color_indices).

Definition bit_string_to_bytes (bit_string : list bool) : result (list byte) :=
  for_each
    (λ byte_array i,
       b ← bytearray_item (int2 (py_slice bit_string i (i + 8)));
       mret (byte_array ++ [b]))
    (py_range 0 (len bit_string - 7) 8) [].

Definition indices_to_bytes (color_indices : list N) : result (list byte) :=
  bit_string_to_bytes (indices_to_bit_string color_indices).

(** *** The square grid *)

Definition count_data_positions (size : Z) : Z :=
  let m := MARKER_SIZE in
  let total := size * size in
  let marker_overlap := 4 * m * m in
  total - marker_overlap.

(** [while count_data_positions(grid_size) < total_data_pixels: grid_size += 1] *)
Equations? grow_grid_size (total_data_pixels grid_size : Z) : Z
  by wf (if Z_lt_dec grid_size 0
         then Z.to_nat (- grid_size) + Z.to_nat (total_data_pixels + 36) + 1
         else Z.to_nat (total_data_pixels + 36 - grid_size * grid_size))%nat lt :=
  grow_grid_size total_data_pixels grid_size
    with Z_lt_dec (count_data_positions grid_size) total_data_pixels => {
    | left _ := grow_grid_size total_data_pixels (grid_size + 1);
    | right _ := grid_size }.
Proof.
  clear grow_grid_size. unfold count_data_positions, MARKER_SIZE in *.
  repeat destruct Z_lt_dec; try lia; nia.
Qed.

Definition compute_grid_size (total_data_pixels : Z) : Z :=
  grow_grid_size total_data_pixels (2 * MARKER_SIZE).

(** The inner [for col] loop of the assignment: [it] is what is left of
    [color_indices_iter]; [StopIteration] leaves the loop ([break]). *)
Fixpoint assign_row (row grid_width grid_height : Z) (cols : list Z)
  (st : list N * gmap (Z * Z) N) : list N * gmap (Z * Z) N :=
  match cols with
  | [] => st
  | col :: cols' =>
      if negb (is_marker_cell col row grid_width grid_height) then
        match st.1 with
        | idx :: it' =>
            assign_row row grid_width grid_height cols'
              (it', <[(col, row) := idx]> st.2)
        | [] => st
        end
      else assign_row row grid_width grid_height cols' st
  end.

Definition build_data_grid (color_indices : list N) (grid_width grid_height : Z)
  : gmap (Z * Z) N :=
  (foldl (λ st row, assign_row row grid_width grid_height (seqZ 0 grid_width) st)
         (color_indices, ∅) (seqZ 0 grid_height)).2.

(** The body of the drawing loops. *)
Definition draw_cell (data_grid : gmap (Z * Z) N) (grid_width grid_height : Z)
  (row : Z) (img : image) (col : Z) : result image :=
  let x := col * PIXEL_SIZE in
  let y := row * PIXEL_SIZE in
  c ← match _get_marker_color col row grid_width grid_height with
      | Some marker_color => Ok marker_color
      | None =>
          match data_grid !! (col, row) with
          | Some idx => py_index PALETTE idx
          | None => Ok black
          end
      end;
  mret (draw_rectangle img x y (x + PIXEL_SIZE - 1) (y + PIXEL_SIZE - 1) c).

Definition draw_grid (data_grid : gmap (Z * Z) N) (grid_width grid_height : Z)
  (img : image) : result image :=
  for_each
    (λ img row,
       for_each (draw_cell data_grid grid_width grid_height row)
                (seqZ 0 grid_width) img)
    (seqZ 0 grid_height) img.

(** Lines 60-63: the header and the frame, [header + data]. *)
Definition build_frame (data : list byte) (original_size : Z) (compress : bool)
  : result (list byte) :=
  let checksum := checksum_of data in
  header ← struct_pack (len data) original_size checksum compress;
  mret (header ++ data).

(** *** [file_to_image], on input given as [bytes]; the save of lines
    134-141 is the event [SaveImage] *)
Definition file_to_image (input_data : list byte) (output_image : string)
  (compress verbose : bool) : io (Z * Z) :=
  let data := input_data in
  let original_size := len data in
  data ← (if compress then
            let data := compress_data data in
            when verbose (
              lift (py_truediv (100 * len data) original_size);;
              print (MsgCompression original_size (len data)));;
            mret data
          else mret data);
  full_data ← lift (build_frame data original_size compress);
  let color_indices := bytes_to_indices full_data in
  let total_data_pixels := len color_indices in
  let grid_size := compute_grid_size total_data_pixels in
  let grid_width := grid_size in
  let grid_height := grid_size in
  let data_grid := build_data_grid color_indices grid_width grid_height in
  let img_width := grid_width * PIXEL_SIZE in
  let img_height := grid_height * PIXEL_SIZE in
  img ← lift (draw_grid data_grid grid_width grid_height
                (Image_new img_width img_height));
  emit (SaveImage output_image img);;
  when verbose (
    print (MsgCreated output_image);;
    lift (py_truediv (100 * Z.of_nat (size data_grid))
                     (grid_width * grid_height));;
    print (MsgGrid grid_width grid_height (Z.of_nat (size data_grid)));;
    print (MsgResolution img_width img_height);;
    lift (py_truediv (original_size * 8) (Z.of_nat (size data_grid)));;
    print (MsgEfficiency original_size (Z.of_nat (size data_grid))));;
  mret (img_width, img_height).

(** The body of the sampling loops. *)
Definition sample_cell (img : image) (grid_width grid_height : Z) (row : Z)
  (color_indices : list N) (col : Z) : result (list N) :=
  if is_marker_cell col row grid_width grid_height then Ok color_indices
  else
    let x := col * PIXEL_SIZE + PIXEL_SIZE / 2 in
    let y := row * PIXEL_SIZE + PIXEL_SIZE / 2 in
    pixel_color ← getpixel img x y;
    let closest_idx := _find_closest_color pixel_color in
    mret (color_indices ++ [closest_idx]).

Definition sample_grid (img : image) (grid_width grid_height : Z)
  : result (list N) :=
  for_each
    (λ color_indices row,
       for_each (sample_cell img grid_width grid_height row)
                (seqZ 0 grid_width) color_indices)
    (seqZ 0 grid_height) [].

(** Lines 206-233: the checksum comparison, the optional decompression and
    the output of the body sliced out of the byte array. *)
Definition verify_and_output (compressed_size expected_crc : Z)
  (compress_flag : bool) (data : list byte)
  (output_file : option string) (verbose : bool) : io (list byte) :=
  let actual_crc := checksum_of data in
  when (negb (actual_crc =? expected_crc) && verbose) (print MsgCrcMismatch);;
  data ← (if compress_flag then
            match decompress_data data with
            | Ok data' =>
                when verbose (print (MsgDecompressed compressed_size (len data')));;
                mret data'
            | Raise e =>
                print MsgDecompressionFailed;;
                lift (Raise e)
            end
          else mret data);
  emit (WriteBytes output_file data);;
  match output_file with
  | Some name =>
      when (verbose && negb (String.eqb name "-")) (
        print (MsgDecoded name (len data));;
        print (MsgCrcStatus (actual_crc =? expected_crc)))
  | None => mret tt
  end;;
  mret data.

(** Lines 197-204: the header check, the header fields and the body slice. *)
Definition decode_byte_array (byte_array : list byte)
  (output_file : option string) (verbose : bool) : io (list byte) :=
  (if len byte_array <? 13
   then lift (Raise (ValueError "Image too small for valid header"))
   else mret tt);;
  '(compressed_size, original_size, expected_crc, compress_flag) ←
     lift (struct_unpack (py_slice byte_array 0 13));
  let data := py_slice byte_array 13 (13 + compressed_size) in
  verify_and_output compressed_size expected_crc compress_flag data
    output_file verbose.

(** *** [image_to_file], on an image already opened and converted to RGB
    (from line 161 on) *)
Definition image_to_file (img : image) (output_file : option string)
  (verbose : bool) : io (list byte) :=
  let width := img_width img in
  let height := img_height img in
  let grid_width := width / PIXEL_SIZE in
  let grid_height := height / PIXEL_SIZE in
  when verbose (print (MsgDecodingGrid grid_width grid_height));;
  color_indices ← lift (sample_grid img grid_width grid_height);
  byte_array ← lift (indices_to_bytes color_indices);
  decode_byte_array byte_array output_file verbose.

(** *** [image_to_file] from its first line, on the image stored at
    [input_image] (a file, or the standard input): the open of lines
    155-159, then the rest. *)
Definition image_to_file_input (input_image : image)
  (output_file : option string) (verbose : bool) : io (list byte) :=
  img ← Image_open input_image;
  image_to_file img output_file verbose.

End Converter.

(** ** A concrete [zlib] to run the converter on

    [crc32] is the CRC-32 of zlib (reflected polynomial [0xEDB88320]).  The
    compressor of this instance stores its input behind the two-byte zlib
    header, and its decompressor rejects anything that does not start with
    that header: it stands in for deflate wherever the interface has to be
    instantiated. *)

Definition crc32_shift (c : Z) : Z :=
  if Z.testbit c 0 then Z.lxor (Z.shiftr c 1) 0xEDB88320 else Z.shiftr c 1.

Definition crc32_update (crc : Z) (b : byte) : Z :=
  Nat.iter 8 crc32_shift (Z.lxor crc (Z.of_N (byte_val b))).

Definition crc32 (data : list byte) : Z :=
  Z.lxor (foldl crc32_update 0xFFFFFFFF data) 0xFFFFFFFF.

Definition store_compress (data : list byte) : list byte := x78 :: xda :: data.

Definition store_decompress (compressed : list byte) : option (list byte) :=
  match compressed with
  | x78 :: xda :: data => Some data
  | _ => None
  end.

Definition store_zlib : Zlib :=
  {| zlib_crc32 := crc32;
     zlib_compress := store_compress;
     zlib_decompress := store_decompress |}.

(** ** Vocabulary of the statements *)

(** The squared distance from [pixel_color] to entry [i] of [palette]. *)
Definition dist_at (pixel_color : color) (palette : list color) (i : nat) : Z :=
  from_option (color_dist pixel_color) 0 (palette !! i).

(** [i] is the first index below [k] at which the distance is least. *)
Definition first_min_below (pixel_color : color) (palette : list color)
  (k i : nat) : Prop :=
  (i < k)%nat ∧
  ∀ j, (j < k)%nat →
    dist_at pixel_color palette i ≤ dist_at pixel_color palette j ∧
    ((j < i)%nat → dist_at pixel_color palette i < dist_at pixel_color palette j).

(** What the loop of [_find_closest_color] maintains after [k] entries. *)
Definition closest_inv (pixel_color : color) (palette : list color) (k : nat)
  (st : option Z * N) : Prop :=
  match st.1 with
  | None => k = 0%nat ∧ st.2 = 0%N
  | Some d =>
      d = dist_at pixel_color palette (N.to_nat st.2) ∧
      first_min_below pixel_color palette k (N.to_nat st.2)
  end.

(** The colour at step [k] of a pattern that starts with [first] and
    alternates with [second]. *)
Definition alternate (first second : color) (k : Z) : color :=
  if k mod 2 =? 0 then first else second.

(** The byte eight binary digits stand for. *)
Definition byte_of_bits (s : list bool) : byte :=
  default x00 (Byte.of_N (int2 s)).

(** The [k]-th group of [w] items of [l]. *)
Definition chunk_at {A} (w : nat) (l : list A) (k : nat) : list A :=
  take w (drop (w * k) l).

(** The data cells of a grid in the order both functions scan them: rows
    outside, columns inside, marker cells left out. *)
Definition data_cells (grid_width grid_height : Z) : list (Z * Z) :=
  row ← seqZ 0 grid_height;
  col ← seqZ 0 grid_width;
  if is_marker_cell col row grid_width grid_height then [] else [(col, row)].

(** The pixel [image_to_file] reads for a cell. *)
Definition cell_center_color (img : image) (cell : Z * Z) : color :=
  img_pixel img (cell.1 * PIXEL_SIZE + PIXEL_SIZE / 2)
                (cell.2 * PIXEL_SIZE + PIXEL_SIZE / 2).

(** The palette indices [image_to_file] collects from an image. *)
Definition sampled_indices (img : image) : list N :=
  (λ cell, _find_closest_color (cell_center_color img cell))
    <$> data_cells (img_width img / PIXEL_SIZE) (img_height img / PIXEL_SIZE).

(** The [byte_array] [image_to_file] unpacks from an image. *)
Definition unpacked_bytes (img : image) : list byte :=
  let bit_string := indices_to_bit_string (sampled_indices img) in
  (λ k, byte_of_bits (chunk_at 8 bit_string k))
    <$> seq 0 (Z.to_nat (len bit_string / 8)).

(** The cells of one row that are not marker cells. *)
Definition row_data_cells (grid_width grid_height row : Z) : list (Z * Z) :=
  col ← seqZ 0 grid_width;
  if is_marker_cell col row grid_width grid_height then [] else [(col, row)].

(** The dict after the assignments [d[k] = v] of a list of pairs, in order. *)
Definition insert_all (kvs : list (Z * Z * N)) (m : gmap (Z * Z) N)
  : gmap (Z * Z) N :=
  foldl (λ m kv, <[kv.1 := kv.2]> m) m kvs.

(** The colour [file_to_image] draws a cell in. *)
Definition cell_color (data_grid : gmap (Z * Z) N) (grid_width grid_height : Z)
  (col row : Z) : color :=
  match _get_marker_color col row grid_width grid_height with
  | Some marker_color => marker_color
  | None =>
      match data_grid !! (col, row) with
      | Some idx => default black (PALETTE !! N.to_nat idx)
      | None => black
      end
  end.

(** The rectangles of the cells of one row, and of all rows, drawn in the
    order of the loops, each cell in the colour [cell_col] gives it. *)
Definition draw_row_cells (cell_col : Z → Z → color) (row : Z) (img : image)
  (cols : list Z) : image :=
  foldl (λ img col,
           draw_rectangle img (col * PIXEL_SIZE) (row * PIXEL_SIZE)
             (col * PIXEL_SIZE + PIXEL_SIZE - 1)
             (row * PIXEL_SIZE + PIXEL_SIZE - 1) (cell_col col row))
        img cols.

Definition draw_all_rows (cell_col : Z → Z → color) (cols : list Z)
  (img : image) (rows : list Z) : image :=
  foldl (λ img row, draw_row_cells cell_col row img cols) img rows.

(** The image [file_to_image] draws for a frame. *)
Definition frame_image (full_data : list byte) : image :=
  let color_indices := bytes_to_indices full_data in
  let grid_size := compute_grid_size (len color_indices) in
  let data_grid := build_data_grid color_indices grid_size grid_size in
  draw_all_rows (cell_color data_grid grid_size grid_size) (seqZ 0 grid_size)
    (Image_new (grid_size * PIXEL_SIZE) (grid_size * PIXEL_SIZE))
    (seqZ 0 grid_size).

(** The number of cells of a grid that [_get_marker_color] paints. *)
Definition marker_cell_count (grid_width grid_height : Z) : Z :=
  len (filter (λ cell : Z * Z,
                 is_Some (_get_marker_color cell.1 cell.2 grid_width grid_height))
              (row ← seqZ 0 grid_height; col ← seqZ 0 grid_width; [(col, row)])).

(** A byte array with the four bytes of its [raw_length] field replaced. *)
Definition with_raw_length_field (byte_array raw : list byte) : list byte :=
  take 4 byte_array ++ raw ++ drop 8 byte_array.

(** The same pixels under another declared size. *)
Definition with_size (img : image) (w h : Z) : image :=
  Image w h (img_pixel img).

(** ** Concrete inputs *)

Definition ABCDE : list byte := [x41; x42; x43; x44; x45].

(** The image [file_to_image(b"ABCDE", "out.png", compress=False,
    verbose=False)] saves. *)
Definition ABCDE_image : image :=
  default (Image_new 0 0)
    (saved_image (trace (file_to_image (H := store_zlib) ABCDE "out.png" false false))).

(** A 72x72 image, black but for the cell in column 0 of row 3, which is red:
    a 9x9 grid whose 45 data cells unpack to 16 bytes, with the header
    [body_length = 4, raw_length = 0, checksum = 0, is_compressed = 0] and
    only three bytes after it. *)
Definition short_body_image : image :=
  Image 72 72 (λ x y, if (x / 8 =? 0) && (y / 8 =? 3) then (255, 0, 0) else black).

(** ** The [info] command (lines 376-434 of [main]) *)

(** One constructor per [print] of the command (they go to stdout). *)
Inductive info_line : Type :=
| InfoTitle
| InfoFile (name : string)
| InfoResolution (width height : Z)
| InfoGrid (grid_width grid_height : Z)
| InfoAspectRatio (grid_width grid_height : Z)
| InfoFormat
| InfoEncodedData
| InfoOriginalSize (original_size : Z)
| InfoCompressed (compress_flag : bool)
| InfoCompressedSize (compressed_size original_size : Z)
| InfoCrc32 (checksum : Z).

(** The inner [for col] loop: it leaves ([break]) once 35 indices are read. *)
Fixpoint info_scan_row (img : image) (grid_width grid_height row : Z)
  (cols : list Z) (color_indices : list N) : result (list N) :=
  match cols with
  | [] => Ok color_indices
  | col :: cols' =>
      if is_marker_cell col row grid_width grid_height
      then info_scan_row img grid_width grid_height row cols' color_indices
      else
        let x := col * PIXEL_SIZE + PIXEL_SIZE / 2 in
        let y := row * PIXEL_SIZE + PIXEL_SIZE / 2 in
        match getpixel img x y with
        | Ok pixel_color =>
            let closest_idx := _find_closest_color pixel_color in
            let color_indices := color_indices ++ [closest_idx] in
            if len color_indices >=? 35 then Ok color_indices
            else info_scan_row img grid_width grid_height row cols' color_indices
        | Raise e => Raise e
        end
  end.

(** The outer [for row] loop, with its own [break]. *)
Fixpoint info_scan_rows (img : image) (grid_width grid_height : Z)
  (rows : list Z) (color_indices : list N) : result (list N) :=
  match rows with
  | [] => Ok color_indices
  | row :: rows' =>
      match info_scan_row img grid_width grid_height row
              (seqZ 0 grid_width) color_indices with
      | Ok color_indices =>
          if len color_indices >=? 35 then Ok color_indices
          else info_scan_rows img grid_width grid_height rows' color_indices
      | Raise e => Raise e
      end
  end.

(** [for i in range(0, min(104, len(bit_string) - 7), 8): ...] *)
Definition info_bit_string_to_bytes (bit_string : list bool)
  : result (list byte) :=
  for_each
    (λ byte_array i,
       b ← bytearray_item (int2 (py_slice bit_string i (i + 8)));
       mret (byte_array ++ [b]))
    (py_range 0 (Z.min 104 (len bit_string - 7)) 8) [].

(** What the command prints from a parsed header, and how that ends. *)
Definition info_report (fields : Z * Z * Z * bool)
  : list info_line * result unit :=
  let '(compressed_size, original_size, checksum, compress_flag) := fields in
  let lines := [InfoEncodedData; InfoOriginalSize original_size;
                InfoCompressed compress_flag] in
  if compress_flag then
    match py_truediv (100 * compressed_size) original_size with
    | Ok _ => (lines ++ [InfoCompressedSize compressed_size original_size;
                         InfoCrc32 checksum], Ok tt)
    | Raise e => (lines, Raise e)
    end
  else (lines ++ [InfoCrc32 checksum], Ok tt).

(** The body of the [try]: the lines printed and how the body ended. *)
Definition info_try (img : image) (grid_width grid_height : Z)
  : list info_line * result unit :=
  match info_scan_rows img grid_width grid_height
          (seqZ 0 (Z.min 10 grid_height)) [] with
  | Raise e => ([], Raise e)
  | Ok color_indices =>
      let bit_string := indices_to_bit_string color_indices in
      match info_bit_string_to_bytes bit_string with
      | Raise e => ([], Raise e)
      | Ok byte_array =>
          if len byte_array >=? 13 then
            match struct_unpack (py_slice byte_array 0 13) with
            | Ok fields => info_report fields
            | Raise e => ([], Raise e)
            end
          else ([], Ok tt)
      end
  end.

(** The command on the image opened from [name] (from line 383 on):
    [except: pass] drops whatever the body raised and keeps what it had
    printed. *)
Definition info_image (name : string) (img : image) : list info_line :=
  let width := img_width img in
  let height := img_height img in
  let grid_width := width / PIXEL_SIZE in
  let grid_height := height / PIXEL_SIZE in
  [InfoTitle; InfoFile name; InfoResolution width height;
   InfoGrid grid_width grid_height; InfoAspectRatio grid_width grid_height;
   InfoFormat]
  ++ (info_try img grid_width grid_height).1.

(** The command from the open of line 382, on the image stored at [name]:
    what it prints on the standard output is what it returns.  An error of
    the open leaves the branch before anything is printed (the handler of
    [main] reports it and exits with status 1). *)
Definition info_command (name : string) (input_image : image) : io (list info_line) :=
  img ← Image_open input_image;
  mret (info_image name img).

(** ** Vocabulary of the further statements *)

(** The data cells of the rows the [info] command may scan. *)
Definition info_cells (grid_width grid_height : Z) : list (Z * Z) :=
  seqZ 0 (Z.min 10 grid_height) ≫= row_data_cells grid_width grid_height.

(** Channel by channel, [c'] is within [d] of [c]. *)
Definition color_within (d : Z) (c c' : color) : Prop :=
  Z.abs (c'.1.1 - c.1.1) ≤ d ∧ Z.abs (c'.1.2 - c.1.2) ≤ d
  ∧ Z.abs (c'.2 - c.2) ≤ d.

(** The body [file_to_image] frames. *)
Definition frame_body `{Zlib} (input_data : list byte) (compress : bool)
  : list byte :=
  if compress then compress_data input_data else input_data.

(** The events of a trace that are prints to stderr. *)
Definition is_stderr (e : event) : bool :=
  match e with Stderr _ => true | _ => false end.

Definition is_save (e : event) : bool :=
  match e with SaveImage _ _ => true | _ => false end.

Definition is_write (e : event) : bool :=
  match e with WriteBytes _ _ => true | _ => false end.

(** The line [file_to_image] prints about the compression, when it does. *)
Definition compression_line `{Zlib} (input_data : list byte)
  (compress verbose : bool) : list event :=
  if compress && verbose
  then [Stderr (MsgCompression (len input_data) (len (compress_data input_data)))]
  else [].

(** The four lines [file_to_image] prints after saving, when verbose. *)
Definition progress_lines (output_image : string) (original_size : Z)
  (grid_size data_cells : Z) (verbose : bool) : list event :=
  if verbose
  then [Stderr (MsgCreated output_image);
        Stderr (MsgGrid grid_size grid_size data_cells);
        Stderr (MsgResolution (grid_size * PIXEL_SIZE) (grid_size * PIXEL_SIZE));
        Stderr (MsgEfficiency original_size data_cells)]
  else [].

(** The number of 3-bit symbols of a frame with a body of [n] bytes. *)
Definition symbol_count (n : Z) : Z := (8 * (13 + n) + 2) / 3.

(** ** Further concrete inputs *)

(** A 72x72 image, black but for the cell in column 7 of row 5, which is
    green: a 9x9 grid whose header reads body length 0, original size 0,
    checksum 0 and the compression flag set. *)
Definition flagged_image : image :=
  Image 72 72 (λ x y, if (x / 8 =? 7) && (y / 8 =? 5) then (0, 255, 0) else black).

(** [ABCDE_image] with every pixel changed: the data cells washed out by up
    to 127 per channel, the marker cells painted grey. *)
Definition ABCDE_image_noisy : image :=
  Image 80 80
    (λ x y,
       if is_marker_cell (x / 8) (y / 8) 10 10 then (128, 128, 128)
       else
         let '(r, g, b) := img_pixel ABCDE_image x y in
         (if r =? 0 then 127 else 128, if g =? 0 then 100 else 200,
          if b =? 0 then 1 else 254)).

(** * Properties *)

(** ** The palette and the nearest-colour match *)

Section Closest.
Variable pixel_color : color.
Variable palette : list color.

Lemma closest_step_inv k c st :
  palette !! k = Some c →
  closest_inv pixel_color palette k st →
  closest_inv pixel_color palette (S k) (closest_step pixel_color st (N.of_nat k, c)).
Proof.
  intros Hc Hinv. destruct st as [[d|] i]; unfold closest_inv in *; simpl in *.
  - destruct Hinv as [-> [Hi Hmin]].
    assert (Hk : dist_at pixel_color palette k = color_dist pixel_color c)
      by (unfold dist_at; rewrite Hc; reflexivity).
    destruct (Z.ltb_spec (color_dist pixel_color c) (dist_at pixel_color palette (N.to_nat i)));
      simpl; rewrite ?Nat2N.id.
    + split; [congruence|]. split; [lia|]. intros j Hj.
      destruct (decide (j = k)) as [->|]; [lia|].
      destruct (Hmin j) as [? _]; lia.
    + split; [reflexivity|]. split; [lia|]. intros j Hj.
      destruct (decide (j = k)) as [->|]; [lia|].
      apply Hmin; lia.
  - destruct Hinv as [-> ->]. simpl. rewrite Nat2N.id.
    split; [unfold dist_at; rewrite Hc; reflexivity|].
    split; [lia|]. intros j Hj. assert (j = 0%nat) as -> by lia. lia.
Qed.

Lemma closest_fold_inv l k st :
  (∀ j c, l !! j = Some c → palette !! (k + j)%nat = Some c) →
  closest_inv pixel_color palette k st →
  closest_inv pixel_color palette (k + length l)
    (foldl (closest_step pixel_color) st (zip (N.of_nat <$> seq k (length l)) l)).
Proof.
  revert k st. induction l as [|c l IH]; intros k st Hl Hinv; simpl.
  - rewrite Nat.add_0_r. exact Hinv.
  - replace (k + S (length l))%nat with (S k + length l)%nat by lia.
    apply IH.
    + intros j c' Hj. replace (S k + j)%nat with (k + S j)%nat by lia.
      apply Hl. exact Hj.
    + apply closest_step_inv; [|exact Hinv].
      specialize (Hl 0%nat c eq_refl). rewrite Nat.add_0_r in Hl. exact Hl.
Qed.

End Closest.

Lemma find_closest_color_first_min pixel_color :
  first_min_below pixel_color PALETTE (length PALETTE)
    (N.to_nat (_find_closest_color pixel_color)).
Proof.
  pose proof (closest_fold_inv pixel_color PALETTE PALETTE 0 (None, 0%N)) as Hf.
  unfold _find_closest_color, enumerate.
  destruct (foldl _ _ _) as [[d|] i] eqn:Hfold.
  - apply Hf; [intros j c Hj; exact Hj | split; reflexivity].
  - exfalso.
    assert (Hinv : closest_inv pixel_color PALETTE (0 + length PALETTE) (None, i)).
    { apply Hf; [intros j c Hj; exact Hj | split; reflexivity]. }
    destruct Hinv as [Hlen _]. discriminate Hlen.
Qed.

Lemma N_lt_8_cases (idx : N) :
  (idx < 8)%N → idx ∈ [0; 1; 2; 3; 4; 5; 6; 7]%N.
Proof.
  intros Hidx. replace idx with (N.of_nat (N.to_nat idx)) by apply N2Nat.id.
  assert (N.to_nat idx < 8)%nat as Hlt by lia. revert Hlt.
  generalize (N.to_nat idx). intros n Hn.
  do 8 (destruct n as [|n]; [set_solver|]). lia.
Qed.

Lemma find_closest_palette_entry (idx : N) :
  (idx < 8)%N →
  ∃ c, PALETTE !! N.to_nat idx = Some c ∧ _find_closest_color c = idx.
Proof.
  intros Hidx. apply N_lt_8_cases in Hidx.
  repeat (apply elem_of_cons in Hidx as [->|Hidx];
          [eexists; split; [reflexivity|vm_compute; reflexivity]|]).
  inversion Hidx.
Qed.

(** C6. Every symbol [s] in [[0,7]] has a palette colour, and the
    nearest-colour match maps that colour back to [s]; on every colour the
    match returns an index of the palette whose squared Euclidean RGB distance
    to the colour is least, and of the indices at that least distance the
    lowest one. *)
Theorem palette_quantization (s : N) (pixel_color : color) :
  (s < 8)%N →
  (∃ c, py_index PALETTE s = Ok c ∧ _find_closest_color c = s) ∧
  (∃ c, py_index PALETTE (_find_closest_color pixel_color) = Ok c ∧
        ∀ (j : N) (cj : color), py_index PALETTE j = Ok cj →
          color_dist pixel_color c ≤ color_dist pixel_color cj ∧
          ((j < _find_closest_color pixel_color)%N →
           color_dist pixel_color c < color_dist pixel_color cj)).
Proof.
  intros Hs. split.
  - destruct (find_closest_palette_entry s Hs) as (c & Hc & Hclosest).
    exists c. unfold py_index. by rewrite Hc.
  - destruct (find_closest_color_first_min pixel_color) as [Hi Hmin].
    set (i := _find_closest_color pixel_color) in *.
    destruct (lookup_lt_is_Some_2 PALETTE (N.to_nat i) Hi) as [c Hc].
    exists c. unfold py_index. rewrite Hc. split; [reflexivity|].
    intros j cj Hj. destruct (PALETTE !! N.to_nat j) as [cj'|] eqn:Hcj; [|discriminate].
    injection Hj as ->.
    assert (Hjlt : (N.to_nat j < length PALETTE)%nat)
      by (apply lookup_lt_is_Some; eauto).
    destruct (Hmin _ Hjlt) as [Hle Hlt]. unfold dist_at in Hle, Hlt.
    rewrite Hc, Hcj in Hle, Hlt. simpl in Hle, Hlt.
    split; [exact Hle|]. intros Hji. apply Hlt. lia.
Qed.

Lemma palette_quantization_witness :
  (3 < 8)%N ∧
  (∃ c, py_index PALETTE 3 = Ok c ∧ _find_closest_color c = 3%N) ∧
  (∃ c, py_index PALETTE (_find_closest_color (250, 10, 240)) = Ok c ∧
        ∀ (j : N) (cj : color), py_index PALETTE j = Ok cj →
          color_dist (250, 10, 240) c ≤ color_dist (250, 10, 240) cj ∧
          ((j < _find_closest_color ((250, 10, 240)%Z))%N →
           color_dist (250, 10, 240) c < color_dist (250, 10, 240) cj)).
Proof.
  split; [reflexivity|]. apply (palette_quantization 3 (250, 10, 240)). reflexivity.
Defined.

(** ** The corner markers *)

(** C7. In a grid that holds the four corner blocks side by side, the marker
    colour of a cell of a block alternates between black and white: in the
    top-left block with [(col + row) mod 2] (white first), in the top-right
    block with the cell's offset from the block's inner (left) edge, in the
    bottom-left block with its offset from the block's inner (top) edge, and
    in the bottom-right block with the least of its distances to the four
    edges of the block (black first in these three). *)
Theorem marker_color_pattern (col row grid_width grid_height : Z) :
  2 * MARKER_SIZE ≤ grid_width → 2 * MARKER_SIZE ≤ grid_height →
  0 ≤ col < grid_width → 0 ≤ row < grid_height →
  let m := MARKER_SIZE in
  let left := grid_width - m in
  let top := grid_height - m in
  (col < m → row < m →
   _get_marker_color col row grid_width grid_height
   = Some (alternate white black (col + row))) ∧
  (left ≤ col → row < m →
   _get_marker_color col row grid_width grid_height
   = Some (alternate black white (col - left))) ∧
  (col < m → top ≤ row →
   _get_marker_color col row grid_width grid_height
   = Some (alternate black white (row - top))) ∧
  (left ≤ col → top ≤ row →
   _get_marker_color col row grid_width grid_height
   = Some (alternate black white
             (Z.min (Z.min (col - left) (row - top))
                    (Z.min (grid_width - 1 - col) (grid_height - 1 - row))))).
Proof.
  intros Hw Hh Hcol Hrow m left top. subst m left top.
  unfold _get_marker_color, alternate, MARKER_SIZE in *.
  repeat split; intros H1 H2;
    repeat match goal with
           | |- context [?a <? ?b] => destruct (Z.ltb_spec a b); try lia
           | |- context [?a >=? ?b] =>
               rewrite (Z.geb_leb a b); destruct (Z.leb_spec b a); try lia
           end; simpl; try reflexivity.
  replace (3 - 1 - (col - (grid_width - 3))) with (grid_width - 1 - col) by lia.
  replace (3 - 1 - (row - (grid_height - 3))) with (grid_height - 1 - row) by lia.
  reflexivity.
Qed.

Lemma marker_color_pattern_witness :
  2 * MARKER_SIZE ≤ 10 ∧ 0 ≤ 8 < 10 ∧ 10 - MARKER_SIZE ≤ 8 ∧
  _get_marker_color 8 8 10 10
  = Some (alternate black white
            (Z.min (Z.min (8 - (10 - MARKER_SIZE)) (8 - (10 - MARKER_SIZE)))
                   (Z.min (10 - 1 - 8) (10 - 1 - 8)))).
Proof.
  assert (Hw : 2 * MARKER_SIZE ≤ 10) by (unfold MARKER_SIZE; lia).
  assert (Hc : 0 ≤ 8 < 10) by lia.
  assert (Hb : 10 - MARKER_SIZE ≤ 8) by (unfold MARKER_SIZE; lia).
  split; [exact Hw|]. split; [exact Hc|]. split; [exact Hb|].
  exact (proj2 (proj2 (proj2 (marker_color_pattern 8 8 10 10 Hw Hw Hc Hc))) Hb Hb).
Defined.

(** ** The grid size *)

Lemma grow_grid_size_spec (total_data_pixels grid_size : Z) :
  grid_size ≤ grow_grid_size total_data_pixels grid_size ∧
  total_data_pixels
  ≤ count_data_positions (grow_grid_size total_data_pixels grid_size) ∧
  ∀ g', grid_size ≤ g' < grow_grid_size total_data_pixels grid_size →
        count_data_positions g' < total_data_pixels.
Proof.
  funelim (grow_grid_size total_data_pixels grid_size).
  - destruct H as (Hle & Hfit & Hmin).
    split; [lia|]. split; [exact Hfit|]. intros g' Hg'.
    destruct (decide (g' = grid_size)) as [->|]; [assumption|].
    apply Hmin. lia.
  - split; [lia|]. split; [lia|]. intros g' Hg'. lia.
Qed.

(** C4. For every symbol count [>= 0] (marker size 3), the grid size computed
    on encode is the smallest [g >= 2 * marker_size] with
    [g * g - 4 * marker_size * marker_size >= symbol_count]. *)
Theorem compute_grid_size_smallest (symbol_count : Z) :
  0 ≤ symbol_count →
  let g := compute_grid_size symbol_count in
  2 * MARKER_SIZE ≤ g ∧
  symbol_count ≤ g * g - 4 * MARKER_SIZE * MARKER_SIZE ∧
  ∀ g', 2 * MARKER_SIZE ≤ g' →
        symbol_count ≤ g' * g' - 4 * MARKER_SIZE * MARKER_SIZE → g ≤ g'.
Proof.
  intros _. cbv zeta. unfold compute_grid_size.
  destruct (grow_grid_size_spec symbol_count (2 * MARKER_SIZE))
    as (Hle & Hfit & Hmin).
  unfold count_data_positions in *. simpl in *.
  split; [exact Hle|]. split; [lia|]. intros g' Hg' Hfit'.
  destruct (Z_lt_dec g' (grow_grid_size symbol_count (2 * MARKER_SIZE)))
    as [Hlt|]; [|lia].
  specialize (Hmin g' (conj Hg' Hlt)). lia.
Qed.

Lemma compute_grid_size_smallest_witness :
  0 ≤ 48 ∧
  2 * MARKER_SIZE ≤ compute_grid_size 48 ∧
  48 ≤ compute_grid_size 48 * compute_grid_size 48 - 4 * MARKER_SIZE * MARKER_SIZE ∧
  ∀ g', 2 * MARKER_SIZE ≤ g' →
        48 ≤ g' * g' - 4 * MARKER_SIZE * MARKER_SIZE → compute_grid_size 48 ≤ g'.
Proof.
  split; [lia|]. apply (compute_grid_size_smallest 48). lia.
Defined.

(** ** Loops that append *)

Lemma for_each_pure {A S} (body : S → A → result S) (f : S → A → S) xs s :
  (∀ s x, x ∈ xs → body s x = Ok (f s x)) →
  for_each body xs s = Ok (foldl f s xs).
Proof.
  revert s. induction xs as [|x xs IH]; intros s Hbody; simpl; [reflexivity|].
  rewrite Hbody by left. apply IH. intros s' x' Hx'. apply Hbody. by right.
Qed.

Lemma for_each_append {A B} (body : list B → A → result (list B))
  (g : A → list B) xs acc :
  (∀ acc x, x ∈ xs → body acc x = Ok (acc ++ g x)) →
  for_each body xs acc = Ok (acc ++ concat (g <$> xs)).
Proof.
  revert acc. induction xs as [|x xs IH]; intros acc Hbody; csimpl.
  - by rewrite app_nil_r.
  - rewrite Hbody by left. rewrite IH.
    + by rewrite app_assoc.
    + intros acc' x' Hx'. apply Hbody. by right.
Qed.

Lemma concat_singletons {A B} (g : A → B) (xs : list A) :
  concat ((λ x, [g x]) <$> xs) = g <$> xs.
Proof. induction xs as [|x xs IH]; csimpl; [reflexivity|]. by rewrite IH. Qed.

(** ** Binary digits *)

Lemma int2_snoc s (c : bool) :
  int2 (s ++ [c]) = (2 * int2 s + (if c then 1 else 0))%N.
Proof. unfold int2. by rewrite foldl_app. Qed.

Lemma int2_lt s : (int2 s < 2 ^ N.of_nat (length s))%N.
Proof.
  induction s as [|c s IH] using rev_ind; [reflexivity|].
  rewrite int2_snoc, length_app. simpl length.
  replace (N.of_nat (length s + 1)) with (N.succ (N.of_nat (length s))) by lia.
  rewrite N.pow_succ_r'. destruct c; lia.
Qed.

Lemma format_b_byte_length b : length (format_b 8 (byte_val b)) = 8%nat.
Proof. destruct b; reflexivity. Qed.

Lemma byte_of_bits_format b : byte_of_bits (format_b 8 (byte_val b)) = b.
Proof. destruct b; reflexivity. Qed.

Lemma format_b_int2_3 s : length s = 3%nat → format_b 3 (int2 s) = s.
Proof.
  destruct s as [|[] [|[] [|[] [|]]]]; intros Hs; try discriminate Hs; reflexivity.
Qed.

Lemma bytearray_item_bits s :
  (length s ≤ 8)%nat → bytearray_item (int2 s) = Ok (byte_of_bits s).
Proof.
  intros Hs. unfold bytearray_item, byte_of_bits.
  destruct (Byte.of_N (int2 s)) as [b|] eqn:Hb; [reflexivity|].
  exfalso. apply Byte.of_N_None_iff in Hb.
  pose proof (int2_lt s) as Hlt.
  assert (2 ^ N.of_nat (length s) ≤ 2 ^ 8)%N by (apply N.pow_le_mono_r; lia).
  change (2 ^ 8)%N with 256%N in *. lia.
Qed.

(** ** Slices and ranges *)

Lemma py_slice_chunk {A} (l : list A) (w k : nat) :
  py_slice l (Z.of_nat (w * k)) (Z.of_nat (w * k) + Z.of_nat w) = chunk_at w l k.
Proof.
  unfold py_slice, chunk_at. rewrite Nat2Z.id.
  replace (Z.to_nat (Z.of_nat (w * k) + Z.of_nat w) - w * k)%nat with w by lia.
  reflexivity.
Qed.

Lemma py_range_chunks (stop : Z) (w : nat) :
  (0 < w)%nat →
  py_range 0 stop (Z.of_nat w)
  = (λ k, Z.of_nat (w * k)) <$> seq 0 (Z.to_nat ((stop + Z.of_nat w - 1) / Z.of_nat w)).
Proof.
  intros Hw. unfold py_range, seqZ. rewrite Z.sub_0_r, <- list_fmap_compose.
  apply list_fmap_ext. intros _ k _. simpl. lia.
Qed.

Lemma chunk_at_length {A} (w : nat) (l : list A) k :
  (length (chunk_at w l k) ≤ w)%nat.
Proof. unfold chunk_at. rewrite length_take. lia. Qed.

Lemma chunk_at_full {A} (w : nat) (l : list A) k :
  (w * k + w ≤ length l)%nat → length (chunk_at w l k) = w.
Proof. intros Hk. unfold chunk_at. rewrite length_take, length_drop. lia. Qed.

Lemma chunk_at_concat {A} (w : nat) (gs : list (list A)) rest k g :
  Forall (λ g, length g = w) gs →
  gs !! k = Some g →
  chunk_at w (concat gs ++ rest) k = g.
Proof.
  intros Hgs. revert k. induction Hgs as [|g0 gs Hg0 Hgs IH]; intros k Hk.
  - discriminate Hk.
  - unfold chunk_at in *. simpl. destruct k as [|k]; simpl in Hk.
    + injection Hk as ->. rewrite Nat.mul_0_r, drop_0, <- app_assoc.
      by apply take_app_length'.
    + replace (w * S k)%nat with (length g0 + w * k)%nat by lia.
      rewrite <- app_assoc, drop_app_add. apply IH, Hk.
Qed.

Lemma concat_chunks {A} (w n : nat) (l : list A) :
  length l = (w * n)%nat → concat (chunk_at w l <$> seq 0 n) = l.
Proof.
  revert l. induction n as [|n IH]; intros l Hl.
  - rewrite Nat.mul_0_r in Hl. by destruct l.
  - simpl. rewrite <- fmap_S_seq, <- list_fmap_compose.
    unfold chunk_at at 1. rewrite Nat.mul_0_r. simpl.
    rewrite <- (take_drop w l) at 3. f_equal.
    rewrite <- (IH (drop w l)) by (rewrite length_drop; lia).
    f_equal. apply list_fmap_ext. intros _ k _. unfold chunk_at. simpl.
    rewrite drop_drop. do 2 f_equal. lia.
Qed.

(** ** Bytes to 3-bit values and back *)

Lemma pad_bit_string_spec bit_string :
  pad_bit_string bit_string
  = bit_string ++ replicate (Z.to_nat ((- len bit_string) mod 3)) false.
Proof.
  funelim (pad_bit_string bit_string).
  - replace ((- len bit_string) mod 3) with 0
      by (Z.div_mod_to_equations; lia).
    simpl. by rewrite app_nil_r.
  - rewrite H. rewrite <- app_assoc. f_equal.
    change ([false] ++ ?l) with (replicate 1 false ++ l).
    rewrite <- replicate_add. f_equal.
    unfold len in *. rewrite length_app. simpl length.
    clear H Heq Heqcall. revert n. generalize (length bit_string). intros k Hk.
    Z.div_mod_to_equations; lia.
Qed.

Lemma pad_bit_string_length bit_string :
  len (pad_bit_string bit_string) mod 3 = 0.
Proof.
  rewrite pad_bit_string_spec. unfold len.
  rewrite length_app, length_replicate.
  generalize (length bit_string). intros k. Z.div_mod_to_equations; lia.
Qed.

Lemma bit_string_to_indices_chunks bit_string :
  bit_string_to_indices bit_string
  = (λ k, int2 (chunk_at 3 bit_string k))
      <$> seq 0 (Z.to_nat ((len bit_string + 2) / 3)).
Proof.
  unfold bit_string_to_indices. change 3 with (Z.of_nat 3) at 2.
  rewrite py_range_chunks by lia. rewrite <- list_fmap_compose.
  replace ((len bit_string + Z.of_nat 3 - 1) / Z.of_nat 3)
    with ((len bit_string + 2) / 3) by (f_equal; lia).
  apply list_fmap_ext. intros _ k _.
  rewrite <- (py_slice_chunk bit_string 3 k). reflexivity.
Qed.

Lemma bit_string_to_indices_lt bit_string :
  Forall (λ idx, (idx < 8)%N) (bit_string_to_indices bit_string).
Proof.
  rewrite bit_string_to_indices_chunks. apply Forall_fmap, Forall_forall.
  intros k _. simpl. pose proof (int2_lt (chunk_at 3 bit_string k)) as Hlt.
  pose proof (chunk_at_length 3 bit_string k) as Hlen.
  assert (2 ^ N.of_nat (length (chunk_at 3 bit_string k)) ≤ 2 ^ 3)%N
    by (apply N.pow_le_mono_r; lia).
  change (2 ^ 3)%N with 8%N in *. lia.
Qed.

Lemma indices_of_bit_string bit_string :
  len bit_string mod 3 = 0 →
  indices_to_bit_string (bit_string_to_indices bit_string) = bit_string.
Proof.
  intros Hlen. unfold indices_to_bit_string.
  rewrite bit_string_to_indices_chunks, <- list_fmap_compose.
  set (n := Z.to_nat ((len bit_string + 2) / 3)).
  assert (Hn : length bit_string = (3 * n)%nat).
  { subst n. unfold len in *. Z.div_mod_to_equations. lia. }
  transitivity (concat (chunk_at 3 bit_string <$> seq 0 n));
    [|by apply concat_chunks]. f_equal.
  apply list_fmap_ext. intros i k Hk. simpl.
  apply format_b_int2_3, chunk_at_full.
  apply lookup_seq in Hk. lia.
Qed.

Lemma bytes_to_indices_bit_string full_data :
  indices_to_bit_string (bytes_to_indices full_data)
  = pad_bit_string (bytes_to_bit_string full_data).
Proof. apply indices_of_bit_string, pad_bit_string_length. Qed.

Lemma bytes_to_bit_string_length full_data :
  len (bytes_to_bit_string full_data) = 8 * len full_data.
Proof.
  unfold bytes_to_bit_string, len.
  induction full_data as [|b bs IH]; csimpl; [reflexivity|].
  rewrite length_app, format_b_byte_length. lia.
Qed.

Lemma indices_to_bit_string_length color_indices :
  Forall (λ idx, (idx < 8)%N) color_indices →
  len (indices_to_bit_string color_indices) = 3 * len color_indices.
Proof.
  unfold indices_to_bit_string, len.
  induction 1 as [|idx l Hidx _ IH]; csimpl; [reflexivity|].
  rewrite length_app.
  assert (length (format_b 3 idx) = 3%nat) as ->; [|lia].
  pose proof (N_lt_8_cases idx Hidx) as Hcases.
  repeat (apply elem_of_cons in Hcases as [->|Hcases]; [reflexivity|]).
  inversion Hcases.
Qed.

(** The decode loop never raises, whatever the bit string. *)
Lemma bit_string_to_bytes_chunks bit_string :
  bit_string_to_bytes bit_string
  = Ok ((λ k, byte_of_bits (chunk_at 8 bit_string k))
          <$> seq 0 (Z.to_nat (len bit_string / 8))).
Proof.
  unfold bit_string_to_bytes.
  change (py_range 0 (len bit_string - 7) 8)
    with (py_range 0 (len bit_string - 7) (Z.of_nat 8)).
  rewrite py_range_chunks by lia.
  replace ((len bit_string - 7 + Z.of_nat 8 - 1) / Z.of_nat 8)
    with (len bit_string / 8) by (f_equal; lia).
  rewrite (for_each_append _ (λ i, [byte_of_bits (py_slice bit_string i (i + 8))])).
  - rewrite concat_singletons, <- list_fmap_compose, app_nil_l. f_equal.
    apply list_fmap_ext. intros _ k _.
    rewrite <- (py_slice_chunk bit_string 8 k). reflexivity.
  - intros acc i Hi. apply list_elem_of_fmap in Hi as (k & -> & _).
    pose proof (py_slice_chunk bit_string 8 k) as Hslice.
    change (Z.of_nat 8) with 8 in Hslice. cbv beta. rewrite Hslice.
    rewrite bytearray_item_bits by apply chunk_at_length. reflexivity.
Qed.

Lemma bit_string_to_bytes_prefix full_data rest :
  ∃ extra,
    bit_string_to_bytes (bytes_to_bit_string full_data ++ rest)
    = Ok (full_data ++ extra).
Proof.
  rewrite bit_string_to_bytes_chunks.
  set (bs := bytes_to_bit_string full_data ++ rest).
  set (out := _ <$> seq 0 _).
  exists (drop (length full_data) out). f_equal.
  rewrite <- (take_drop (length full_data) out) at 1. f_equal.
  assert (Hcount : (length full_data ≤ Z.to_nat (len bs / 8))%nat).
  { subst bs. unfold len. rewrite length_app.
    pose proof (bytes_to_bit_string_length full_data) as Hl. unfold len in Hl.
    Z.div_mod_to_equations. lia. }
  apply list_eq. intros k. rewrite lookup_take.
  destruct (decide (k < length full_data)%nat) as [Hk|Hk].
  - subst out. rewrite list_lookup_fmap, lookup_seq_lt by lia. simpl.
    destruct (lookup_lt_is_Some_2 full_data k Hk) as [b Hb]. rewrite Hb.
    f_equal. subst bs. unfold bytes_to_bit_string.
    rewrite (chunk_at_concat 8 _ rest k (format_b 8 (byte_val b))).
    + apply byte_of_bits_format.
    + apply Forall_fmap, Forall_forall. intros b' _. apply format_b_byte_length.
    + by rewrite list_lookup_fmap, Hb.
  - by rewrite lookup_ge_None_2 by lia.
Qed.

Lemma bytes_to_indices_length full_data :
  3 * len (bytes_to_indices full_data)
  = 8 * len full_data + (- (8 * len full_data)) mod 3.
Proof.
  rewrite <- indices_to_bit_string_length by apply bit_string_to_indices_lt.
  rewrite bytes_to_indices_bit_string, pad_bit_string_spec.
  unfold len at 1. rewrite length_app, length_replicate.
  rewrite <- bytes_to_bit_string_length. unfold len.
  generalize (length (bytes_to_bit_string full_data)). intros n.
  Z.div_mod_to_equations. lia.
Qed.

Lemma format_b_msb_first b :
  format_b 8 (byte_val b)
  = N.testbit (byte_val b) <$> [7; 6; 5; 4; 3; 2; 1; 0]%N.
Proof. destruct b; reflexivity. Qed.

(** C5. Unpacking the symbols that packing [b] produces gives bytes whose
    first [len(b)] are [b].  Packing writes each byte as eight bits, most
    significant first, pads the bit string with fewer than three zero bits to
    a multiple of three, and cuts it into 3-bit symbols (each below 8, the
    three bits of a symbol being its binary digits, most significant first);
    unpacking joins three bits per symbol and keeps the whole groups of eight,
    discarding the bits left over. *)
Theorem pack_unpack_roundtrip (b : list byte) :
  (∃ unpacked, indices_to_bytes (bytes_to_indices b) = Ok unpacked ∧
               py_slice unpacked 0 (len b) = b) ∧
  (bytes_to_bit_string b
   = concat ((λ x, N.testbit (byte_val x) <$> [7; 6; 5; 4; 3; 2; 1; 0]%N) <$> b)) ∧
  (∃ pad, (pad < 3)%nat ∧
          indices_to_bit_string (bytes_to_indices b)
          = bytes_to_bit_string b ++ replicate pad false ∧
          3 * len (bytes_to_indices b) = 8 * len b + Z.of_nat pad) ∧
  Forall (λ idx, (idx < 8)%N) (bytes_to_indices b) ∧
  (∀ color_indices, Forall (λ idx, (idx < 8)%N) color_indices →
     ∃ unpacked, indices_to_bytes color_indices = Ok unpacked ∧
                 len unpacked = (3 * len color_indices) / 8).
Proof.
  split; [|split; [|split; [|split]]].
  - unfold indices_to_bytes. rewrite bytes_to_indices_bit_string.
    rewrite pad_bit_string_spec.
    destruct (bit_string_to_bytes_prefix b
                (replicate (Z.to_nat ((- len (bytes_to_bit_string b)) mod 3)) false))
      as [extra Hextra].
    exists (b ++ extra). split; [exact Hextra|].
    unfold py_slice, len. simpl. rewrite drop_0, Nat2Z.id, Nat.sub_0_r.
    apply take_app_length.
  - unfold bytes_to_bit_string. f_equal. apply list_fmap_ext.
    intros _ x _. apply format_b_msb_first.
  - exists (Z.to_nat ((- len (bytes_to_bit_string b)) mod 3)).
    assert (Hbits : indices_to_bit_string (bytes_to_indices b)
                    = bytes_to_bit_string b
                      ++ replicate (Z.to_nat ((- len (bytes_to_bit_string b)) mod 3)) false)
      by (rewrite bytes_to_indices_bit_string; apply pad_bit_string_spec).
    split; [Z.div_mod_to_equations; lia|]. split; [exact Hbits|].
    rewrite <- indices_to_bit_string_length by apply bit_string_to_indices_lt.
    rewrite Hbits. unfold len at 1. rewrite length_app, length_replicate.
    rewrite <- bytes_to_bit_string_length. unfold len. lia.
  - apply bit_string_to_indices_lt.
  - intros color_indices Hlt. unfold indices_to_bytes.
    rewrite bit_string_to_bytes_chunks. eexists. split; [reflexivity|].
    unfold len at 1. rewrite length_fmap, length_seq.
    rewrite indices_to_bit_string_length by exact Hlt.
    rewrite Z2Nat.id; [reflexivity|]. unfold len. Z.div_mod_to_equations. lia.
Qed.

(** ** What [image_to_file] reads from an image *)

Lemma list_bind_concat {A B} (f : A → list B) (l : list A) :
  l ≫= f = concat (f <$> l).
Proof. induction l as [|x l IH]; csimpl; [reflexivity|]. by rewrite IH. Qed.

Lemma fmap_concat_comm {A B} (f : A → B) (ls : list (list A)) :
  f <$> concat ls = concat ((λ l : list A, f <$> l) <$> ls).
Proof.
  induction ls as [|l ls IH]; csimpl; [reflexivity|]. by rewrite fmap_app, IH.
Qed.

Lemma getpixel_cell_center (img : image) (col row : Z) :
  0 ≤ col < img_width img / PIXEL_SIZE →
  0 ≤ row < img_height img / PIXEL_SIZE →
  getpixel img (col * PIXEL_SIZE + PIXEL_SIZE / 2)
               (row * PIXEL_SIZE + PIXEL_SIZE / 2)
  = Ok (cell_center_color img (col, row)).
Proof.
  intros Hcol Hrow. unfold getpixel, cell_center_color, PIXEL_SIZE in *. simpl.
  change (8 / 2) with 4.
  assert (0 ≤ col * 8 + 4 < img_width img ∧ 0 ≤ row * 8 + 4 < img_height img)
    as [Hx Hy] by (Z.div_mod_to_equations; lia).
  destruct (Z.ltb_spec (col * 8 + 4) 0); [lia|].
  destruct (Z.ltb_spec (row * 8 + 4) 0); [lia|].
  destruct (Z.leb_spec 0 (col * 8 + 4)); [|lia].
  destruct (Z.ltb_spec (col * 8 + 4) (img_width img)); [|lia].
  destruct (Z.leb_spec 0 (row * 8 + 4)); [|lia].
  destruct (Z.ltb_spec (row * 8 + 4) (img_height img)); [|lia].
  reflexivity.
Qed.

(** The sampling loops never leave the image. *)
Lemma sample_grid_sampled (img : image) :
  sample_grid img (img_width img / PIXEL_SIZE) (img_height img / PIXEL_SIZE)
  = Ok (sampled_indices img).
Proof.
  unfold sample_grid, sampled_indices, data_cells.
  set (gw := img_width img / PIXEL_SIZE). set (gh := img_height img / PIXEL_SIZE).
  set (f := λ cell, _find_closest_color (cell_center_color img cell)).
  rewrite (for_each_append _
    (λ row, f <$> (col ← seqZ 0 gw;
                   if is_marker_cell col row gw gh then [] else [(col, row)]))).
  - rewrite app_nil_l. f_equal.
    rewrite list_bind_concat, fmap_concat_comm, <- list_fmap_compose.
    reflexivity.
  - intros acc row Hrow. apply elem_of_seqZ in Hrow.
    rewrite (for_each_append _
      (λ col, if is_marker_cell col row gw gh then [] else [f (col, row)])).
    + do 2 f_equal.
      rewrite list_bind_concat, fmap_concat_comm, <- list_fmap_compose.
      f_equal. apply list_fmap_ext. intros _ col _. simpl.
      by destruct (is_marker_cell col row gw gh).
    + intros acc' col Hcol. apply elem_of_seqZ in Hcol.
      unfold sample_cell. destruct (is_marker_cell col row gw gh).
      * by rewrite app_nil_r.
      * rewrite getpixel_cell_center by (subst gw gh; lia). reflexivity.
Qed.

Lemma indices_to_bytes_unpacked (img : image) :
  indices_to_bytes (sampled_indices img) = Ok (unpacked_bytes img).
Proof. unfold indices_to_bytes. apply bit_string_to_bytes_chunks. Qed.

(** ** The [io] monad *)

Lemma io_bind_ok {A B} (t : list event) (a : A) (k : A → io B) :
  ((t, Ok a) : io A) ≫= k = (t ++ trace (k a), outcome (k a)).
Proof. unfold mbind, io_bind. by destruct (k a). Qed.

Lemma lift_ok_bind {A B} (a : A) (k : A → io B) : lift (Ok a) ≫= k = k a.
Proof. unfold lift. rewrite io_bind_ok. by destruct (k a). Qed.

Section DecodeProperties.
Context `{Zlib}.

(** [image_to_file] is the frame decoding of the bytes unpacked from the
    image, after the line that announces the grid. *)
Lemma image_to_file_unpacked (img : image) output_file verbose :
  image_to_file img output_file verbose
  = (when verbose (print (MsgDecodingGrid (img_width img / PIXEL_SIZE)
                                           (img_height img / PIXEL_SIZE)));;
     decode_byte_array (unpacked_bytes img) output_file verbose).
Proof.
  unfold image_to_file.
  rewrite sample_grid_sampled, lift_ok_bind.
  rewrite indices_to_bytes_unpacked, lift_ok_bind. reflexivity.
Qed.

Lemma image_to_file_outcome (img : image) output_file verbose :
  outcome (image_to_file img output_file verbose)
  = outcome (decode_byte_array (unpacked_bytes img) output_file verbose).
Proof.
  rewrite image_to_file_unpacked.
  destruct verbose; simpl;
    destruct (decode_byte_array _ _ _) as [t [d|e]]; reflexivity.
Qed.

End DecodeProperties.

(** ** Decoding a frame *)

Lemma unpack_u32_nonneg bs : 0 ≤ unpack_u32 bs.
Proof.
  unfold unpack_u32.
  assert (Hfold : ∀ acc, 0 ≤ acc →
            0 ≤ foldl (λ acc b, acc * 256 + Z.of_N (byte_val b)) acc bs).
  { induction bs as [|b bs IH]; intros acc Hacc; simpl; [exact Hacc|].
    apply IH. unfold byte_val. lia. }
  apply Hfold. lia.
Qed.

Lemma struct_unpack_nonneg bs a b c flag :
  struct_unpack bs = Ok (a, b, c, flag) → 0 ≤ a ∧ 0 ≤ b ∧ 0 ≤ c.
Proof.
  unfold struct_unpack. destruct (len bs =? 13); [|discriminate].
  intros [= <- <- <- _]. auto using unpack_u32_nonneg.
Qed.

Lemma py_slice_from {A} (l : list A) (i j : Z) :
  0 ≤ i → 0 ≤ j → py_slice l i (i + j) = take (Z.to_nat j) (drop (Z.to_nat i) l).
Proof. intros Hi Hj. unfold py_slice. f_equal. lia. Qed.

Lemma py_slice_length {A} (l : list A) (i j : Z) :
  0 ≤ i → 0 ≤ j → i + j ≤ len l → len (py_slice l i (i + j)) = j.
Proof.
  intros Hi Hj Hl. rewrite py_slice_from by lia. unfold len in *.
  rewrite length_take, length_drop. lia.
Qed.

Lemma py_slice_short {A} (l : list A) (i j : Z) :
  0 ≤ i → len l - i < j → py_slice l i (i + j) = drop (Z.to_nat i) l.
Proof.
  intros Hi Hj. unfold py_slice, len in *.
  apply take_ge. rewrite length_drop. lia.
Qed.

Section FrameProperties.
Context `{Zlib}.

Lemma verify_and_output_outcome cs crc flag data output_file verbose :
  outcome (verify_and_output cs crc flag data output_file verbose)
  = if flag then decompress_data data else Ok data.
Proof.
  unfold verify_and_output, decompress_data.
  destruct (checksum_of data =? crc), verbose, flag,
    (zlib_decompress data), output_file as [name|];
    try destruct (String.eqb name "-"); reflexivity.
Qed.

Lemma verify_and_output_warning cs crc flag data output_file verbose :
  Stderr MsgCrcMismatch ∈ trace (verify_and_output cs crc flag data output_file verbose)
  ↔ checksum_of data ≠ crc ∧ verbose = true.
Proof.
  unfold verify_and_output, decompress_data.
  destruct (Z.eqb_spec (checksum_of data) crc), verbose, flag,
    (zlib_decompress data), output_file as [name|];
    try destruct (String.eqb name "-"); simpl;
    rewrite ?elem_of_cons, ?elem_of_nil;
    intuition (discriminate || congruence).
Qed.

Lemma verify_and_output_written cs crc flag data output_file verbose d :
  outcome (verify_and_output cs crc flag data output_file verbose) = Ok d →
  WriteBytes output_file d ∈ trace (verify_and_output cs crc flag data output_file verbose).
Proof.
  unfold verify_and_output, decompress_data.
  destruct (checksum_of data =? crc), verbose, flag,
    (zlib_decompress data), output_file as [name|];
    try destruct (String.eqb name "-"); simpl;
    intros [= <-] || intros [=]; rewrite ?elem_of_cons; auto.
Qed.

Lemma decode_byte_array_frame byte_array output_file verbose bl rl crc flag :
  13 ≤ len byte_array →
  struct_unpack (py_slice byte_array 0 13) = Ok (bl, rl, crc, flag) →
  decode_byte_array byte_array output_file verbose
  = verify_and_output bl crc flag (py_slice byte_array 13 (13 + bl))
      output_file verbose.
Proof.
  intros Hlen Hhdr. unfold decode_byte_array.
  destruct (Z.ltb_spec (len byte_array) 13); [lia|].
  rewrite Hhdr. unfold mbind, io_bind, mret, io_ret, lift. simpl.
  by destruct (verify_and_output _ _ _ _ _ _) as [t [d|e]].
Qed.

Lemma with_raw_length_field_frame byte_array raw bl rl crc flag :
  13 ≤ len byte_array → length raw = 4%nat →
  struct_unpack (py_slice byte_array 0 13) = Ok (bl, rl, crc, flag) →
  13 ≤ len (with_raw_length_field byte_array raw) ∧
  struct_unpack (py_slice (with_raw_length_field byte_array raw) 0 13)
  = Ok (bl, unpack_u32 raw, crc, flag) ∧
  py_slice (with_raw_length_field byte_array raw) 13 (13 + bl)
  = py_slice byte_array 13 (13 + bl).
Proof.
  intros Hlen Hraw Hhdr. unfold len in Hlen.
  destruct byte_array as [|b0 [|b1 [|b2 [|b3 [|b4 [|b5 [|b6 [|b7 rest]]]]]]]];
    simpl in Hlen; try lia.
  destruct raw as [|r0 [|r1 [|r2 [|r3 [|]]]]]; try discriminate Hraw.
  destruct rest as [|b8 [|b9 [|b10 [|b11 [|b12 rest]]]]]; simpl in Hlen; try lia.
  unfold with_raw_length_field. simpl. split; [unfold len; simpl; lia|].
  revert Hhdr. unfold struct_unpack, py_slice. simpl.
  intros [= <- _ <- <-]. split; reflexivity.
Qed.

(** C10 (amended). When the header unpacked from an image has the compressed
    flag unset, [image_to_file] returns the slice
    [byte_array[13:13+body_length]] of the byte array: the [body_length]
    bytes right after the 13-byte header when the array holds that many, and
    all the bytes after the header, fewer than [body_length], when it does
    not.  The [raw_length] field is never consulted: with any other four
    bytes in its place the frame decodes to the same events and the same
    outcome. *)
Theorem uncompressed_frame_output (img : image) (output_file : option string)
  (verbose : bool) (body_length raw_length checksum : Z) :
  13 ≤ len (unpacked_bytes img) →
  struct_unpack (py_slice (unpacked_bytes img) 0 13)
  = Ok (body_length, raw_length, checksum, false) →
  outcome (image_to_file img output_file verbose)
  = Ok (py_slice (unpacked_bytes img) 13 (13 + body_length)) ∧
  (13 + body_length ≤ len (unpacked_bytes img) →
   len (py_slice (unpacked_bytes img) 13 (13 + body_length)) = body_length) ∧
  (len (unpacked_bytes img) < 13 + body_length →
   py_slice (unpacked_bytes img) 13 (13 + body_length)
   = drop 13 (unpacked_bytes img) ∧
   len (py_slice (unpacked_bytes img) 13 (13 + body_length))
   = len (unpacked_bytes img) - 13) ∧
  ∀ raw, length raw = 4%nat →
    decode_byte_array (with_raw_length_field (unpacked_bytes img) raw)
      output_file verbose
    = decode_byte_array (unpacked_bytes img) output_file verbose.
Proof.
  intros Hlen Hhdr. split; [|split; [|split]].
  - rewrite image_to_file_outcome, (decode_byte_array_frame _ _ _ _ _ _ _ Hlen Hhdr).
    apply verify_and_output_outcome.
  - intros Hfull. apply struct_unpack_nonneg in Hhdr as (Hbl & _).
    apply py_slice_length; lia.
  - intros Hshort. rewrite py_slice_short by lia.
    split; [reflexivity|]. unfold len in *. rewrite length_drop. lia.
  - intros raw Hraw.
    destruct (with_raw_length_field_frame _ raw _ _ _ _ Hlen Hraw Hhdr)
      as (Hlen' & Hhdr' & Hbody).
    rewrite (decode_byte_array_frame _ _ _ _ _ _ _ Hlen' Hhdr').
    rewrite (decode_byte_array_frame _ _ _ _ _ _ _ Hlen Hhdr).
    by rewrite Hbody.
Qed.

(** C8 (amended). When the CRC-32 of the body differs from the header's
    checksum field, decoding does not abort on that account: the outcome is
    the one the body alone determines (its decompression when the flag is
    set, the body itself otherwise) and whatever is returned is also written
    to the output.  The mismatch warning is printed when [verbose] is set,
    and only then: a quiet decode reports nothing. *)
Theorem checksum_mismatch_advisory (img : image) (output_file : option string)
  (verbose : bool) (body_length raw_length checksum : Z) (is_compressed : bool) :
  13 ≤ len (unpacked_bytes img) →
  struct_unpack (py_slice (unpacked_bytes img) 0 13)
  = Ok (body_length, raw_length, checksum, is_compressed) →
  checksum_of (py_slice (unpacked_bytes img) 13 (13 + body_length)) ≠ checksum →
  outcome (image_to_file img output_file verbose)
  = (if is_compressed
     then decompress_data (py_slice (unpacked_bytes img) 13 (13 + body_length))
     else Ok (py_slice (unpacked_bytes img) 13 (13 + body_length))) ∧
  (Stderr MsgCrcMismatch ∈ trace (image_to_file img output_file verbose)
   ↔ verbose = true) ∧
  (∀ data, outcome (image_to_file img output_file verbose) = Ok data →
           WriteBytes output_file data
           ∈ trace (image_to_file img output_file verbose)).
Proof.
  intros Hlen Hhdr Hcrc.
  rewrite image_to_file_outcome, image_to_file_unpacked.
  rewrite (decode_byte_array_frame _ _ _ _ _ _ _ Hlen Hhdr).
  split; [apply verify_and_output_outcome|].
  set (c := verify_and_output _ _ _ _ _ _).
  assert (Htrace : ∀ e, (∀ gw gh, e ≠ Stderr (MsgDecodingGrid gw gh)) →
            e ∈ trace (when verbose (print (MsgDecodingGrid
                         (img_width img / PIXEL_SIZE)
                         (img_height img / PIXEL_SIZE)));; c)
            ↔ e ∈ trace c).
  { intros e He. destruct verbose, c as [t [d|e']]; simpl;
      rewrite ?elem_of_cons; intuition (subst; exfalso; eapply He; eauto). }
  split.
  - rewrite Htrace by discriminate. subst c.
    rewrite verify_and_output_warning. intuition.
  - intros data Hdata. rewrite Htrace by discriminate.
    by apply verify_and_output_written.
Qed.

(** C2 (amended). When the byte stream holds a full 13-byte header but fewer
    than [body_length] bytes after it, frame parsing does not fail: the body
    is all the bytes after the header, and decoding goes on with that shorter
    body (decompressing it when the flag is set, returning it otherwise). *)
Theorem short_body_decoded (img : image) (output_file : option string)
  (verbose : bool) (body_length raw_length checksum : Z) (is_compressed : bool) :
  13 ≤ len (unpacked_bytes img) →
  struct_unpack (py_slice (unpacked_bytes img) 0 13)
  = Ok (body_length, raw_length, checksum, is_compressed) →
  len (unpacked_bytes img) - 13 < body_length →
  outcome (image_to_file img output_file verbose)
  = (if is_compressed
     then decompress_data (drop 13 (unpacked_bytes img))
     else Ok (drop 13 (unpacked_bytes img))).
Proof.
  intros Hlen Hhdr Hshort.
  rewrite image_to_file_outcome, (decode_byte_array_frame _ _ _ _ _ _ _ Hlen Hhdr).
  rewrite verify_and_output_outcome, py_slice_short by lia. reflexivity.
Qed.

(** C3 (amended). A canvas whose width or height is not a multiple of the
    cell size is decoded on the rounded-down grid: [image_to_file] does on it
    exactly what it does on the same pixels cropped to whole cells, and no
    error is raised for the remainder. *)
Theorem ragged_canvas_decoded (img : image) (output_file : option string)
  (verbose : bool) :
  image_to_file img output_file verbose
  = image_to_file
      (with_size img (PIXEL_SIZE * (img_width img / PIXEL_SIZE))
                     (PIXEL_SIZE * (img_height img / PIXEL_SIZE)))
      output_file verbose.
Proof.
  rewrite !image_to_file_unpacked. unfold with_size. simpl.
  assert (Hdiv : ∀ n, PIXEL_SIZE * (n / PIXEL_SIZE) / PIXEL_SIZE = n / PIXEL_SIZE).
  { intros n. unfold PIXEL_SIZE. Z.div_mod_to_equations. lia. }
  rewrite !Hdiv. unfold unpacked_bytes, sampled_indices. simpl.
  rewrite !Hdiv. reflexivity.
Qed.

End FrameProperties.

(** ** The data cells of a grid *)

Lemma is_marker_cell_spec col row gw gh :
  is_marker_cell col row gw gh = true
  ↔ (col < MARKER_SIZE ∨ gw - MARKER_SIZE ≤ col)
    ∧ (row < MARKER_SIZE ∨ gh - MARKER_SIZE ≤ row).
Proof.
  unfold is_marker_cell. rewrite !Z.geb_leb.
  destruct (Z.ltb_spec col MARKER_SIZE), (Z.ltb_spec row MARKER_SIZE),
    (Z.leb_spec (gw - MARKER_SIZE) col), (Z.leb_spec (gh - MARKER_SIZE) row);
    simpl; split; intros; try discriminate; try reflexivity; lia.
Qed.

Lemma marker_color_none col row gw gh :
  is_marker_cell col row gw gh = false → _get_marker_color col row gw gh = None.
Proof.
  unfold is_marker_cell, _get_marker_color. rewrite !Z.geb_leb.
  destruct (col <? MARKER_SIZE), (row <? MARKER_SIZE),
    (gw - MARKER_SIZE <=? col), (gh - MARKER_SIZE <=? row);
    simpl; intros; try discriminate; reflexivity.
Qed.

Lemma elem_of_row_data_cells cell gw gh row :
  cell ∈ row_data_cells gw gh row
  ↔ cell.2 = row ∧ 0 ≤ cell.1 < gw ∧ is_marker_cell cell.1 row gw gh = false.
Proof.
  unfold row_data_cells. rewrite list_elem_of_bind. split.
  - intros (col & Hcell & Hcol). apply elem_of_seqZ in Hcol.
    destruct (is_marker_cell col row gw gh) eqn:Hm; [by apply elem_of_nil in Hcell|].
    apply list_elem_of_singleton in Hcell as ->. simpl. by rewrite Hm; repeat split; lia.
  - intros (Hrow & Hcol & Hm). exists cell.1. split.
    + rewrite Hm. destruct cell as [c r]; simpl in *; subst. by left.
    + apply elem_of_seqZ. lia.
Qed.

Lemma elem_of_data_cells cell gw gh :
  cell ∈ data_cells gw gh
  ↔ 0 ≤ cell.1 < gw ∧ 0 ≤ cell.2 < gh
    ∧ is_marker_cell cell.1 cell.2 gw gh = false.
Proof.
  change (data_cells gw gh) with (seqZ 0 gh ≫= row_data_cells gw gh).
  rewrite list_elem_of_bind. split.
  - intros (row & Hcell & Hrow). apply elem_of_seqZ in Hrow.
    apply elem_of_row_data_cells in Hcell as (<- & Hcol & Hm). repeat split; lia || done.
  - intros (Hcol & Hrow & Hm). exists cell.2. split.
    + by apply elem_of_row_data_cells.
    + apply elem_of_seqZ. lia.
Qed.

Lemma NoDup_row_data_cells gw gh row : NoDup (row_data_cells gw gh row).
Proof.
  unfold row_data_cells. apply NoDup_bind; [| |apply NoDup_seqZ].
  - intros c1 c2 cell _ _ H1 H2.
    destruct (is_marker_cell c1 row gw gh); [by apply elem_of_nil in H1|].
    destruct (is_marker_cell c2 row gw gh); [by apply elem_of_nil in H2|].
    apply list_elem_of_singleton in H1, H2. congruence.
  - intros col _. destruct (is_marker_cell col row gw gh);
      [apply NoDup_nil_2 | apply NoDup_singleton].
Qed.

Lemma NoDup_data_cells gw gh : NoDup (data_cells gw gh).
Proof.
  change (data_cells gw gh) with (seqZ 0 gh ≫= row_data_cells gw gh).
  apply NoDup_bind; [| |apply NoDup_seqZ].
  - intros r1 r2 cell _ _ H1 H2.
    apply elem_of_row_data_cells in H1 as (<- & _), H2 as (<- & _). reflexivity.
  - intros row _. apply NoDup_row_data_cells.
Qed.

Lemma length_bind_const {A B} (f : A → list B) (l : list A) (n : nat) :
  (∀ x, x ∈ l → length (f x) = n) → length (l ≫= f) = (n * length l)%nat.
Proof.
  induction l as [|x l IH]; intros Hf; csimpl; [lia|].
  rewrite length_app, Hf by left. rewrite IH; [lia|].
  intros y Hy. apply Hf. by right.
Qed.

Lemma length_row_data_cells gw gh row :
  2 * MARKER_SIZE ≤ gw →
  len (row_data_cells gw gh row)
  = if bool_decide (row < MARKER_SIZE ∨ gh - MARKER_SIZE ≤ row)
    then gw - 2 * MARKER_SIZE else gw.
Proof.
  intros Hgw. unfold MARKER_SIZE in *. unfold row_data_cells, len.
  set (f := λ col, if is_marker_cell col row gw gh then [] else [(col, row)]).
  case_bool_decide as Hrow.
  - replace gw with (3 + ((gw - 6) + 3)) at 1 by lia.
    rewrite !seqZ_app, !bind_app, !length_app by lia.
    rewrite (length_bind_const f (seqZ 0 3) 0), (length_bind_const f (seqZ _ 3) 0),
      (length_bind_const f (seqZ _ (gw - 6)) 1).
    + rewrite !length_seqZ. lia.
    + intros col Hcol. apply elem_of_seqZ in Hcol. subst f. simpl.
      destruct (is_marker_cell col row gw gh) eqn:Hm; [|reflexivity].
      apply is_marker_cell_spec in Hm. unfold MARKER_SIZE in Hm. lia.
    + intros col Hcol. apply elem_of_seqZ in Hcol. subst f. simpl.
      destruct (is_marker_cell col row gw gh) eqn:Hm; [reflexivity|].
      assert (is_marker_cell col row gw gh = true) as Hm'
        by (apply is_marker_cell_spec; unfold MARKER_SIZE; lia).
      congruence.
    + intros col Hcol. apply elem_of_seqZ in Hcol. subst f. simpl.
      destruct (is_marker_cell col row gw gh) eqn:Hm; [reflexivity|].
      assert (is_marker_cell col row gw gh = true) as Hm'
        by (apply is_marker_cell_spec; unfold MARKER_SIZE; lia).
      congruence.
  - rewrite (length_bind_const f _ 1).
    + rewrite length_seqZ. lia.
    + intros col Hcol. subst f. simpl.
      destruct (is_marker_cell col row gw gh) eqn:Hm; [|reflexivity].
      apply is_marker_cell_spec in Hm. unfold MARKER_SIZE in Hm. lia.
Qed.

Lemma length_bind_interval {B} (f : Z → list B) (a n c : Z) :
  0 ≤ n → (∀ x, a ≤ x < a + n → len (f x) = c) → 0 ≤ c →
  len (seqZ a n ≫= f) = c * n.
Proof.
  intros Hn Hf Hc. unfold len in *.
  rewrite (length_bind_const f _ (Z.to_nat c)).
  - rewrite length_seqZ. lia.
  - intros x Hx. apply elem_of_seqZ in Hx. specialize (Hf x Hx). lia.
Qed.

(** The number of data cells of a grid that holds its four markers. *)
Lemma length_data_cells gw gh :
  2 * MARKER_SIZE ≤ gw → 2 * MARKER_SIZE ≤ gh →
  len (data_cells gw gh) = gw * gh - 4 * MARKER_SIZE * MARKER_SIZE.
Proof.
  intros Hgw Hgh.
  change (data_cells gw gh) with (seqZ 0 gh ≫= row_data_cells gw gh).
  pose proof (length_row_data_cells gw gh) as Hrow.
  unfold MARKER_SIZE in *.
  assert (Hsplit : seqZ 0 gh = seqZ 0 3 ++ seqZ 3 (gh - 6) ++ seqZ (gh - 3) 3).
  { replace (seqZ 0 gh) with (seqZ 0 (3 + ((gh - 6) + 3))) by (f_equal; lia).
    rewrite !seqZ_app by lia. repeat f_equal; lia. }
  rewrite Hsplit, !bind_app. unfold len. rewrite !length_app.
  pose proof (length_bind_interval (row_data_cells gw gh) 0 3 (gw - 6)) as H1.
  pose proof (length_bind_interval (row_data_cells gw gh) 3 (gh - 6) gw) as H2.
  pose proof (length_bind_interval (row_data_cells gw gh) (gh - 3) 3 (gw - 6)) as H3.
  unfold len in H1, H2, H3, Hrow.
  rewrite !Nat2Z.inj_add, H1, H2, H3; try lia.
  - intros row Hr. rewrite Hrow by lia. rewrite bool_decide_true by lia. lia.
  - intros row Hr. rewrite Hrow by lia. rewrite bool_decide_false by lia. lia.
  - intros row Hr. rewrite Hrow by lia. rewrite bool_decide_true by lia. lia.
Qed.

(** ** The assignment of symbols to data cells *)

Lemma assign_row_spec row gw gh cols it dg :
  assign_row row gw gh cols (it, dg)
  = let cells := cols ≫= (λ col, if is_marker_cell col row gw gh
                                 then [] else [(col, row)]) in
    (drop (length cells) it, insert_all (zip cells it) dg).
Proof.
  revert it dg. induction cols as [|col cols IH]; intros it dg; csimpl.
  - by rewrite drop_0.
  - destruct (is_marker_cell col row gw gh); simpl.
    + apply IH.
    + destruct it as [|idx it]; simpl; [reflexivity|apply IH].
Qed.

Lemma insert_all_app kvs1 kvs2 m :
  insert_all (kvs1 ++ kvs2) m = insert_all kvs2 (insert_all kvs1 m).
Proof. unfold insert_all. apply foldl_app. Qed.

Lemma zip_app_drop {A B} (l1 l2 : list A) (k : list B) :
  zip (l1 ++ l2) k = zip l1 k ++ zip l2 (drop (length l1) k).
Proof.
  revert k. induction l1 as [|x l1 IH]; intros k; simpl.
  - by rewrite drop_0.
  - destruct k as [|y k]; simpl.
    + by destruct l2.
    + by rewrite IH.
Qed.

Lemma assign_rows_spec gw gh rows it dg :
  foldl (λ st row, assign_row row gw gh (seqZ 0 gw) st) (it, dg) rows
  = let cells := rows ≫= row_data_cells gw gh in
    (drop (length cells) it, insert_all (zip cells it) dg).
Proof.
  revert it dg. induction rows as [|row rows IH]; intros it dg; csimpl.
  - by rewrite drop_0.
  - rewrite assign_row_spec. cbv zeta. fold (row_data_cells gw gh row).
    rewrite IH. cbv zeta.
    rewrite drop_drop, length_app, zip_app_drop, insert_all_app. reflexivity.
Qed.

Lemma build_data_grid_spec color_indices gw gh :
  build_data_grid color_indices gw gh
  = insert_all (zip (data_cells gw gh) color_indices) ∅.
Proof. unfold build_data_grid. by rewrite assign_rows_spec. Qed.

Lemma insert_all_lookup_notin cells (it : list N) m cell :
  cell ∉ cells → insert_all (zip cells it) m !! cell = m !! cell.
Proof.
  revert it m. induction cells as [|c cells IH]; intros it m Hcell; [reflexivity|].
  destruct it as [|idx it]; [reflexivity|]. simpl.
  apply not_elem_of_cons in Hcell as [Hne Hcell].
  unfold insert_all in *. simpl. rewrite IH by exact Hcell.
  by apply lookup_insert_ne.
Qed.

Lemma insert_all_lookup cells (it : list N) m k cell :
  NoDup cells → cells !! k = Some cell →
  insert_all (zip cells it) m !! cell
  = match it !! k with Some idx => Some idx | None => m !! cell end.
Proof.
  intros Hnd. revert it m k. induction Hnd as [|c cells Hc Hnd IH];
    intros it m k Hk; [discriminate Hk|].
  destruct it as [|idx it]; [reflexivity|].
  change (insert_all (zip (c :: cells) (idx :: it)) m)
    with (insert_all (zip cells it) (<[c := idx]> m)).
  destruct k as [|k]; simpl in *.
  - injection Hk as ->. rewrite insert_all_lookup_notin by exact Hc.
    apply lookup_insert_eq.
  - rewrite (IH _ _ k Hk). destruct (it !! k); [reflexivity|].
    apply lookup_insert_ne. intros ->. apply Hc. by eapply list_elem_of_lookup_2.
Qed.

Lemma insert_all_values cells (it : list N) m cell idx (P : N → Prop) :
  Forall P it → (∀ c i, m !! c = Some i → P i) →
  insert_all (zip cells it) m !! cell = Some idx → P idx.
Proof.
  revert it m. induction cells as [|c cells IH]; intros it m Hit Hm; simpl.
  - apply Hm.
  - destruct it as [|i it]; [apply Hm|].
    change (insert_all (zip (c :: cells) (i :: it)) m)
      with (insert_all (zip cells it) (<[c := i]> m)).
    apply Forall_cons in Hit as [Hi Hit]. apply IH; [exact Hit|].
    intros c' i'. rewrite lookup_insert.
    case_decide; [by intros [= <-] | apply Hm].
Qed.

(** ** Drawing the grid *)

Lemma py_index_palette idx :
  (idx < 8)%N → py_index PALETTE idx = Ok (default black (PALETTE !! N.to_nat idx)).
Proof.
  intros Hidx. unfold py_index.
  destruct (lookup_lt_is_Some_2 PALETTE (N.to_nat idx)) as [c ->];
    [simpl; lia | reflexivity].
Qed.

Lemma draw_cell_cell_color dg gw gh row img col :
  (∀ cell idx, dg !! cell = Some idx → (idx < 8)%N) →
  draw_cell dg gw gh row img col
  = Ok (draw_rectangle img (col * PIXEL_SIZE) (row * PIXEL_SIZE)
          (col * PIXEL_SIZE + PIXEL_SIZE - 1) (row * PIXEL_SIZE + PIXEL_SIZE - 1)
          (cell_color dg gw gh col row)).
Proof.
  intros Hdg. unfold draw_cell, cell_color.
  destruct (_get_marker_color col row gw gh); [reflexivity|].
  destruct (dg !! (col, row)) as [idx|] eqn:Hidx; [|reflexivity].
  rewrite py_index_palette by eauto. reflexivity.
Qed.

Lemma draw_rectangle_cell img col row c x y :
  img_pixel (draw_rectangle img (col * PIXEL_SIZE) (row * PIXEL_SIZE)
               (col * PIXEL_SIZE + PIXEL_SIZE - 1)
               (row * PIXEL_SIZE + PIXEL_SIZE - 1) c) x y
  = if bool_decide (x / PIXEL_SIZE = col ∧ y / PIXEL_SIZE = row)
    then c else img_pixel img x y.
Proof.
  unfold draw_rectangle, PIXEL_SIZE. simpl.
  case_bool_decide as Hxy.
  - destruct (Z.leb_spec (col * 8) x), (Z.leb_spec x (col * 8 + 8 - 1)),
      (Z.leb_spec (row * 8) y), (Z.leb_spec y (row * 8 + 8 - 1));
      try reflexivity; exfalso; Z.div_mod_to_equations; lia.
  - destruct (Z.leb_spec (col * 8) x), (Z.leb_spec x (col * 8 + 8 - 1)),
      (Z.leb_spec (row * 8) y), (Z.leb_spec y (row * 8 + 8 - 1));
      try reflexivity; exfalso; apply Hxy; Z.div_mod_to_equations; lia.
Qed.

Section Drawing.
Variable cell_col : Z → Z → color.

Lemma draw_row_cells_size row img cols :
  img_width (draw_row_cells cell_col row img cols) = img_width img ∧
  img_height (draw_row_cells cell_col row img cols) = img_height img.
Proof.
  revert img. induction cols as [|col cols IH]; intros img; [done|].
  simpl. destruct (IH (draw_rectangle img (col * PIXEL_SIZE) (row * PIXEL_SIZE)
             (col * PIXEL_SIZE + PIXEL_SIZE - 1)
             (row * PIXEL_SIZE + PIXEL_SIZE - 1) (cell_col col row))) as [-> ->].
  done.
Qed.

Lemma draw_row_cells_pixel row img cols x y :
  img_pixel (draw_row_cells cell_col row img cols) x y
  = if bool_decide (x / PIXEL_SIZE ∈ cols ∧ y / PIXEL_SIZE = row)
    then cell_col (x / PIXEL_SIZE) row else img_pixel img x y.
Proof.
  revert img. induction cols as [|col cols IH]; intros img.
  - unfold draw_row_cells. cbn [foldl]. rewrite bool_decide_false; [reflexivity|].
    intros [Hin _]. by apply elem_of_nil in Hin.
  - unfold draw_row_cells in *. cbn [foldl]. rewrite IH, draw_rectangle_cell.
    repeat case_bool_decide; try reflexivity;
      rewrite elem_of_cons in *; try (exfalso; tauto || lia);
      destruct_and?; destruct_or?; subst; try reflexivity; exfalso; tauto.
Qed.

Lemma draw_all_rows_size cols img rows :
  img_width (draw_all_rows cell_col cols img rows) = img_width img ∧
  img_height (draw_all_rows cell_col cols img rows) = img_height img.
Proof.
  revert img. induction rows as [|row rows IH]; intros img; [done|].
  simpl. destruct (IH (draw_row_cells cell_col row img cols)) as [-> ->].
  apply draw_row_cells_size.
Qed.

Lemma draw_all_rows_pixel cols img rows x y :
  img_pixel (draw_all_rows cell_col cols img rows) x y
  = if bool_decide (x / PIXEL_SIZE ∈ cols ∧ y / PIXEL_SIZE ∈ rows)
    then cell_col (x / PIXEL_SIZE) (y / PIXEL_SIZE) else img_pixel img x y.
Proof.
  revert img. induction rows as [|row rows IH]; intros img.
  - unfold draw_all_rows. cbn [foldl]. rewrite bool_decide_false; [reflexivity|].
    intros [_ Hin]. by apply elem_of_nil in Hin.
  - unfold draw_all_rows in *. cbn [foldl]. rewrite IH, draw_row_cells_pixel.
    repeat case_bool_decide; try reflexivity;
      rewrite elem_of_cons in *; try (exfalso; tauto || lia);
      destruct_and?; destruct_or?; subst; try reflexivity; exfalso; tauto.
Qed.

End Drawing.

Lemma draw_grid_drawn dg gw gh img :
  (∀ cell idx, dg !! cell = Some idx → (idx < 8)%N) →
  draw_grid dg gw gh img
  = Ok (draw_all_rows (cell_color dg gw gh) (seqZ 0 gw) img (seqZ 0 gh)).
Proof.
  intros Hdg. unfold draw_grid, draw_all_rows.
  apply for_each_pure. intros img' row _. unfold draw_row_cells.
  apply for_each_pure. intros img'' col _. by apply draw_cell_cell_color.
Qed.

(** ** The header *)

Lemma byte_of_Z_val z : Z.of_N (byte_val (byte_of_Z z)) = z mod 256.
Proof.
  unfold byte_of_Z, byte_val.
  pose proof (Z.mod_pos_bound z 256 ltac:(lia)) as Hz.
  destruct (Byte.of_N (Z.to_N (z mod 256))) as [b|] eqn:Hb; simpl.
  - apply Byte.to_of_N in Hb. rewrite Hb. lia.
  - apply Byte.of_N_None_iff in Hb. lia.
Qed.

Lemma pack_unpack_u32 v :
  0 ≤ v < 2 ^ 32 →
  ∃ b0 b1 b2 b3, pack_u32 v = Ok [b0; b1; b2; b3] ∧ unpack_u32 [b0; b1; b2; b3] = v.
Proof.
  intros Hv. unfold pack_u32.
  destruct (Z.leb_spec 0 v); [|lia]. destruct (Z.ltb_spec v (2 ^ 32)); [|lia].
  do 4 eexists. split; [reflexivity|].
  unfold unpack_u32. simpl. rewrite !byte_of_Z_val.
  change (2 ^ 32) with 4294967296 in *. Z.div_mod_to_equations. lia.
Qed.

Lemma struct_pack_unpack a b c flag :
  0 ≤ a < 2 ^ 32 → 0 ≤ b < 2 ^ 32 → 0 ≤ c < 2 ^ 32 →
  ∃ header, struct_pack a b c flag = Ok header ∧ length header = 13%nat ∧
            struct_unpack header = Ok (a, b, c, flag).
Proof.
  intros Ha Hb Hc. unfold struct_pack.
  destruct (pack_unpack_u32 a Ha) as (a0 & a1 & a2 & a3 & -> & Hua).
  destruct (pack_unpack_u32 b Hb) as (b0 & b1 & b2 & b3 & -> & Hub).
  destruct (pack_unpack_u32 c Hc) as (c0 & c1 & c2 & c3 & -> & Huc).
  eexists. split; [reflexivity|]. split; [reflexivity|].
  unfold struct_unpack, py_slice. simpl. rewrite Hua, Hub, Huc.
  by destruct flag.
Qed.

Section EncodeProperties.
Context `{Zlib}.

Lemma checksum_of_range data : 0 ≤ checksum_of data < 2 ^ 32.
Proof.
  unfold checksum_of. change 0xFFFFFFFF with (Z.ones 32).
  rewrite Z.land_ones by lia. apply Z.mod_pos_bound. lia.
Qed.

Lemma build_frame_ok data original_size compress :
  len data < 2 ^ 32 → 0 ≤ original_size < 2 ^ 32 →
  ∃ header, build_frame data original_size compress = Ok (header ++ data) ∧
            length header = 13%nat ∧
            struct_unpack header
            = Ok (len data, original_size, checksum_of data, compress).
Proof.
  intros Hdata Hsize. unfold build_frame.
  destruct (struct_pack_unpack (len data) original_size (checksum_of data) compress)
    as (header & -> & Hlen & Hunpack);
    [unfold len in *; lia | lia | apply checksum_of_range |].
  exists header. auto.
Qed.

Lemma build_frame_too_long data original_size compress :
  2 ^ 32 ≤ len data ∨ 2 ^ 32 ≤ original_size →
  build_frame data original_size compress = Raise StructError.
Proof.
  intros Hlong. unfold build_frame, struct_pack, pack_u32.
  destruct (Z.leb_spec 0 (len data)), (Z.ltb_spec (len data) (2 ^ 32));
    simpl; try reflexivity.
  destruct (Z.leb_spec 0 original_size), (Z.ltb_spec original_size (2 ^ 32));
    simpl; try reflexivity.
  lia.
Qed.

End EncodeProperties.

(** ** From a frame to its image and back to the bytes *)

Lemma compute_grid_size_fits total_data_pixels :
  2 * MARKER_SIZE ≤ compute_grid_size total_data_pixels ∧
  total_data_pixels ≤ count_data_positions (compute_grid_size total_data_pixels).
Proof.
  unfold compute_grid_size.
  destruct (grow_grid_size_spec total_data_pixels (2 * MARKER_SIZE))
    as (Hle & Hfit & _). auto.
Qed.

Lemma frame_image_size full_data :
  let g := compute_grid_size (len (bytes_to_indices full_data)) in
  img_width (frame_image full_data) = g * PIXEL_SIZE ∧
  img_height (frame_image full_data) = g * PIXEL_SIZE.
Proof. unfold frame_image. cbv zeta. apply draw_all_rows_size. Qed.

Lemma frame_image_sampled full_data :
  let color_indices := bytes_to_indices full_data in
  let g := compute_grid_size (len color_indices) in
  sampled_indices (frame_image full_data)
  = color_indices
    ++ replicate (length (data_cells g g) - length color_indices) 0%N.
Proof.
  intros syms g.
  destruct (compute_grid_size_fits (len syms)) as [Hg Hfit]. fold g in Hg, Hfit.
  pose proof (length_data_cells g g Hg Hg) as Hcells.
  unfold count_data_positions in Hfit. unfold MARKER_SIZE in *.
  assert (Hlen : (length syms ≤ length (data_cells g g))%nat)
    by (unfold len in *; lia).
  destruct (frame_image_size full_data) as [Hw Hh]. fold syms g in Hw, Hh.
  assert (Hdiv : g * PIXEL_SIZE / PIXEL_SIZE = g)
    by (unfold PIXEL_SIZE; Z.div_mod_to_equations; lia).
  unfold sampled_indices. rewrite Hw, Hh, Hdiv.
  apply list_eq. intros k. rewrite list_lookup_fmap.
  destruct (data_cells g g !! k) as [[col row]|] eqn:Hk; simpl.
  - assert (Hcell : (col, row) ∈ data_cells g g) by (by eapply list_elem_of_lookup_2).
    apply elem_of_data_cells in Hcell as (Hcol & Hrow & Hm). simpl in *.
    unfold cell_center_color, frame_image. fold syms g. simpl.
    rewrite draw_all_rows_pixel.
    assert (Hx : (col * PIXEL_SIZE + PIXEL_SIZE / 2) / PIXEL_SIZE = col)
      by (unfold PIXEL_SIZE; Z.div_mod_to_equations; lia).
    assert (Hy : (row * PIXEL_SIZE + PIXEL_SIZE / 2) / PIXEL_SIZE = row)
      by (unfold PIXEL_SIZE; Z.div_mod_to_equations; lia).
    rewrite Hx, Hy.
    rewrite bool_decide_true by (rewrite !elem_of_seqZ; lia).
    unfold cell_color. rewrite marker_color_none by exact Hm.
    rewrite build_data_grid_spec.
    rewrite (insert_all_lookup _ _ _ k (col, row) (NoDup_data_cells g g) Hk).
    rewrite lookup_empty.
    destruct (syms !! k) as [idx|] eqn:Hidx.
    + rewrite lookup_app_l by (by eapply lookup_lt_Some). rewrite Hidx. f_equal.
      assert (Hlt : (idx < 8)%N).
      { pose proof (bit_string_to_indices_lt
                      (pad_bit_string (bytes_to_bit_string full_data))) as Hall.
        rewrite Forall_forall in Hall. apply Hall.
        by eapply list_elem_of_lookup_2. }
      destruct (find_closest_palette_entry idx Hlt) as (c & -> & Hc). exact Hc.
    + apply lookup_ge_None in Hidx. apply lookup_lt_Some in Hk.
      rewrite lookup_app_r by lia. rewrite lookup_replicate_2 by lia.
      reflexivity.
  - apply lookup_ge_None in Hk. symmetry. apply lookup_ge_None.
    rewrite length_app, length_replicate. lia.
Qed.

Lemma indices_to_bit_string_app l1 l2 :
  indices_to_bit_string (l1 ++ l2)
  = indices_to_bit_string l1 ++ indices_to_bit_string l2.
Proof. unfold indices_to_bit_string. by rewrite fmap_app, concat_app. Qed.

(** The bytes unpacked from the image of a frame start with the frame. *)
Lemma frame_image_unpacked full_data :
  ∃ extra, unpacked_bytes (frame_image full_data) = full_data ++ extra.
Proof.
  pose proof (indices_to_bytes_unpacked (frame_image full_data)) as Hunpacked.
  unfold indices_to_bytes in Hunpacked.
  rewrite frame_image_sampled, indices_to_bit_string_app in Hunpacked.
  rewrite bytes_to_indices_bit_string, pad_bit_string_spec, <- app_assoc in Hunpacked.
  destruct (bit_string_to_bytes_prefix full_data
              (replicate (Z.to_nat ((- len (bytes_to_bit_string full_data)) mod 3)) false
               ++ indices_to_bit_string
                    (replicate
                       (length (data_cells
                                  (compute_grid_size (len (bytes_to_indices full_data)))
                                  (compute_grid_size (len (bytes_to_indices full_data))))
                        - length (bytes_to_indices full_data)) 0%N)))
    as [extra Hextra].
  exists extra. congruence.
Qed.

(** ** [file_to_image] and [image_to_file] on a frame *)

Lemma emit_bind {B} (e : event) (k : unit → io B) :
  emit e ≫= k = (e :: trace (k tt), outcome (k tt)).
Proof. unfold emit. by rewrite io_bind_ok. Qed.

Lemma py_truediv_ok a b : b ≠ 0 → py_truediv a b = Ok tt.
Proof. intros Hb. unfold py_truediv. by destruct (Z.eqb_spec b 0). Qed.

Lemma frame_length_indices header body :
  length header = 13%nat → 35 ≤ len (bytes_to_indices (header ++ body)).
Proof.
  intros Hheader. pose proof (bytes_to_indices_length (header ++ body)) as Hlen.
  unfold len in *. rewrite length_app, Hheader in Hlen.
  Z.div_mod_to_equations. lia.
Qed.

Lemma frame_data_grid header body :
  length header = 13%nat →
  let color_indices := bytes_to_indices (header ++ body) in
  let g := compute_grid_size (len color_indices) in
  let data_grid := build_data_grid color_indices g g in
  (∀ cell idx, data_grid !! cell = Some idx → (idx < 8)%N) ∧
  size data_grid ≠ 0%nat ∧ g * g ≠ 0.
Proof.
  intros Hheader syms g dg.
  pose proof (frame_length_indices header body Hheader) as Hsyms. fold syms in Hsyms.
  destruct (compute_grid_size_fits (len syms)) as [Hg Hfit]. fold g in Hg, Hfit.
  pose proof (length_data_cells g g Hg Hg) as Hcells.
  unfold count_data_positions in Hfit. unfold MARKER_SIZE in *.
  subst dg. rewrite build_data_grid_spec. split; [|split].
  - intros cell idx. apply (insert_all_values _ _ _ _ _ (λ i, (i < 8)%N)).
    + apply bit_string_to_indices_lt.
    + intros c i. by rewrite lookup_empty.
  - destruct (lookup_lt_is_Some_2 (data_cells g g) 0) as [cell Hcell];
      [unfold len in *; lia|].
    destruct (lookup_lt_is_Some_2 syms 0) as [idx Hidx]; [unfold len in *; lia|].
    apply (map_size_ne_0_lookup_2 _ cell).
    rewrite (insert_all_lookup _ _ _ 0 cell (NoDup_data_cells g g) Hcell), Hidx.
    by eexists.
  - nia.
Qed.

Section RoundTrip.
Context `{Zlib}.

(** What [file_to_image] does once the frame is built. *)
Lemma file_to_image_frame (input_data : list byte) (output_image : string)
  (compress verbose : bool) header :
  let body := if compress then compress_data input_data else input_data in
  length header = 13%nat →
  build_frame body (len input_data) compress = Ok (header ++ body) →
  (compress = true → verbose = true → input_data ≠ []) →
  outcome (file_to_image input_data output_image compress verbose)
  = Ok (img_width (frame_image (header ++ body)),
        img_height (frame_image (header ++ body))) ∧
  saved_image (trace (file_to_image input_data output_image compress verbose))
  = Some (frame_image (header ++ body)).
Proof.
  intros body Hheader Hframe Hdiv0.
  destruct (frame_data_grid header body Hheader) as (Hdg & Hsize & Hgg).
  destruct (frame_image_size (header ++ body)) as [-> ->].
  assert (Hdraw := draw_grid_drawn _
            (compute_grid_size (len (bytes_to_indices (header ++ body))))
            (compute_grid_size (len (bytes_to_indices (header ++ body))))
            (Image_new
               (compute_grid_size (len (bytes_to_indices (header ++ body))) * PIXEL_SIZE)
               (compute_grid_size (len (bytes_to_indices (header ++ body))) * PIXEL_SIZE))
            Hdg).
  fold (frame_image (header ++ body)) in Hdraw.
  unfold file_to_image. cbv zeta.
  assert (Hstage :
    ∃ t, (∀ e, e ∈ t → ∃ m, e = Stderr m) ∧
      (if compress
       then when verbose
              (lift (py_truediv (100 * len (compress_data input_data)) (len input_data));;
               print (MsgCompression (len input_data) (len (compress_data input_data))));;
            mret (compress_data input_data)
       else mret input_data) = ((t, Ok body) : io (list byte))).
  { subst body. destruct compress; [|exists []; split; [by intros e ?%elem_of_nil|done]].
    destruct verbose; [|exists []; split; [by intros e ?%elem_of_nil|done]].
    rewrite py_truediv_ok.
    - eexists [_]. split; [|reflexivity].
      intros e ->%list_elem_of_singleton. by eexists.
    - intros Hz. apply (Hdiv0 eq_refl eq_refl).
      unfold len in Hz. destruct input_data; [done|simpl in Hz; lia]. }
  destruct Hstage as (t & Ht & ->).
  rewrite io_bind_ok, Hframe, lift_ok_bind, Hdraw, lift_ok_bind, emit_bind.
  assert (Hsaved : ∀ t' acc, (∀ e, e ∈ t' → ∃ m, e = Stderr m) →
            foldl (λ acc e, match e with SaveImage _ img => Some img | _ => acc end)
              acc t' = acc).
  { induction t' as [|e t' IH]; intros acc Ht'; [done|]. simpl.
    destruct (Ht' e) as [m ->]; [by left|]. apply IH.
    intros e' He'. apply Ht'. by right. }
  destruct verbose; unfold when; rewrite ?py_truediv_ok by lia;
    generalize (frame_image (header ++ body));
    generalize (size (build_data_grid (bytes_to_indices (header ++ body))
                        (compute_grid_size (len (bytes_to_indices (header ++ body))))
                        (compute_grid_size (len (bytes_to_indices (header ++ body))))));
    generalize (compute_grid_size (len (bytes_to_indices (header ++ body))));
    intros g n img; simpl; (split; [reflexivity|]);
    unfold saved_image; rewrite foldl_app, (Hsaved t None Ht); reflexivity.
Qed.

(** [image_to_file] on the image of a frame whose header describes its body. *)
Lemma image_to_file_frame_image header body raw_length flag output_file verbose :
  length header = 13%nat →
  struct_unpack header = Ok (len body, raw_length, checksum_of body, flag) →
  outcome (image_to_file (frame_image (header ++ body)) output_file verbose)
  = if flag then decompress_data body else Ok body.
Proof.
  intros Hheader Hhdr.
  destruct (frame_image_unpacked (header ++ body)) as [extra Hextra].
  rewrite image_to_file_outcome, Hextra.
  assert (Hslice : py_slice ((header ++ body) ++ extra) 0 13 = header).
  { unfold py_slice. simpl. rewrite drop_0, <- app_assoc.
    by apply take_app_length'. }
  assert (Hbody : py_slice ((header ++ body) ++ extra) 13 (13 + len body) = body).
  { rewrite py_slice_from by (unfold len; lia).
    rewrite <- app_assoc, drop_app_length' by done.
    unfold len. rewrite Nat2Z.id. apply take_app_length. }
  rewrite (decode_byte_array_frame _ _ _ (len body) raw_length (checksum_of body) flag).
  - rewrite Hbody. apply verify_and_output_outcome.
  - unfold len. rewrite !length_app, Hheader. lia.
  - by rewrite Hslice.
Qed.

(** An input of [2^32] bytes or more does not fit the header: nothing is
    drawn or saved. *)
Lemma file_to_image_too_long (input_data : list byte) (output_image : string)
  (compress verbose : bool) :
  2 ^ 32 ≤ len input_data →
  outcome (file_to_image input_data output_image compress verbose)
  = Raise StructError ∧
  saved_image (trace (file_to_image input_data output_image compress verbose))
  = None.
Proof.
  intros Hlong. unfold file_to_image. cbv zeta.
  assert (Hstage :
    ∃ t body, saved_image t = None ∧
      (if compress
       then when verbose
              (lift (py_truediv (100 * len (compress_data input_data)) (len input_data));;
               print (MsgCompression (len input_data) (len (compress_data input_data))));;
            mret (compress_data input_data)
       else mret input_data) = ((t, Ok body) : io (list byte))).
  { destruct compress; [|exists [], input_data; by split].
    destruct verbose; [|exists [], (compress_data input_data); by split].
    rewrite py_truediv_ok by lia.
    exists [Stderr (MsgCompression (len input_data) (len (compress_data input_data)))],
      (compress_data input_data).
    split; reflexivity. }
  destruct Hstage as (t & body & Ht & ->).
  rewrite io_bind_ok, build_frame_too_long by (right; exact Hlong).
  simpl. rewrite app_nil_r. by split.
Qed.

(** The progress line of the compression divides by the size of the input. *)
Lemma file_to_image_empty_compress_verbose (output_image : string) :
  file_to_image [] output_image true true = ([], Raise ZeroDivisionError).
Proof. reflexivity. Qed.

End RoundTrip.

(** ** The round trip *)

Section Claims.
Context `{Zlib}.

(** C9. Encoding [b"ABCDE"] with [compress=False] builds a frame of the
    13-byte header followed by a body of 5 bytes, with the header fields
    [body_length = 5], [raw_length = 5] and [is_compressed = 0]; the frame
    makes exactly [48 = ceil((13 + 5) * 8 / 3)] symbols; the grid is 10x10,
    with 64 data cells (at least 48) beside 4 marker blocks of 9 cells each;
    the canvas saved is 80x80, and decoding it returns exactly [b"ABCDE"]. *)
Theorem encode_ABCDE (output_image : string) (verbose : bool)
  (output_file : option string) (verbose' : bool) :
  ∃ full_data img,
    build_frame ABCDE (len ABCDE) false = Ok full_data ∧
    py_slice full_data 13 (len full_data) = ABCDE ∧ len ABCDE = 5 ∧
    struct_unpack (py_slice full_data 0 13)
    = Ok (5, 5, checksum_of ABCDE, false) ∧
    len (bytes_to_indices full_data) = 48 ∧
    (13 + 5) * 8 = 3 * 48 ∧
    compute_grid_size 48 = 10 ∧
    len (data_cells 10 10) = 64 ∧ 48 ≤ 64 ∧
    marker_cell_count 10 10 = 4 * 9 ∧
    saved_image (trace (file_to_image ABCDE output_image false verbose)) = Some img ∧
    outcome (file_to_image ABCDE output_image false verbose) = Ok (80, 80) ∧
    img_width img = 80 ∧ img_height img = 80 ∧
    outcome (image_to_file img output_file verbose') = Ok ABCDE.
Proof.
  destruct (build_frame_ok ABCDE (len ABCDE) false)
    as (header & Hframe & Hheader & Hhdr); [vm_compute; done..|].
  destruct (file_to_image_frame ABCDE output_image false verbose header
              Hheader Hframe) as [Houtcome Hsaved]; [discriminate|].
  cbv zeta in *.
  assert (Hsyms : len (bytes_to_indices (header ++ ABCDE)) = 48).
  { pose proof (bytes_to_indices_length (header ++ ABCDE)) as Hlen.
    unfold len in *. rewrite length_app, Hheader in Hlen. simpl in Hlen.
    Z.div_mod_to_equations. lia. }
  assert (Hgrid : compute_grid_size 48 = 10) by (vm_compute; reflexivity).
  destruct (frame_image_size (header ++ ABCDE)) as [Hw Hh].
  rewrite Hsyms, Hgrid in Hw, Hh. change (10 * PIXEL_SIZE) with 80 in Hw, Hh.
  rewrite Hw, Hh in Houtcome.
  exists (header ++ ABCDE), (frame_image (header ++ ABCDE)).
  split; [exact Hframe|]. split.
  { unfold len. rewrite length_app, Hheader.
    unfold py_slice. rewrite drop_app_length' by done. by apply take_ge. }
  split; [reflexivity|]. split.
  { replace (py_slice (header ++ ABCDE) 0 13) with header; [exact Hhdr|].
    unfold py_slice. simpl. rewrite drop_0. symmetry. by apply take_app_length'. }
  split; [exact Hsyms|]. split; [reflexivity|]. split; [exact Hgrid|].
  split; [vm_compute; reflexivity|]. split; [lia|].
  split; [vm_compute; reflexivity|].
  split; [exact Hsaved|]. split; [exact Houtcome|].
  split; [exact Hw|]. split; [exact Hh|].
  by rewrite (image_to_file_frame_image header ABCDE (len ABCDE) false _ _ Hheader Hhdr).
Qed.

End Claims.

(** ** Opening an image *)

Lemma Image_open_outcome {B} (input_image : image) (k : image → io B) :
  outcome (Image_open input_image ≫= k)
  = if 2 * MAX_IMAGE_PIXELS
       <? Z.max 1 (img_width input_image) * Z.max 1 (img_height input_image)
    then Raise DecompressionBombError
    else outcome (k input_image).
Proof.
  unfold Image_open. cbv zeta.
  destruct (2 * MAX_IMAGE_PIXELS <? _); [reflexivity|].
  destruct (MAX_IMAGE_PIXELS <? _); unfold outcome; simpl;
    destruct (k input_image) as [t r]; reflexivity.
Qed.

Lemma Image_open_ret {B} (input_image : image) (f : image → B) :
  Image_open input_image ≫= (λ img, mret (f img))
  = if 2 * MAX_IMAGE_PIXELS
       <? Z.max 1 (img_width input_image) * Z.max 1 (img_height input_image)
    then ([], Raise DecompressionBombError)
    else ((if MAX_IMAGE_PIXELS
              <? Z.max 1 (img_width input_image) * Z.max 1 (img_height input_image)
           then [Stderr (MsgDecompressionBombWarning
                           (Z.max 1 (img_width input_image)
                            * Z.max 1 (img_height input_image)))]
           else []),
          Ok (f input_image)).
Proof.
  unfold Image_open. cbv zeta.
  destruct (2 * MAX_IMAGE_PIXELS <? _); [reflexivity|].
  destruct (MAX_IMAGE_PIXELS <? _); reflexivity.
Qed.

(** An image of at least one pixel each way is opened when it has at most
    twice [MAX_IMAGE_PIXELS] pixels, and refused otherwise. *)
Lemma Image_open_limit {B} (input_image : image) (k : image → io B) :
  0 < img_width input_image → 0 < img_height input_image →
  outcome (Image_open input_image ≫= k)
  = if bool_decide (img_width input_image * img_height input_image
                    ≤ 2 * MAX_IMAGE_PIXELS)
    then outcome (k input_image)
    else Raise DecompressionBombError.
Proof.
  intros Hw Hh. rewrite Image_open_outcome.
  rewrite !Z.max_r by lia.
  destruct (Z.ltb_spec (2 * MAX_IMAGE_PIXELS)
              (img_width input_image * img_height input_image)).
  - by rewrite bool_decide_false by lia.
  - by rewrite bool_decide_true by lia.
Qed.

(** The canvas of a frame stays within the limit of [Image.open] up to a
    body of 1,048,317 bytes (a grid of 1672 cells a side). *)
Lemma canvas_within_limit (n : Z) :
  compute_grid_size (symbol_count n) * PIXEL_SIZE
  * (compute_grid_size (symbol_count n) * PIXEL_SIZE) ≤ 2 * MAX_IMAGE_PIXELS
  ↔ n ≤ 1048317.
Proof.
  unfold compute_grid_size.
  destruct (grow_grid_size_spec (symbol_count n) (2 * MARKER_SIZE))
    as (Hle & Hfit & Hmin).
  set (g := grow_grid_size (symbol_count n) (2 * MARKER_SIZE)) in *.
  unfold count_data_positions, MARKER_SIZE, PIXEL_SIZE, MAX_IMAGE_PIXELS in *.
  cbv zeta in *.
  assert (Hsyms : symbol_count n ≤ 2795548 ↔ n ≤ 1048317)
    by (unfold symbol_count; split; intros; Z.div_mod_to_equations; lia).
  rewrite <- Hsyms. split.
  - intros Hpixels. assert (g ≤ 1672) by nia. nia.
  - intros Hn. destruct (Z_le_dec g 1672) as [Hg|Hg]; [nia|].
    assert (Hcount : 1672 * 1672 - 4 * 3 * 3 < symbol_count n)
      by (apply (Hmin 1672); lia).
    lia.
Qed.

(** * Further properties of the converter *)

(** ** The nearest-colour match under noise *)

Lemma closest_within_127 (s : N) (c pixel_color : color) :
  PALETTE !! N.to_nat s = Some c →
  color_within 127 c pixel_color →
  _find_closest_color pixel_color = s.
Proof.
  intros Hc Hnoise.
  destruct (find_closest_color_first_min pixel_color) as [Hi Hmin].
  set (i := N.to_nat (_find_closest_color pixel_color)) in *.
  assert (Hs : (N.to_nat s < 8)%nat) by (apply lookup_lt_Some in Hc; exact Hc).
  assert (Hstrict : ∀ j, (j < 8)%nat → j ≠ N.to_nat s →
            dist_at pixel_color PALETTE (N.to_nat s) < dist_at pixel_color PALETTE j).
  { intros j Hj Hne. unfold dist_at. rewrite Hc.
    destruct pixel_color as [[r g] b]. unfold color_within in Hnoise.
    clear Hmin Hi i. revert Hc Hne Hs. generalize (N.to_nat s). intros n Hc Hne Hn.
    do 8 (destruct n as [|n]; [
      injection Hc as <-; cbn [fst snd] in Hnoise;
      do 8 (destruct j as [|j]; [
        first [congruence
              | cbv beta iota delta [color_dist from_option lookup list_lookup PALETTE];
                simpl; lia] |]);
      simpl in Hj; lia |]).
    simpl in Hn. lia. }
  destruct (decide (i = N.to_nat s)) as [Heq|Hne].
  - subst i. lia.
  - exfalso. destruct (Hmin (N.to_nat s) Hs) as [Hle _].
    specialize (Hstrict i Hi Hne). lia.
Qed.

(** X1. A pixel each of whose channels is within 127 of the channel of a
    palette colour is matched to the index of that colour. *)
Theorem find_closest_color_tolerates_noise (s : N) (c pixel_color : color) :
  PALETTE !! N.to_nat s = Some c →
  color_within 127 c pixel_color →
  _find_closest_color pixel_color = s.
Proof. apply closest_within_127. Qed.

Lemma find_closest_color_tolerates_noise_witness :
  PALETTE !! N.to_nat 5 = Some (255, 0, 255) ∧
  color_within 127 (255, 0, 255) (128, 127, 300) ∧
  _find_closest_color (128, 127, 300) = 5%N.
Proof.
  assert (Hc : PALETTE !! N.to_nat 5 = Some (255, 0, 255)) by reflexivity.
  assert (Hn : color_within 127 (255, 0, 255) (128, 127, 300))
    by (unfold color_within; simpl; lia).
  split; [exact Hc|]. split; [exact Hn|].
  exact (find_closest_color_tolerates_noise 5 (255, 0, 255) (128, 127, 300) Hc Hn).
Defined.

(** ** Marker cells and data cells *)

(** X2. [_get_marker_color] paints a cell exactly when the test both
    functions repeat inline classifies it as a marker, whatever the grid; and
    what it paints is black or white. *)
Theorem marker_color_iff_marker_cell (col row grid_width grid_height : Z) :
  (is_Some (_get_marker_color col row grid_width grid_height)
   ↔ is_marker_cell col row grid_width grid_height = true) ∧
  ∀ c, _get_marker_color col row grid_width grid_height = Some c →
       c = black ∨ c = white.
Proof.
  unfold is_marker_cell, _get_marker_color. rewrite !Z.geb_leb.
  destruct (col <? MARKER_SIZE), (row <? MARKER_SIZE),
    (grid_width - MARKER_SIZE <=? col), (grid_height - MARKER_SIZE <=? row);
    simpl; (split; [split; intros Hm; try done; by inversion Hm|]);
    intros c Hc; try discriminate Hc; injection Hc as <-;
    match goal with |- context [if ?b then _ else _] => destruct b end; auto.
Qed.

(** X3. The count the grid search relies on is exact: a grid of at least
    [2 * MARKER_SIZE] cells each way has [width * height - 4 * MARKER_SIZE^2]
    data cells in the scan of the loops, and no cell is scanned twice. *)
Theorem data_cell_count_exact (grid_width grid_height : Z) :
  2 * MARKER_SIZE ≤ grid_width → 2 * MARKER_SIZE ≤ grid_height →
  len (data_cells grid_width grid_height)
  = grid_width * grid_height - 4 * MARKER_SIZE * MARKER_SIZE ∧
  (grid_width = grid_height →
   len (data_cells grid_width grid_height) = count_data_positions grid_width) ∧
  NoDup (data_cells grid_width grid_height).
Proof.
  intros Hw Hh. pose proof (length_data_cells _ _ Hw Hh) as Hlen.
  split; [exact Hlen|]. split; [|apply NoDup_data_cells].
  intros <-. rewrite Hlen. reflexivity.
Qed.

Lemma data_cell_count_exact_witness :
  2 * MARKER_SIZE ≤ 9 ∧ len (data_cells 9 12) = 9 * 12 - 4 * MARKER_SIZE * MARKER_SIZE.
Proof.
  assert (H9 : 2 * MARKER_SIZE ≤ 9) by (unfold MARKER_SIZE; lia).
  assert (H12 : 2 * MARKER_SIZE ≤ 12) by (unfold MARKER_SIZE; lia).
  split; [exact H9|]. exact (proj1 (data_cell_count_exact 9 12 H9 H12)).
Defined.

(** ** The grid size *)

(** X4. The grid size never shrinks when the number of symbols grows. *)
Theorem compute_grid_size_monotone (n1 n2 : Z) :
  n1 ≤ n2 → compute_grid_size n1 ≤ compute_grid_size n2.
Proof.
  intros Hn. unfold compute_grid_size.
  destruct (grow_grid_size_spec n1 (2 * MARKER_SIZE)) as (Hle1 & Hfit1 & Hmin1).
  destruct (grow_grid_size_spec n2 (2 * MARKER_SIZE)) as (Hle2 & Hfit2 & Hmin2).
  destruct (Z_lt_dec (grow_grid_size n2 (2 * MARKER_SIZE))
                     (grow_grid_size n1 (2 * MARKER_SIZE))) as [Hlt|]; [|lia].
  specialize (Hmin1 _ (conj Hle2 Hlt)). lia.
Qed.

Lemma compute_grid_size_monotone_witness :
  35 ≤ 48 ∧ compute_grid_size 35 ≤ compute_grid_size 48.
Proof.
  assert (H : 35 ≤ 48) by lia. split; [exact H|].
  exact (compute_grid_size_monotone 35 48 H).
Defined.

(** X5. For a positive number of symbols the grid size is the ceiling of the
    square root of that number plus the 36 marker cells. *)
Theorem compute_grid_size_sqrt (n : Z) :
  0 < n →
  (compute_grid_size n - 1) ^ 2 < n + 36 ≤ compute_grid_size n ^ 2.
Proof.
  intros Hn. unfold compute_grid_size.
  destruct (grow_grid_size_spec n (2 * MARKER_SIZE)) as (Hle & Hfit & Hmin).
  unfold count_data_positions, MARKER_SIZE in *.
  set (g := grow_grid_size n (2 * 3)) in *.
  assert (Hg : 6 < g) by (destruct (decide (g = 6)) as [Heq|]; [rewrite Heq in Hfit|]; lia).
  specialize (Hmin (g - 1) ltac:(lia)). rewrite !Z.pow_2_r. lia.
Qed.

Lemma compute_grid_size_sqrt_witness :
  0 < 48 ∧ (compute_grid_size 48 - 1) ^ 2 < 48 + 36 ≤ compute_grid_size 48 ^ 2.
Proof.
  assert (H : 0 < 48) by lia. split; [exact H|]. exact (compute_grid_size_sqrt 48 H).
Defined.

(** ** The assignment of symbols *)

Lemma insert_all_size cells (it : list N) m :
  NoDup cells → (∀ cell, cell ∈ cells → m !! cell = None) →
  size (insert_all (zip cells it) m) = (size m + length (zip cells it))%nat.
Proof.
  intros Hnd. revert it m. induction Hnd as [|c cells Hc Hnd IH]; intros it m Hm.
  - simpl. lia.
  - destruct it as [|idx it]; [simpl; lia|].
    change (insert_all (zip (c :: cells) (idx :: it)) m)
      with (insert_all (zip cells it) (<[c := idx]> m)).
    rewrite IH.
    + rewrite map_size_insert_None by (apply Hm; by left). simpl. lia.
    + intros cell Hcell. rewrite lookup_insert_ne; [apply Hm; by right|].
      intros ->. by apply Hc.
Qed.

(** X6. The assignment loops give the [k]-th symbol to the [k]-th data cell
    of the scan and to no other cell, so the dict holds one entry for each
    symbol for which there is a data cell: no symbol is placed twice and none
    is skipped. *)
Theorem build_data_grid_assignment (color_indices : list N)
  (grid_width grid_height : Z) :
  (∀ k cell, data_cells grid_width grid_height !! k = Some cell →
     build_data_grid color_indices grid_width grid_height !! cell
     = color_indices !! k) ∧
  (∀ cell, cell ∉ data_cells grid_width grid_height →
     build_data_grid color_indices grid_width grid_height !! cell = None) ∧
  size (build_data_grid color_indices grid_width grid_height)
  = (length color_indices `min` length (data_cells grid_width grid_height))%nat.
Proof.
  rewrite build_data_grid_spec. split; [|split].
  - intros k cell Hk.
    rewrite (insert_all_lookup _ _ _ k cell (NoDup_data_cells _ _) Hk).
    rewrite lookup_empty. by destruct (color_indices !! k).
  - intros cell Hcell. rewrite insert_all_lookup_notin by exact Hcell.
    apply lookup_empty.
  - rewrite insert_all_size.
    + rewrite map_size_empty, length_zip_with. lia.
    + apply NoDup_data_cells.
    + intros cell _. apply lookup_empty.
Qed.

(** ** Everything [file_to_image] does *)

Lemma build_frame_inv `{Zlib} data original_size compress full_data :
  build_frame data original_size compress = Ok full_data →
  ∃ header, length header = 13%nat ∧ full_data = header ++ data ∧
            len data < 2 ^ 32 ∧ 0 ≤ original_size < 2 ^ 32.
Proof.
  intros Hok.
  assert (Hrange : len data < 2 ^ 32 ∧ 0 ≤ original_size < 2 ^ 32).
  { revert Hok. unfold build_frame, struct_pack, pack_u32.
    destruct (Z.leb_spec 0 (len data)), (Z.ltb_spec (len data) (2 ^ 32));
      simpl; try discriminate.
    destruct (Z.leb_spec 0 original_size), (Z.ltb_spec original_size (2 ^ 32));
      simpl; try discriminate.
    lia. }
  destruct Hrange as [Hdata Hsize].
  destruct (build_frame_ok data original_size compress Hdata Hsize)
    as (header & Hframe & Hlen & _).
  exists header. split; [exact Hlen|]. split; [congruence|]. split; assumption.
Qed.

Lemma build_frame_raises `{Zlib} data original_size compress e :
  build_frame data original_size compress = Raise e →
  e = StructError ∧ ¬ (len data < 2 ^ 32 ∧ 0 ≤ original_size < 2 ^ 32).
Proof.
  intros Hraise. split.
  - revert Hraise. unfold build_frame, struct_pack, pack_u32.
    destruct (_ && _); destruct (_ && _); destruct (_ && _); simpl;
      intros Heq; try congruence; discriminate Heq.
  - intros [Hdata Hsize].
    destruct (build_frame_ok data original_size compress Hdata Hsize)
      as (header & Hok & _). congruence.
Qed.

Section EncodeCases.
Context `{Zlib}.

Lemma compression_stage (input_data : list byte) (compress verbose : bool) :
  (compress = true → verbose = true → input_data ≠ []) →
  (if compress
   then when verbose
          (lift (py_truediv (100 * len (compress_data input_data)) (len input_data));;
           print (MsgCompression (len input_data) (len (compress_data input_data))));;
        mret (compress_data input_data)
   else mret input_data)
  = ((compression_line input_data compress verbose,
      Ok (frame_body input_data compress)) : io (list byte)).
Proof.
  intros Hdiv0. unfold compression_line, frame_body.
  destruct compress; [|reflexivity]. destruct verbose; [|reflexivity].
  rewrite py_truediv_ok; [reflexivity|].
  intros Hz. apply (Hdiv0 eq_refl eq_refl).
  unfold len in Hz. destruct input_data; [done|simpl in Hz; lia].
Qed.

(** All [file_to_image] does when the frame can be built. *)
Lemma file_to_image_success (input_data : list byte) (output_image : string)
  (compress verbose : bool) header :
  length header = 13%nat →
  build_frame (frame_body input_data compress) (len input_data) compress
  = Ok (header ++ frame_body input_data compress) →
  (compress = true → verbose = true → input_data ≠ []) →
  file_to_image input_data output_image compress verbose
  = (compression_line input_data compress verbose
     ++ SaveImage output_image (frame_image (header ++ frame_body input_data compress))
     :: progress_lines output_image (len input_data)
          (compute_grid_size
             (len (bytes_to_indices (header ++ frame_body input_data compress))))
          (Z.of_nat
             (size (build_data_grid
                      (bytes_to_indices (header ++ frame_body input_data compress))
                      (compute_grid_size
                         (len (bytes_to_indices (header ++ frame_body input_data compress))))
                      (compute_grid_size
                         (len (bytes_to_indices (header ++ frame_body input_data compress)))))))
          verbose,
     Ok (compute_grid_size
           (len (bytes_to_indices (header ++ frame_body input_data compress)))
         * PIXEL_SIZE,
         compute_grid_size
           (len (bytes_to_indices (header ++ frame_body input_data compress)))
         * PIXEL_SIZE)).
Proof.
  intros Hheader Hframe Hdiv0.
  set (body := frame_body input_data compress) in *.
  destruct (frame_data_grid header body Hheader) as (Hdg & Hsize & Hgg).
  assert (Hdraw := draw_grid_drawn _
            (compute_grid_size (len (bytes_to_indices (header ++ body))))
            (compute_grid_size (len (bytes_to_indices (header ++ body))))
            (Image_new
               (compute_grid_size (len (bytes_to_indices (header ++ body))) * PIXEL_SIZE)
               (compute_grid_size (len (bytes_to_indices (header ++ body))) * PIXEL_SIZE))
            Hdg).
  fold (frame_image (header ++ body)) in Hdraw.
  unfold file_to_image. cbv zeta.
  rewrite (compression_stage _ _ _ Hdiv0). fold body.
  rewrite io_bind_ok, Hframe, lift_ok_bind, Hdraw, lift_ok_bind, emit_bind.
  unfold progress_lines.
  destruct verbose; unfold when; rewrite ?py_truediv_ok by lia;
    generalize (frame_image (header ++ body));
    generalize (size (build_data_grid (bytes_to_indices (header ++ body))
                        (compute_grid_size (len (bytes_to_indices (header ++ body))))
                        (compute_grid_size (len (bytes_to_indices (header ++ body))))));
    generalize (compute_grid_size (len (bytes_to_indices (header ++ body))));
    intros g n img; reflexivity.
Qed.

(** All [file_to_image] does when the frame cannot be built. *)
Lemma file_to_image_failure (input_data : list byte) (output_image : string)
  (compress verbose : bool) e :
  (compress = true → verbose = true → input_data ≠ []) →
  build_frame (frame_body input_data compress) (len input_data) compress
  = Raise e →
  file_to_image input_data output_image compress verbose
  = (compression_line input_data compress verbose, Raise e).
Proof.
  intros Hdiv0 Hframe. unfold file_to_image. cbv zeta.
  rewrite (compression_stage _ _ _ Hdiv0), io_bind_ok, Hframe.
  simpl. by rewrite app_nil_r.
Qed.

Lemma frame_symbol_count header body :
  length header = 13%nat →
  len (bytes_to_indices (header ++ body)) = symbol_count (len body).
Proof.
  intros Hheader. pose proof (bytes_to_indices_length (header ++ body)) as Hlen.
  unfold symbol_count, len in *. rewrite length_app, Hheader in Hlen.
  Z.div_mod_to_equations. lia.
Qed.

(** How [file_to_image] ends when the save succeeds. *)
Lemma file_to_image_outcome (input_data : list byte)
  (output_image : string) (compress verbose : bool) :
  outcome (file_to_image input_data output_image compress verbose)
  = if compress && verbose && bool_decide (input_data = [])
    then Raise ZeroDivisionError
    else if bool_decide (len input_data < 2 ^ 32
                         ∧ len (frame_body input_data compress) < 2 ^ 32)
         then
           let side :=
             compute_grid_size (symbol_count (len (frame_body input_data compress)))
             * PIXEL_SIZE in
           Ok (side, side)
         else Raise StructError.
Proof.
  destruct (compress && verbose && bool_decide (input_data = [])) eqn:Hzero.
  - apply andb_prop in Hzero as [Hcv Hempty]. apply andb_prop in Hcv as [-> ->].
    apply bool_decide_eq_true in Hempty as ->. reflexivity.
  - assert (Hdiv0 : compress = true → verbose = true → input_data ≠ []).
    { intros -> -> ->. rewrite bool_decide_true in Hzero by done. discriminate. }
    destruct (build_frame (frame_body input_data compress) (len input_data) compress)
      as [full_data|e] eqn:Hframe.
    + destruct (build_frame_inv _ _ _ _ Hframe) as (header & Hheader & -> & Hbody & Hlen).
      rewrite (file_to_image_success _ _ _ _ header Hheader Hframe Hdiv0).
      rewrite bool_decide_true by lia. unfold outcome. simpl.
      by rewrite (frame_symbol_count header _ Hheader).
    + destruct (build_frame_raises _ _ _ _ Hframe) as [-> Hrange].
      rewrite (file_to_image_failure _ _ _ _ _ Hdiv0 Hframe).
      rewrite bool_decide_false; [reflexivity|].
      intros [Hlen Hbody]. apply Hrange. unfold len in *. lia.
Qed.

(** What [file_to_image] has saved by the time it ends. *)
Lemma file_to_image_saves (input_data : list byte)
  (output_image : string) (compress verbose : bool) :
  match outcome (file_to_image input_data output_image compress verbose) with
  | Ok (w, h) =>
      ∃ img, filter (λ e, is_save e)
               (trace (file_to_image input_data output_image compress verbose))
             = [SaveImage output_image img]
             ∧ img_width img = w ∧ img_height img = h
  | Raise _ =>
      filter (λ e, is_save e)
        (trace (file_to_image input_data output_image compress verbose)) = []
  end.
Proof.
  destruct (decide (compress = true ∧ verbose = true ∧ input_data = []))
    as [(-> & -> & ->)|Hnz]; [reflexivity|].
  assert (Hdiv0 : compress = true → verbose = true → input_data ≠ [])
    by (intros ? ? ?; apply Hnz; auto).
  assert (Hline : filter (λ e, is_save e)
                    (compression_line input_data compress verbose) = []).
  { unfold compression_line. by destruct (compress && verbose). }
  destruct (build_frame (frame_body input_data compress) (len input_data) compress)
    as [full_data|e] eqn:Hframe.
  - destruct (build_frame_inv _ _ _ _ Hframe) as (header & Hheader & -> & _).
    rewrite (file_to_image_success _ _ _ _ header Hheader Hframe Hdiv0).
    unfold outcome, trace. cbn [fst snd].
    exists (frame_image (header ++ frame_body input_data compress)).
    destruct (frame_image_size (header ++ frame_body input_data compress)) as [-> ->].
    split; [|done].
    rewrite filter_app, Hline, filter_cons_True by done.
    unfold progress_lines. by destruct verbose.
  - rewrite (file_to_image_failure _ _ _ _ _ Hdiv0 Hframe). exact Hline.
Qed.

(** X7. The two errors [file_to_image] raises before it draws, and what it
    returns.  It raises [ZeroDivisionError] exactly on the empty input with
    compression and progress output both on; it raises [struct.error]
    exactly when, that case apart, the input or the body it frames has
    [2^32] bytes or more; and whenever it returns, neither is the case and
    it returns twice the side of the canvas, [PIXEL_SIZE] times the grid
    size for the symbols of the 13 header bytes and the body. *)
Theorem file_to_image_outcome_cases (input_data : list byte)
  (output_image : string) (compress verbose : bool) :
  (outcome (file_to_image input_data output_image compress verbose)
   = Raise ZeroDivisionError
   ↔ compress = true ∧ verbose = true ∧ input_data = []) ∧
  (outcome (file_to_image input_data output_image compress verbose)
   = Raise StructError
   ↔ ¬ (compress = true ∧ verbose = true ∧ input_data = []) ∧
     ¬ (len input_data < 2 ^ 32 ∧ len (frame_body input_data compress) < 2 ^ 32)) ∧
  (∀ w h,
     outcome (file_to_image input_data output_image compress verbose) = Ok (w, h) →
     ¬ (compress = true ∧ verbose = true ∧ input_data = []) ∧
     len input_data < 2 ^ 32 ∧ len (frame_body input_data compress) < 2 ^ 32 ∧
     w = compute_grid_size (symbol_count (len (frame_body input_data compress)))
         * PIXEL_SIZE ∧
     h = w).
Proof.
  rewrite file_to_image_outcome.
  assert (Hzero : compress && verbose && bool_decide (input_data = []) = true
                  ↔ compress = true ∧ verbose = true ∧ input_data = []).
  { rewrite !andb_true_iff, bool_decide_eq_true. tauto. }
  destruct (compress && verbose && bool_decide (input_data = [])).
  - assert (compress = true ∧ verbose = true ∧ input_data = []) as Hcase
      by (by apply Hzero).
    split; [tauto|]. split; [split; [discriminate|tauto]|]. discriminate.
  - assert (¬ (compress = true ∧ verbose = true ∧ input_data = [])) as Hcase
      by (intros Hc; apply Hzero in Hc; discriminate).
    destruct (decide (len input_data < 2 ^ 32
                      ∧ len (frame_body input_data compress) < 2 ^ 32))
      as [Hrange|Hrange].
    + rewrite bool_decide_true by exact Hrange. cbv zeta.
      split; [split; [discriminate|tauto]|].
      split; [split; [discriminate|tauto]|].
      intros w h [= <- <-]. tauto.
    + rewrite bool_decide_false by exact Hrange.
      split; [split; [discriminate|tauto]|].
      split; [tauto|]. discriminate.
Qed.

(** X8. Whenever [file_to_image] returns, it has saved exactly one image,
    under the name it was given and of the size it returns; when it raises
    [ZeroDivisionError] or [struct.error] it has saved none: both are
    raised before the canvas is drawn. *)
Theorem file_to_image_saved_on_return (input_data : list byte)
  (output_image : string) (compress verbose : bool) :
  (∀ w h,
     outcome (file_to_image input_data output_image compress verbose) = Ok (w, h) →
     ∃ img, filter (λ e, is_save e)
              (trace (file_to_image input_data output_image compress verbose))
            = [SaveImage output_image img]
            ∧ img_width img = w ∧ img_height img = h) ∧
  (outcome (file_to_image input_data output_image compress verbose)
   = Raise ZeroDivisionError
   ∨ outcome (file_to_image input_data output_image compress verbose)
     = Raise StructError →
   filter (λ e, is_save e)
     (trace (file_to_image input_data output_image compress verbose)) = []).
Proof.
  pose proof (file_to_image_saves input_data output_image compress verbose) as Hsaves.
  destruct (outcome (file_to_image input_data output_image compress verbose))
    as [[w h]|e].
  - split; [|intros [?|?]; discriminate].
    intros w' h' [= <- <-]. exact Hsaves.
  - split; [discriminate|]. intros _. exact Hsaves.
Qed.

(** X9. Whenever [file_to_image] returns, the canvas is square, its side is
    [PIXEL_SIZE] times a grid size of at least 9 (72 pixels), and the grid
    has a data cell for every symbol of the frame. *)
Theorem file_to_image_canvas (input_data : list byte) (output_image : string)
  (compress verbose : bool) (w h : Z) :
  outcome (file_to_image input_data output_image compress verbose) = Ok (w, h) →
  ∃ g, w = g * PIXEL_SIZE ∧ h = g * PIXEL_SIZE ∧ 9 ≤ g ∧
       symbol_count (len (frame_body input_data compress))
       ≤ len (data_cells g g).
Proof.
  destruct (decide (compress = true ∧ verbose = true ∧ input_data = []))
    as [(-> & -> & ->)|Hnz]; [discriminate|].
  assert (Hdiv0 : compress = true → verbose = true → input_data ≠ [])
    by (intros ? ? ?; apply Hnz; auto).
  destruct (build_frame (frame_body input_data compress) (len input_data) compress)
    as [full_data|e] eqn:Hframe.
  - destruct (build_frame_inv _ _ _ _ Hframe) as (header & Hheader & -> & _).
    rewrite (file_to_image_success _ _ _ _ header Hheader Hframe Hdiv0).
    unfold outcome. cbn [snd]. intros [= <- <-].
    pose proof (frame_length_indices header (frame_body input_data compress) Hheader)
      as Hsyms.
    rewrite <- (frame_symbol_count header _ Hheader).
    destruct (compute_grid_size_fits
                (len (bytes_to_indices (header ++ frame_body input_data compress))))
      as [Hg Hfit].
    set (g := compute_grid_size _) in *. exists g.
    rewrite (length_data_cells g g Hg Hg).
    unfold count_data_positions, MARKER_SIZE in *.
    split; [reflexivity|]. split; [reflexivity|]. split; [nia|lia].
  - rewrite (file_to_image_failure _ _ _ _ _ Hdiv0 Hframe). discriminate.
Qed.

End EncodeCases.

Lemma file_to_image_canvas_witness :
  outcome (file_to_image (H := store_zlib) ABCDE "out.png" true false)
  = Ok (80, 80) ∧
  ∃ g, 80 = g * PIXEL_SIZE ∧ 80 = g * PIXEL_SIZE ∧ 9 ≤ g ∧
       symbol_count (len (frame_body (H := store_zlib) ABCDE true))
       ≤ len (data_cells g g).
Proof.
  assert (Hout : outcome (file_to_image (H := store_zlib) ABCDE "out.png" true false)
                 = Ok (80, 80)) by (vm_compute; reflexivity).
  split; [exact Hout|].
  exact (file_to_image_canvas (H := store_zlib) ABCDE "out.png" true false 80 80 Hout).
Defined.

(** ** Everything [image_to_file] does *)

Lemma find_closest_color_lt pixel_color : (_find_closest_color pixel_color < 8)%N.
Proof.
  destruct (find_closest_color_first_min pixel_color) as [Hi _]. simpl in Hi. lia.
Qed.

Lemma sampled_indices_lt img : Forall (λ idx, (idx < 8)%N) (sampled_indices img).
Proof.
  unfold sampled_indices. apply Forall_fmap, Forall_forall.
  intros cell _. apply find_closest_color_lt.
Qed.

Lemma unpacked_bytes_length img :
  len (unpacked_bytes img)
  = 3 * len (data_cells (img_width img / PIXEL_SIZE) (img_height img / PIXEL_SIZE)) / 8.
Proof.
  unfold unpacked_bytes. cbv zeta. unfold len at 1.
  rewrite length_fmap, length_seq.
  rewrite indices_to_bit_string_length by apply sampled_indices_lt.
  unfold sampled_indices, len. rewrite length_fmap.
  rewrite Z2Nat.id; [reflexivity|]. Z.div_mod_to_equations. lia.
Qed.

Lemma struct_unpack_header byte_array :
  13 ≤ len byte_array →
  ∃ fields, struct_unpack (py_slice byte_array 0 13) = Ok fields.
Proof.
  intros Hlen. unfold struct_unpack.
  assert (len (py_slice byte_array 0 13) = 13) as ->; [|by eexists].
  apply (py_slice_length byte_array 0 13); lia.
Qed.

Section DecodeCases.
Context `{Zlib}.

Lemma decode_byte_array_short byte_array output_file verbose :
  len byte_array < 13 →
  decode_byte_array byte_array output_file verbose
  = ([], Raise (ValueError "Image too small for valid header")).
Proof.
  intros Hlen. unfold decode_byte_array.
  by destruct (Z.ltb_spec (len byte_array) 13); [|lia].
Qed.

Lemma verify_and_output_writes cs crc flag data output_file verbose :
  filter (λ e, is_write e)
    (trace (verify_and_output cs crc flag data output_file verbose))
  = match outcome (verify_and_output cs crc flag data output_file verbose) with
    | Ok d => [WriteBytes output_file d]
    | Raise _ => []
    end.
Proof.
  unfold verify_and_output, decompress_data.
  destruct (checksum_of data =? crc), verbose, flag,
    (zlib_decompress data), output_file as [name|];
    try destruct (String.eqb name "-"); reflexivity.
Qed.

Lemma verify_and_output_quiet cs crc flag data output_file m :
  Stderr m ∈ trace (verify_and_output cs crc flag data output_file false) →
  m = MsgDecompressionFailed.
Proof.
  unfold verify_and_output, decompress_data.
  destruct (checksum_of data =? crc), flag,
    (zlib_decompress data), output_file as [name|];
    try destruct (String.eqb name "-"); simpl;
    rewrite ?elem_of_cons, ?elem_of_nil;
    intuition (discriminate || congruence).
Qed.

Lemma verify_and_output_crc_status cs crc flag data output_file verbose ok :
  Stderr (MsgCrcStatus ok)
  ∈ trace (verify_and_output cs crc flag data output_file verbose) →
  ok = (checksum_of data =? crc).
Proof.
  unfold verify_and_output, decompress_data.
  destruct (checksum_of data =? crc), verbose, flag,
    (zlib_decompress data), output_file as [name|];
    try destruct (String.eqb name "-"); simpl;
    rewrite ?elem_of_cons, ?elem_of_nil;
    intuition (discriminate || congruence).
Qed.

Lemma verify_and_output_decompression_failed cs crc data output_file verbose :
  zlib_decompress data = None →
  outcome (verify_and_output cs crc true data output_file verbose)
  = Raise ZlibError ∧
  Stderr MsgDecompressionFailed
  ∈ trace (verify_and_output cs crc true data output_file verbose).
Proof.
  intros Hnone. unfold verify_and_output, decompress_data. rewrite Hnone.
  destruct (checksum_of data =? crc), verbose; simpl;
    rewrite ?elem_of_cons; auto.
Qed.

(** The line about the grid does not change what follows it. *)
Lemma image_to_file_trace (img : image) output_file verbose :
  trace (image_to_file img output_file verbose)
  = (if verbose
     then [Stderr (MsgDecodingGrid (img_width img / PIXEL_SIZE)
                                   (img_height img / PIXEL_SIZE))]
     else [])
    ++ trace (decode_byte_array (unpacked_bytes img) output_file verbose).
Proof.
  rewrite image_to_file_unpacked.
  destruct verbose; simpl;
    destruct (decode_byte_array _ _ _) as [t [d|e]]; reflexivity.
Qed.

(** X10. In quiet mode [file_to_image] prints nothing at all, and the only
    line [image_to_file] can print is the one that reports a failed
    decompression. *)
Theorem quiet_mode_prints (input_data : list byte) (output_image : string)
  (compress : bool) (img : image) (output_file : option string) :
  (∀ e, e ∈ trace (file_to_image input_data output_image compress false) →
        is_stderr e = false) ∧
  (∀ m, Stderr m ∈ trace (image_to_file img output_file false) →
        m = MsgDecompressionFailed).
Proof.
  split.
  - assert (Hdiv0 : compress = true → false = true → input_data ≠ []) by done.
    destruct (build_frame (frame_body input_data compress) (len input_data) compress)
      as [full_data|e] eqn:Hframe.
    + destruct (build_frame_inv _ _ _ _ Hframe) as (header & Hheader & -> & _).
      rewrite (file_to_image_success _ _ _ _ header Hheader Hframe Hdiv0).
      unfold compression_line, progress_lines. rewrite andb_false_r.
      intros e' ->%list_elem_of_singleton. reflexivity.
    + rewrite (file_to_image_failure _ _ _ _ _ Hdiv0 Hframe).
      unfold compression_line. rewrite andb_false_r.
      by intros e' ?%elem_of_nil.
  - intros m. rewrite image_to_file_trace, app_nil_l.
    destruct (Z_lt_dec (len (unpacked_bytes img)) 13) as [Hshort|Hlong].
    + rewrite decode_byte_array_short by exact Hshort. by intros ?%elem_of_nil.
    + destruct (struct_unpack_header (unpacked_bytes img)) as [[[[bl rl] crc] flag] Hhdr];
        [lia|].
      assert (Hlen13 : 13 ≤ len (unpacked_bytes img)) by lia.
      rewrite (decode_byte_array_frame _ _ _ _ _ _ _ Hlen13 Hhdr).
      apply verify_and_output_quiet.
Qed.

(** X11. [image_to_file] raises "Image too small for valid header" exactly on
    the images whose grid has fewer than 35 data cells; it then writes
    nothing. *)
Theorem image_too_small_iff (img : image) (output_file : option string)
  (verbose : bool) :
  (outcome (image_to_file img output_file verbose)
   = Raise (ValueError "Image too small for valid header")
   ↔ len (data_cells (img_width img / PIXEL_SIZE) (img_height img / PIXEL_SIZE)) < 35) ∧
  (len (data_cells (img_width img / PIXEL_SIZE) (img_height img / PIXEL_SIZE)) < 35 →
   ∀ e, e ∈ trace (image_to_file img output_file verbose) → is_write e = false).
Proof.
  pose proof (unpacked_bytes_length img) as Hlen.
  set (cells := data_cells _ _) in *.
  assert (Hiff : len (unpacked_bytes img) < 13 ↔ len cells < 35)
    by (rewrite Hlen; Z.div_mod_to_equations; lia).
  split; [split|].
  - intros Hraise. apply Hiff.
    destruct (Z_lt_dec (len (unpacked_bytes img)) 13) as [|Hlong]; [done|].
    exfalso. revert Hraise. rewrite image_to_file_outcome.
    destruct (struct_unpack_header (unpacked_bytes img)) as [[[[bl rl] crc] flag] Hhdr];
      [lia|].
    assert (Hlen13 : 13 ≤ len (unpacked_bytes img)) by lia.
    rewrite (decode_byte_array_frame _ _ _ _ _ _ _ Hlen13 Hhdr).
    rewrite verify_and_output_outcome. unfold decompress_data.
    destruct flag; [destruct (zlib_decompress _)|]; discriminate.
  - intros Hsmall. apply Hiff in Hsmall.
    by rewrite image_to_file_outcome, decode_byte_array_short.
  - intros Hsmall e. apply Hiff in Hsmall.
    rewrite image_to_file_trace, decode_byte_array_short, app_nil_r by exact Hsmall.
    destruct verbose; [intros ->%list_elem_of_singleton; reflexivity|].
    by intros ?%elem_of_nil.
Qed.

(** X12. When the header has the compressed flag set and zlib rejects the
    body, [image_to_file] raises the zlib error and prints "Decompression
    failed", in quiet mode too. *)
Theorem decompression_failure (img : image) (output_file : option string)
  (verbose : bool) (body_length raw_length checksum : Z) :
  13 ≤ len (unpacked_bytes img) →
  struct_unpack (py_slice (unpacked_bytes img) 0 13)
  = Ok (body_length, raw_length, checksum, true) →
  decompress_data (py_slice (unpacked_bytes img) 13 (13 + body_length))
  = Raise ZlibError →
  outcome (image_to_file img output_file verbose) = Raise ZlibError ∧
  Stderr MsgDecompressionFailed ∈ trace (image_to_file img output_file verbose).
Proof.
  intros Hlen Hhdr Hzlib.
  assert (Hnone : zlib_decompress (py_slice (unpacked_bytes img) 13 (13 + body_length))
                  = None).
  { revert Hzlib. unfold decompress_data. by destruct (zlib_decompress _). }
  destruct (verify_and_output_decompression_failed body_length checksum _
              output_file verbose Hnone) as [Hout Hmsg].
  rewrite image_to_file_outcome, image_to_file_trace.
  rewrite (decode_byte_array_frame _ _ _ _ _ _ _ Hlen Hhdr).
  split; [exact Hout|]. apply elem_of_app. by right.
Qed.

(** X13. [image_to_file] writes to its output exactly once when it returns,
    and what it writes is the bytes it returns; when it raises it has written
    nothing. *)
Theorem image_to_file_writes_iff_returns (img : image)
  (output_file : option string) (verbose : bool) :
  filter (λ e, is_write e) (trace (image_to_file img output_file verbose))
  = match outcome (image_to_file img output_file verbose) with
    | Ok data => [WriteBytes output_file data]
    | Raise _ => []
    end.
Proof.
  rewrite image_to_file_outcome, image_to_file_trace, filter_app.
  assert (filter (λ e, is_write e)
            (if verbose
             then [Stderr (MsgDecodingGrid (img_width img / PIXEL_SIZE)
                                           (img_height img / PIXEL_SIZE))]
             else []) = []) as -> by (by destruct verbose).
  rewrite app_nil_l.
  destruct (Z_lt_dec (len (unpacked_bytes img)) 13) as [Hshort|Hlong].
  - by rewrite decode_byte_array_short.
  - destruct (struct_unpack_header (unpacked_bytes img)) as [[[[bl rl] crc] flag] Hhdr];
      [lia|].
    assert (Hlen13 : 13 ≤ len (unpacked_bytes img)) by lia.
    rewrite (decode_byte_array_frame _ _ _ _ _ _ _ Hlen13 Hhdr).
    apply verify_and_output_writes.
Qed.

End DecodeCases.

(** ** What decoding depends on *)

Lemma sampled_indices_ext (img img' : image) :
  img_width img' = img_width img → img_height img' = img_height img →
  (∀ cell,
     cell ∈ data_cells (img_width img / PIXEL_SIZE) (img_height img / PIXEL_SIZE) →
     _find_closest_color (cell_center_color img' cell)
     = _find_closest_color (cell_center_color img cell)) →
  sampled_indices img' = sampled_indices img.
Proof.
  intros Hw Hh Hcells. unfold sampled_indices. rewrite Hw, Hh.
  apply list_fmap_ext. intros k cell Hk. apply Hcells.
  by eapply list_elem_of_lookup_2.
Qed.

Lemma image_to_file_ext `{Zlib} (img img' : image) output_file verbose :
  img_width img' = img_width img → img_height img' = img_height img →
  sampled_indices img' = sampled_indices img →
  image_to_file img' output_file verbose = image_to_file img output_file verbose.
Proof.
  intros Hw Hh Hsampled. rewrite !image_to_file_unpacked.
  unfold unpacked_bytes. by rewrite Hw, Hh, Hsampled.
Qed.

(** The centre of a data cell of the image of a frame has a palette colour. *)
Lemma frame_image_center full_data cell :
  let g := compute_grid_size (len (bytes_to_indices full_data)) in
  cell ∈ data_cells g g →
  ∃ s, PALETTE !! N.to_nat s = Some (cell_center_color (frame_image full_data) cell).
Proof.
  intros g Hcell. destruct cell as [col row].
  apply elem_of_data_cells in Hcell as (Hcol & Hrow & Hm). simpl in *.
  unfold cell_center_color, frame_image. fold g. simpl.
  rewrite draw_all_rows_pixel.
  assert (Hx : (col * PIXEL_SIZE + PIXEL_SIZE / 2) / PIXEL_SIZE = col)
    by (unfold PIXEL_SIZE; Z.div_mod_to_equations; lia).
  assert (Hy : (row * PIXEL_SIZE + PIXEL_SIZE / 2) / PIXEL_SIZE = row)
    by (unfold PIXEL_SIZE; Z.div_mod_to_equations; lia).
  rewrite Hx, Hy. rewrite bool_decide_true by (rewrite !elem_of_seqZ; lia).
  unfold cell_color. rewrite marker_color_none by exact Hm.
  destruct (build_data_grid _ _ _ !! (col, row)) as [idx|] eqn:Hidx.
  - assert (Hlt : (idx < 8)%N).
    { revert Hidx. rewrite build_data_grid_spec.
      apply (insert_all_values _ _ _ _ _ (λ i, (i < 8)%N)).
      - apply bit_string_to_indices_lt.
      - intros c i. by rewrite lookup_empty. }
    exists idx. destruct (lookup_lt_is_Some_2 PALETTE (N.to_nat idx)) as [c ->];
      [simpl; lia | reflexivity].
  - by exists 0%N.
Qed.

Lemma color_within_refl (c : color) : color_within 127 c c.
Proof. unfold color_within. rewrite !Z.sub_diag. simpl. lia. Qed.

Section Robustness.
Context `{Zlib}.

(** X14. [image_to_file] depends on an image only through its size and the
    palette index nearest to the centre pixel of each data cell: two images
    of one size that agree there are decoded alike, whatever else differs
    (marker cells included). *)
Theorem image_to_file_reads_cell_centers (img img' : image)
  (output_file : option string) (verbose : bool) :
  img_width img' = img_width img → img_height img' = img_height img →
  (∀ cell,
     cell ∈ data_cells (img_width img / PIXEL_SIZE) (img_height img / PIXEL_SIZE) →
     _find_closest_color (cell_center_color img' cell)
     = _find_closest_color (cell_center_color img cell)) →
  image_to_file img' output_file verbose = image_to_file img output_file verbose.
Proof.
  intros Hw Hh Hcells. apply image_to_file_ext; [exact Hw|exact Hh|].
  by apply sampled_indices_ext.
Qed.

(** What [file_to_image] saved, read back from its trace. *)
Lemma saved_image_frame (input_data : list byte) (output_image : string)
  (compress verbose : bool) img :
  saved_image (trace (file_to_image input_data output_image compress verbose))
  = Some img →
  ∃ header,
    length header = 13%nat ∧
    struct_unpack header
    = Ok (len (frame_body input_data compress), len input_data,
          checksum_of (frame_body input_data compress), compress) ∧
    build_frame (frame_body input_data compress) (len input_data) compress
    = Ok (header ++ frame_body input_data compress) ∧
    img = frame_image (header ++ frame_body input_data compress).
Proof.
  destruct (decide (compress = true ∧ verbose = true ∧ input_data = []))
    as [(-> & -> & ->)|Hnz]; [discriminate|].
  assert (Hdiv0 : compress = true → verbose = true → input_data ≠ [])
    by (intros ? ? ?; apply Hnz; auto).
  destruct (build_frame (frame_body input_data compress) (len input_data) compress)
    as [full_data|e] eqn:Hframe.
  - destruct (build_frame_inv _ _ _ _ Hframe)
      as (header & Hheader & -> & Hbody & Hlen).
    destruct (build_frame_ok _ _ compress Hbody Hlen)
      as (header' & Hframe' & Hheader' & Hhdr').
    assert (header' = header) as ->.
    { rewrite Hframe in Hframe'. injection Hframe' as Heq.
      by apply app_inv_tail in Heq. }
    destruct (file_to_image_frame input_data output_image compress verbose header
                Hheader Hframe Hdiv0) as [_ Hsaved].
    unfold frame_body in *. rewrite Hsaved. intros [= <-].
    exists header. auto.
  - rewrite (file_to_image_failure _ _ _ _ _ Hdiv0 Hframe).
    unfold compression_line. by destruct (compress && verbose).
Qed.

(** X15. The symbols are read back in the order they were placed: the indices
    [image_to_file] samples from a canvas [file_to_image] saved are the
    symbols of the frame, followed by a 0 for each data cell left over. *)
Theorem saved_canvas_sampled_in_order (input_data : list byte)
  (output_image : string) (compress verbose : bool) (img : image) :
  saved_image (trace (file_to_image input_data output_image compress verbose))
  = Some img →
  ∃ full_data,
    build_frame (frame_body input_data compress) (len input_data) compress
    = Ok full_data ∧
    sampled_indices img
    = bytes_to_indices full_data
      ++ replicate
           (length (data_cells (img_width img / PIXEL_SIZE)
                               (img_height img / PIXEL_SIZE))
            - length (bytes_to_indices full_data)) 0%N.
Proof.
  intros Hsaved.
  destruct (saved_image_frame _ _ _ _ _ Hsaved) as (header & _ & _ & Hframe & ->).
  eexists. split; [exact Hframe|].
  destruct (frame_image_size (header ++ frame_body input_data compress)) as [-> ->].
  assert (Hdiv : ∀ g, g * PIXEL_SIZE / PIXEL_SIZE = g)
    by (intros g; unfold PIXEL_SIZE; Z.div_mod_to_equations; lia).
  rewrite Hdiv. apply frame_image_sampled.
Qed.

(** X16. Decoding a canvas [file_to_image] saved never reports a checksum
    failure: neither the mismatch warning nor a failed CRC status line is
    printed. *)
Theorem saved_canvas_passes_crc (input_data : list byte) (output_image : string)
  (compress verbose : bool) (img : image) (output_file : option string)
  (verbose' : bool) :
  saved_image (trace (file_to_image input_data output_image compress verbose))
  = Some img →
  (Stderr MsgCrcMismatch ∉ trace (image_to_file img output_file verbose')) ∧
  (Stderr (MsgCrcStatus false) ∉ trace (image_to_file img output_file verbose')).
Proof.
  intros Hsaved.
  destruct (saved_image_frame _ _ _ _ _ Hsaved)
    as (header & Hheader & Hhdr & _ & ->).
  set (body := frame_body input_data compress) in *.
  destruct (frame_image_unpacked (header ++ body)) as [extra Hextra].
  rewrite image_to_file_trace, Hextra.
  assert (Hslice : py_slice ((header ++ body) ++ extra) 0 13 = header).
  { unfold py_slice. simpl. rewrite drop_0, <- app_assoc.
    by apply take_app_length'. }
  assert (Hbody : py_slice ((header ++ body) ++ extra) 13 (13 + len body) = body).
  { rewrite py_slice_from by (unfold len; lia).
    rewrite <- app_assoc, drop_app_length' by done.
    unfold len. rewrite Nat2Z.id. apply take_app_length. }
  assert (Hlen : 13 ≤ len ((header ++ body) ++ extra))
    by (unfold len; rewrite !length_app, Hheader; lia).
  rewrite <- Hslice in Hhdr.
  rewrite (decode_byte_array_frame _ _ _ _ _ _ _ Hlen Hhdr), Hbody.
  split; intros [Hin|Hin]%elem_of_app.
  - destruct verbose'; [apply list_elem_of_singleton in Hin|apply elem_of_nil in Hin];
      [discriminate|done].
  - apply verify_and_output_warning in Hin as [Hne _]. by apply Hne.
  - destruct verbose'; [apply list_elem_of_singleton in Hin|apply elem_of_nil in Hin];
      [discriminate|done].
  - apply verify_and_output_crc_status in Hin.
    symmetry in Hin. apply Z.eqb_neq in Hin. by apply Hin.
Qed.

(** X17. The round trip survives noise: take a canvas [file_to_image] saved
    for [b], of a size [Image.open] accepts (at most twice
    [MAX_IMAGE_PIXELS] pixels), change each sampled pixel by up to 127 per
    channel and every other pixel at will (the markers too);
    [image_to_file], from the open on, still returns [b]. *)
Theorem noisy_canvas_roundtrip (b : list byte) (output_image : string)
  (compress verbose : bool) (img img' : image) (output_file : option string)
  (verbose' : bool) :
  saved_image (trace (file_to_image b output_image compress verbose)) = Some img →
  (compress = true → decompress_data (compress_data b) = Ok b) →
  img_width img * img_height img ≤ 2 * MAX_IMAGE_PIXELS →
  img_width img' = img_width img → img_height img' = img_height img →
  (∀ cell,
     cell ∈ data_cells (img_width img / PIXEL_SIZE) (img_height img / PIXEL_SIZE) →
     color_within 127 (cell_center_color img cell) (cell_center_color img' cell)) →
  outcome (image_to_file_input img' output_file verbose') = Ok b.
Proof.
  intros Hsaved Hzlib Hlimit Hw Hh Hnoise.
  destruct (saved_image_frame _ _ _ _ _ Hsaved)
    as (header & Hheader & Hhdr & _ & Himg).
  assert (Hside : 0 < img_width img ∧ 0 < img_height img).
  { rewrite Himg.
    destruct (frame_image_size (header ++ frame_body b compress)) as [-> ->].
    destruct (compute_grid_size_fits
                (len (bytes_to_indices (header ++ frame_body b compress))))
      as [Hg _].
    unfold MARKER_SIZE, PIXEL_SIZE in *. lia. }
  unfold image_to_file_input.
  rewrite Image_open_limit, Hw, Hh, bool_decide_true by lia.
  rewrite (image_to_file_ext img img' _ _ Hw Hh).
  - rewrite Himg.
    rewrite (image_to_file_frame_image header _ _ compress _ _ Hheader Hhdr).
    unfold frame_body. destruct compress; [by apply Hzlib|reflexivity].
  - apply sampled_indices_ext; [exact Hw|exact Hh|].
    intros cell Hcell. specialize (Hnoise cell Hcell).
    assert (Hpal : ∃ s, PALETTE !! N.to_nat s = Some (cell_center_color img cell)).
    { revert Hcell. rewrite Himg.
      destruct (frame_image_size (header ++ frame_body b compress)) as [-> ->].
      assert (Hdiv : ∀ g, g * PIXEL_SIZE / PIXEL_SIZE = g)
        by (intros g; unfold PIXEL_SIZE; Z.div_mod_to_equations; lia).
      rewrite Hdiv. apply frame_image_center. }
    destruct Hpal as [s Hs].
    rewrite (closest_within_127 s _ _ Hs Hnoise).
    symmetry. apply (closest_within_127 s _ _ Hs), color_within_refl.
Qed.

End Robustness.

(** ** The [info] command *)

Lemma info_scan_row_spec (img : image) (row : Z) (cols : list Z) (acc : list N) :
  0 ≤ row < img_height img / PIXEL_SIZE →
  (∀ col, col ∈ cols → 0 ≤ col < img_width img / PIXEL_SIZE) →
  len acc < 35 →
  info_scan_row img (img_width img / PIXEL_SIZE) (img_height img / PIXEL_SIZE)
    row cols acc
  = Ok (take 35
          (acc ++ ((λ cell, _find_closest_color (cell_center_color img cell))
                     <$> (cols ≫= λ col,
                            if is_marker_cell col row (img_width img / PIXEL_SIZE)
                                 (img_height img / PIXEL_SIZE)
                            then [] else [(col, row)])))).
Proof.
  intros Hrow. revert acc. induction cols as [|col cols IH]; intros acc Hcols Hacc.
  - csimpl. rewrite app_nil_r, take_ge; [reflexivity|unfold len in *; lia].
  - csimpl. destruct (is_marker_cell col row _ _).
    + simpl. apply IH; [|exact Hacc]. intros c Hc. apply Hcols. by right.
    + rewrite getpixel_cell_center; [|apply Hcols; by left|exact Hrow].
      cbv zeta. csimpl. rewrite Z.geb_leb.
      destruct (Z.leb_spec 35 (len (acc ++ [_find_closest_color
                                              (cell_center_color img (col, row))]))) as [Hfull|Hmore].
      * set (idx := _find_closest_color (cell_center_color img (col, row))) in *.
        set (rest := _ <$> _).
        change (acc ++ idx :: rest) with (acc ++ [idx] ++ rest). rewrite app_assoc.
        unfold len in Hfull, Hacc. rewrite length_app in Hfull. simpl in Hfull.
        rewrite take_app_le by (rewrite length_app; simpl; lia).
        rewrite take_ge; [reflexivity|]. rewrite length_app. simpl. lia.
      * rewrite IH; [|intros c Hc; apply Hcols; by right|exact Hmore].
        rewrite <- app_assoc. reflexivity.
Qed.

Lemma info_scan_rows_spec (img : image) (rows : list Z) (acc : list N) :
  (∀ row, row ∈ rows → 0 ≤ row < img_height img / PIXEL_SIZE) →
  len acc < 35 →
  info_scan_rows img (img_width img / PIXEL_SIZE) (img_height img / PIXEL_SIZE)
    rows acc
  = Ok (take 35
          (acc ++ ((λ cell, _find_closest_color (cell_center_color img cell))
                     <$> (rows ≫= row_data_cells (img_width img / PIXEL_SIZE)
                                    (img_height img / PIXEL_SIZE))))).
Proof.
  revert acc. induction rows as [|row rows IH]; intros acc Hrows Hacc.
  - csimpl. rewrite app_nil_r, take_ge; [reflexivity|unfold len in *; lia].
  - csimpl. rewrite info_scan_row_spec;
      [|apply Hrows; by left|by intros col ?%elem_of_seqZ|exact Hacc].
    fold (row_data_cells (img_width img / PIXEL_SIZE) (img_height img / PIXEL_SIZE) row).
    set (f := λ cell, _find_closest_color (cell_center_color img cell)).
    set (new := f <$> row_data_cells _ _ row).
    rewrite fmap_app. fold new. rewrite Z.geb_leb.
    destruct (Z.leb_spec 35 (len (take 35 (acc ++ new)))) as [Hfull|Hmore].
    + rewrite app_assoc, (take_app_le (acc ++ new)); [reflexivity|].
      unfold len in *. rewrite length_take in Hfull. lia.
    + assert (Hall : take 35 (acc ++ new) = acc ++ new).
      { apply take_ge. unfold len in *. rewrite length_take in Hmore. lia. }
      rewrite Hall in *. rewrite IH; [|intros r Hr; apply Hrows; by right|exact Hmore].
      by rewrite <- app_assoc.
Qed.

(** The cells [info] may scan come first in the scan of [image_to_file]. *)
Lemma info_cells_prefix gw gh :
  ∃ rest, data_cells gw gh = info_cells gw gh ++ rest.
Proof.
  change (data_cells gw gh) with (seqZ 0 gh ≫= row_data_cells gw gh).
  unfold info_cells. destruct (Z_le_dec gh 0) as [Hneg|Hpos].
  - rewrite !seqZ_nil by lia. by exists [].
  - assert (seqZ 0 gh = seqZ 0 (Z.min 10 gh)
                          ++ seqZ (0 + Z.min 10 gh) (gh - Z.min 10 gh)) as ->
      by (rewrite <- seqZ_app by lia; f_equal; lia).
    rewrite bind_app. by eexists.
Qed.

Lemma info_scan_sampled (img : image) :
  info_scan_rows img (img_width img / PIXEL_SIZE) (img_height img / PIXEL_SIZE)
    (seqZ 0 (Z.min 10 (img_height img / PIXEL_SIZE))) []
  = Ok (take (35 `min` length (info_cells (img_width img / PIXEL_SIZE)
                                          (img_height img / PIXEL_SIZE)))
          (sampled_indices img)).
Proof.
  rewrite info_scan_rows_spec; [|intros row ?%elem_of_seqZ; lia|done].
  rewrite app_nil_l. f_equal. fold (info_cells (img_width img / PIXEL_SIZE)
                                       (img_height img / PIXEL_SIZE)).
  unfold sampled_indices.
  destruct (info_cells_prefix (img_width img / PIXEL_SIZE)
              (img_height img / PIXEL_SIZE)) as [rest ->].
  rewrite fmap_app.
  rewrite <- (length_fmap (λ cell, _find_closest_color (cell_center_color img cell))
                (info_cells _ _)).
  set (l := _ <$> info_cells _ _).
  rewrite <- take_take, take_app_length. reflexivity.
Qed.

Lemma info_bit_string_to_bytes_chunks bit_string :
  info_bit_string_to_bytes bit_string
  = Ok ((λ k, byte_of_bits (chunk_at 8 bit_string k))
          <$> seq 0 (Z.to_nat (Z.min 13 (len bit_string / 8)))).
Proof.
  unfold info_bit_string_to_bytes.
  change (py_range 0 (Z.min 104 (len bit_string - 7)) 8)
    with (py_range 0 (Z.min 104 (len bit_string - 7)) (Z.of_nat 8)).
  rewrite py_range_chunks by lia.
  replace ((Z.min 104 (len bit_string - 7) + Z.of_nat 8 - 1) / Z.of_nat 8)
    with (Z.min 13 (len bit_string / 8))
    by (unfold len; Z.div_mod_to_equations; lia).
  rewrite (for_each_append _ (λ i, [byte_of_bits (py_slice bit_string i (i + 8))])).
  - rewrite concat_singletons, <- list_fmap_compose, app_nil_l. f_equal.
    apply list_fmap_ext. intros _ k _.
    rewrite <- (py_slice_chunk bit_string 8 k). reflexivity.
  - intros acc i Hi. apply list_elem_of_fmap in Hi as (k & -> & _).
    pose proof (py_slice_chunk bit_string 8 k) as Hslice.
    change (Z.of_nat 8) with 8 in Hslice. cbv beta. rewrite Hslice.
    rewrite bytearray_item_bits by apply chunk_at_length. reflexivity.
Qed.

Lemma indices_to_bit_string_take (n : nat) (color_indices : list N) :
  Forall (λ idx, (idx < 8)%N) color_indices →
  indices_to_bit_string (take n color_indices)
  = take (3 * n) (indices_to_bit_string color_indices).
Proof.
  intros Hlt. revert n. induction Hlt as [|idx l Hidx _ IH]; intros n.
  - rewrite take_nil. change (indices_to_bit_string []) with (@nil bool).
    by rewrite take_nil.
  - destruct n as [|n]; [by rewrite Nat.mul_0_r|].
    change (indices_to_bit_string (take (S n) (idx :: l)))
      with (format_b 3 idx ++ indices_to_bit_string (take n l)).
    change (indices_to_bit_string (idx :: l))
      with (format_b 3 idx ++ indices_to_bit_string l).
    rewrite IH.
    assert (Hlen : 3%nat = length (format_b 3 idx)).
    { pose proof (N_lt_8_cases idx Hidx) as Hcases.
      repeat (apply elem_of_cons in Hcases as [->|Hcases]; [reflexivity|]).
      inversion Hcases. }
    replace (3 * S n)%nat with (3 + 3 * n)%nat by lia.
    symmetry. apply take_app_add'. exact Hlen.
Qed.

Lemma chunk_at_take {A} (w k n : nat) (l : list A) :
  (w * k + w ≤ n)%nat → chunk_at w (take n l) k = chunk_at w l k.
Proof.
  intros Hn. unfold chunk_at.
  replace n with (w * k + (n - w * k))%nat by lia.
  rewrite <- take_drop_commute, take_take. f_equal. lia.
Qed.

(** With 35 data cells in reach, [info] unpacks the 13 bytes of the header
    [image_to_file] unpacks. *)
Lemma info_header_bytes (img : image) :
  35 ≤ len (info_cells (img_width img / PIXEL_SIZE) (img_height img / PIXEL_SIZE)) →
  13 ≤ len (unpacked_bytes img) ∧
  info_bit_string_to_bytes
    (indices_to_bit_string
       (take (35 `min` length (info_cells (img_width img / PIXEL_SIZE)
                                          (img_height img / PIXEL_SIZE)))
          (sampled_indices img)))
  = Ok (py_slice (unpacked_bytes img) 0 13).
Proof.
  intros Hcells.
  destruct (info_cells_prefix (img_width img / PIXEL_SIZE)
              (img_height img / PIXEL_SIZE)) as [rest Hprefix].
  assert (Hall : 35 ≤ len (data_cells (img_width img / PIXEL_SIZE)
                             (img_height img / PIXEL_SIZE))).
  { rewrite Hprefix. unfold len in *. rewrite length_app. lia. }
  assert (Hbytes : 13 ≤ len (unpacked_bytes img))
    by (rewrite unpacked_bytes_length; Z.div_mod_to_equations; lia).
  split; [exact Hbytes|].
  replace (35 `min` length (info_cells _ _))%nat with 35%nat by (unfold len in *; lia).
  rewrite indices_to_bit_string_take by apply sampled_indices_lt.
  rewrite info_bit_string_to_bytes_chunks. f_equal.
  assert (Hbits : 105 ≤ len (indices_to_bit_string (sampled_indices img))).
  { rewrite indices_to_bit_string_length by apply sampled_indices_lt.
    unfold sampled_indices, len in *. rewrite length_fmap. lia. }
  assert (len (take (3 * 35) (indices_to_bit_string (sampled_indices img))) = 105) as ->.
  { unfold len in *. rewrite length_take. lia. }
  change (Z.to_nat (Z.min 13 (105 / 8))) with 13%nat.
  unfold py_slice, unpacked_bytes. cbv zeta.
  change (Z.to_nat 13 - Z.to_nat 0)%nat with 13%nat.
  change (Z.to_nat 0) with 0%nat. rewrite drop_0.
  rewrite <- fmap_take, take_seq.
  replace (13 `min` Z.to_nat (len (indices_to_bit_string (sampled_indices img)) / 8))%nat
    with 13%nat by (Z.div_mod_to_equations; lia).
  apply list_fmap_ext. intros i k Hk. apply lookup_seq in Hk as [-> Hk].
  simpl. f_equal. apply chunk_at_take. lia.
Qed.

Lemma info_short_bytes (img : image) :
  len (info_cells (img_width img / PIXEL_SIZE) (img_height img / PIXEL_SIZE)) < 35 →
  ∃ byte_array,
    info_bit_string_to_bytes
      (indices_to_bit_string
         (take (35 `min` length (info_cells (img_width img / PIXEL_SIZE)
                                            (img_height img / PIXEL_SIZE)))
            (sampled_indices img)))
    = Ok byte_array ∧ len byte_array < 13.
Proof.
  intros Hcells. rewrite info_bit_string_to_bytes_chunks.
  eexists. split; [reflexivity|].
  unfold len at 1. rewrite length_fmap, length_seq.
  rewrite indices_to_bit_string_length
    by (apply Forall_take, sampled_indices_lt).
  unfold len in *. rewrite length_take. Z.div_mod_to_equations. lia.
Qed.

Lemma info_try_header (img : image) :
  35 ≤ len (info_cells (img_width img / PIXEL_SIZE) (img_height img / PIXEL_SIZE)) →
  ∃ fields,
    13 ≤ len (unpacked_bytes img) ∧
    struct_unpack (py_slice (unpacked_bytes img) 0 13) = Ok fields ∧
    info_try img (img_width img / PIXEL_SIZE) (img_height img / PIXEL_SIZE)
    = info_report fields.
Proof.
  intros Hcells. unfold info_try. rewrite info_scan_sampled.
  destruct (info_header_bytes img Hcells) as [Hlen ->].
  destruct (struct_unpack_header (unpacked_bytes img) Hlen) as [fields Hfields].
  exists fields. split; [exact Hlen|]. split; [exact Hfields|].
  assert (len (py_slice (unpacked_bytes img) 0 13) = 13) as Hslice
    by (apply (py_slice_length _ 0 13); lia).
  rewrite Hslice. simpl.
  assert (py_slice (py_slice (unpacked_bytes img) 0 13) 0 13
          = py_slice (unpacked_bytes img) 0 13) as ->.
  { unfold py_slice. simpl. rewrite !drop_0. apply take_take. }
  by rewrite Hfields.
Qed.

Lemma info_try_short (img : image) :
  len (info_cells (img_width img / PIXEL_SIZE) (img_height img / PIXEL_SIZE)) < 35 →
  info_try img (img_width img / PIXEL_SIZE) (img_height img / PIXEL_SIZE)
  = ([], Ok tt).
Proof.
  intros Hcells. unfold info_try. rewrite info_scan_sampled.
  destruct (info_short_bytes img Hcells) as (byte_array & -> & Hshort).
  rewrite Z.geb_leb. by destruct (Z.leb_spec 13 (len byte_array)); [lia|].
Qed.

(** A square grid of at least 9 cells a side has 35 data cells in its first
    ten rows. *)
Lemma info_cells_enough g : 9 ≤ g → 35 ≤ len (info_cells g g).
Proof.
  intros Hg. destruct (decide (g = 9)) as [->|Hne]; [by vm_compute|].
  unfold info_cells. replace (Z.min 10 g) with 10 by lia.
  change (seqZ 0 10) with (seqZ 0 3 ++ seqZ 3 4 ++ seqZ 7 3).
  rewrite !bind_app. unfold len. rewrite !length_app.
  pose proof (length_bind_interval (row_data_cells g g) 3 4 g) as Hmid.
  unfold len in Hmid. rewrite Nat2Z.inj_add, Nat2Z.inj_add, Hmid; [lia|lia| |lia].
  intros row Hrow. pose proof (length_row_data_cells g g row) as Hlen.
  unfold len, MARKER_SIZE in Hlen. rewrite Hlen by lia.
  rewrite bool_decide_false by lia. reflexivity.
Qed.

(** X18. The [info] command reads the header [image_to_file] reads: when the
    first ten rows of the grid hold at least 35 data cells, what it prints
    under its encoded-data heading is the report of the four fields
    [image_to_file] unpacks from the same image; with fewer than 35 it prints
    no such section (and raises nothing). *)
Theorem info_reads_decode_header (img : image) :
  (35 ≤ len (info_cells (img_width img / PIXEL_SIZE) (img_height img / PIXEL_SIZE)) →
   ∃ fields,
     13 ≤ len (unpacked_bytes img) ∧
     struct_unpack (py_slice (unpacked_bytes img) 0 13) = Ok fields ∧
     info_try img (img_width img / PIXEL_SIZE) (img_height img / PIXEL_SIZE)
     = info_report fields) ∧
  (len (info_cells (img_width img / PIXEL_SIZE) (img_height img / PIXEL_SIZE)) < 35 →
   info_try img (img_width img / PIXEL_SIZE) (img_height img / PIXEL_SIZE)
   = ([], Ok tt)).
Proof. split; [apply info_try_header|apply info_try_short]. Qed.

Section InfoCommand.
Context `{Zlib}.

(** The canvas [file_to_image] saved, once [info] has opened it. *)
Lemma info_image_saved_canvas (input_data : list byte) (output_image name : string)
  (compress verbose : bool) (img : image) :
  saved_image (trace (file_to_image input_data output_image compress verbose))
  = Some img →
  ∃ g,
    9 ≤ g ∧ img_width img = g * PIXEL_SIZE ∧ img_height img = g * PIXEL_SIZE ∧
    info_image name img
    = [InfoTitle; InfoFile name; InfoResolution (g * PIXEL_SIZE) (g * PIXEL_SIZE);
       InfoGrid g g; InfoAspectRatio g g; InfoFormat;
       InfoEncodedData; InfoOriginalSize (len input_data); InfoCompressed compress]
      ++ (if compress
          then if bool_decide (input_data = []) then []
               else [InfoCompressedSize (len (compress_data input_data)) (len input_data);
                     InfoCrc32 (checksum_of (compress_data input_data))]
          else [InfoCrc32 (checksum_of input_data)]).
Proof.
  intros Hsaved.
  destruct (saved_image_frame _ _ _ _ _ Hsaved)
    as (header & Hheader & Hfields & _ & ->).
  set (full_data := header ++ frame_body input_data compress).
  set (g := compute_grid_size (len (bytes_to_indices full_data))).
  destruct (frame_image_size full_data) as [Hw Hh]. fold g in Hw, Hh.
  assert (Hg : 9 ≤ g).
  { pose proof (compute_grid_size_fits (len (bytes_to_indices full_data))) as [Hmin Hfit].
    pose proof (frame_length_indices header (frame_body input_data compress) Hheader)
      as Hsyms.
    fold full_data in Hsyms. fold g in Hfit, Hmin.
    unfold count_data_positions, MARKER_SIZE in Hfit, Hmin. cbv zeta in Hfit. nia. }
  exists g. split; [exact Hg|]. split; [exact Hw|]. split; [exact Hh|].
  assert (Hgw : img_width (frame_image full_data) / PIXEL_SIZE = g)
    by (rewrite Hw; apply Z.div_mul; done).
  assert (Hgh : img_height (frame_image full_data) / PIXEL_SIZE = g)
    by (rewrite Hh; apply Z.div_mul; done).
  pose proof (info_try_header (frame_image full_data)) as Htry.
  rewrite Hgw, Hgh in Htry.
  destruct (Htry (info_cells_enough g Hg)) as (fields & _ & Hunpack & Hinfo).
  unfold info_image. cbv zeta. rewrite Hgw, Hgh, Hw, Hh, Hinfo.
  destruct (frame_image_unpacked full_data) as [extra Hbytes].
  assert (py_slice (unpacked_bytes (frame_image full_data)) 0 13 = header) as Hhdr.
  { rewrite Hbytes. unfold full_data, py_slice. simpl. rewrite drop_0.
    rewrite <- app_assoc. change (Pos.to_nat 13 - 0)%nat with 13%nat.
    rewrite <- Hheader. apply take_app_length. }
  rewrite Hhdr, Hfields in Hunpack. injection Hunpack as <-.
  unfold info_report, frame_body, py_truediv.
  destruct compress; [|reflexivity].
  destruct input_data as [|b input_data].
  - reflexivity.
  - rewrite bool_decide_false by done.
    assert (len (b :: input_data) ≠ 0) as Hne by (unfold len; simpl; lia).
    apply Z.eqb_neq in Hne. rewrite Hne. reflexivity.
Qed.

(** X19. On a canvas [file_to_image] saved, of a size [Image.open] accepts
    (at most twice [MAX_IMAGE_PIXELS] pixels), [info] prints the size of the
    canvas, the side of its grid, the length of the encoded input and the
    compression flag; for an uncompressed frame the CRC-32 of the input, for
    a compressed one the sizes and the CRC-32 of the compressed body, except
    for the empty input: there the ratio [100 * compressed_size /
    original_size] divides by zero, the bare [except] swallows the error and
    the two last lines are not printed.  On a larger canvas the open raises
    [DecompressionBombError] and nothing is printed. *)
Theorem info_on_saved_canvas (input_data : list byte) (output_image name : string)
  (compress verbose : bool) (img : image) :
  saved_image (trace (file_to_image input_data output_image compress verbose))
  = Some img →
  ∃ g,
    9 ≤ g ∧ img_width img = g * PIXEL_SIZE ∧ img_height img = g * PIXEL_SIZE ∧
    info_command name img
    = if bool_decide (g * PIXEL_SIZE * (g * PIXEL_SIZE) ≤ 2 * MAX_IMAGE_PIXELS)
      then
        ((if bool_decide (g * PIXEL_SIZE * (g * PIXEL_SIZE) ≤ MAX_IMAGE_PIXELS)
          then []
          else [Stderr (MsgDecompressionBombWarning
                          (g * PIXEL_SIZE * (g * PIXEL_SIZE)))]),
         Ok ([InfoTitle; InfoFile name;
              InfoResolution (g * PIXEL_SIZE) (g * PIXEL_SIZE);
              InfoGrid g g; InfoAspectRatio g g; InfoFormat;
              InfoEncodedData; InfoOriginalSize (len input_data);
              InfoCompressed compress]
             ++ (if compress
                 then if bool_decide (input_data = []) then []
                      else [InfoCompressedSize (len (compress_data input_data))
                                               (len input_data);
                            InfoCrc32 (checksum_of (compress_data input_data))]
                 else [InfoCrc32 (checksum_of input_data)])))
      else ([], Raise DecompressionBombError).
Proof.
  intros Hsaved.
  destruct (info_image_saved_canvas _ _ name _ _ _ Hsaved)
    as (g & Hg & Hw & Hh & Hinfo).
  exists g. split; [exact Hg|]. split; [exact Hw|]. split; [exact Hh|].
  unfold info_command. rewrite Image_open_ret, Hinfo, Hw, Hh.
  assert (Hside : 0 < g * PIXEL_SIZE) by (unfold PIXEL_SIZE; lia).
  rewrite !Z.max_r by lia.
  destruct (Z.ltb_spec (2 * MAX_IMAGE_PIXELS) (g * PIXEL_SIZE * (g * PIXEL_SIZE)))
    as [Hbomb|Hfits].
  - by rewrite (bool_decide_false (_ ≤ 2 * MAX_IMAGE_PIXELS)) by lia.
  - rewrite (bool_decide_true (_ ≤ 2 * MAX_IMAGE_PIXELS)) by exact Hfits.
    destruct (Z.ltb_spec MAX_IMAGE_PIXELS (g * PIXEL_SIZE * (g * PIXEL_SIZE)))
      as [Hwarn|Hquiet].
    + by rewrite (bool_decide_false (_ ≤ MAX_IMAGE_PIXELS)) by lia.
    + by rewrite (bool_decide_true (_ ≤ MAX_IMAGE_PIXELS)) by exact Hquiet.
Qed.

End InfoCommand.

(** ** The round trip, from the encoder's return to the decoder's *)

Section RoundTripClaim.
Context `{Zlib}.

(** C1 (amended). Whenever encoding [b] returns, with either setting of the
    compress flag (and, with compression on, for a [b] that zlib
    decompresses back from its compressed form), the canvas it saved has the
    size returned, and decoding that canvas returns exactly [b] as long as
    the canvas has at most twice [MAX_IMAGE_PIXELS] (178,956,970) pixels,
    which is the case exactly when the body framed has at most 1,048,317
    bytes; a larger canvas is refused by [Image.open] with
    [DecompressionBombError].  The empty [b] is included. *)
Theorem encode_decode_roundtrip (b : list byte) (output_image : string)
  (compress verbose : bool) (output_file : option string) (verbose' : bool)
  (w h : Z) :
  outcome (file_to_image b output_image compress verbose) = Ok (w, h) →
  (compress = true → decompress_data (compress_data b) = Ok b) →
  ∃ img,
    saved_image (trace (file_to_image b output_image compress verbose)) = Some img ∧
    img_width img = w ∧ img_height img = h ∧
    (w * h ≤ 2 * MAX_IMAGE_PIXELS ↔ len (frame_body b compress) ≤ 1048317) ∧
    outcome (image_to_file_input img output_file verbose')
    = if bool_decide (w * h ≤ 2 * MAX_IMAGE_PIXELS) then Ok b
      else Raise DecompressionBombError.
Proof.
  intros Hreturn Hzlib.
  destruct (decide (compress = true ∧ verbose = true ∧ b = []))
    as [(-> & -> & ->)|Hnz]; [discriminate|].
  assert (Hdiv0 : compress = true → verbose = true → b ≠ [])
    by (intros ? ? ?; apply Hnz; auto).
  destruct (build_frame (frame_body b compress) (len b) compress)
    as [full_data|e] eqn:Hframe;
    [|rewrite (file_to_image_failure _ _ _ _ _ Hdiv0 Hframe) in Hreturn;
      discriminate].
  destruct (build_frame_inv _ _ _ _ Hframe) as (header & Hheader & -> & Hbody & Hlen).
  destruct (build_frame_ok (frame_body b compress) (len b) compress Hbody Hlen)
    as (header' & Hframe' & _ & Hhdr).
  assert (header' = header) as ->.
  { rewrite Hframe in Hframe'. injection Hframe' as Heq.
    by apply app_inv_tail in Heq. }
  destruct (file_to_image_frame b output_image compress verbose header
              Hheader Hframe Hdiv0) as [Hout Hsaved].
  change (if compress then compress_data b else b)
    with (frame_body b compress) in Hout, Hsaved.
  rewrite Hout in Hreturn. injection Hreturn as <- <-.
  exists (frame_image (header ++ frame_body b compress)).
  split; [exact Hsaved|]. split; [reflexivity|]. split; [reflexivity|].
  destruct (frame_image_size (header ++ frame_body b compress)) as [Hw Hh].
  rewrite (frame_symbol_count header _ Hheader) in Hw, Hh.
  destruct (compute_grid_size_fits (symbol_count (len (frame_body b compress))))
    as [Hg _].
  unfold image_to_file_input.
  rewrite Image_open_limit
    by (rewrite ?Hw, ?Hh; unfold MARKER_SIZE, PIXEL_SIZE in *; lia).
  rewrite Hw, Hh. split; [apply canvas_within_limit|].
  destruct (bool_decide _); [|reflexivity].
  rewrite (image_to_file_frame_image header _ (len b) compress _ _ Hheader Hhdr).
  unfold frame_body. destruct compress; [by apply Hzlib|reflexivity].
Qed.

End RoundTripClaim.

(** ** The converter on concrete inputs *)

(** The check value of CRC-32. *)
Example crc32_check_value :
  crc32 [x31; x32; x33; x34; x35; x36; x37; x38; x39] = 0xCBF43926.
Proof. reflexivity. Qed.

Example ABCDE_indices :
  bytes_to_indices ABCDE = [2; 0; 2; 4; 1; 1; 0; 3; 2; 1; 0; 4; 2; 4]%N.
Proof. reflexivity. Qed.

Example ABCDE_image_decoded :
  image_to_file (H := store_zlib) ABCDE_image (Some "out.bin"%string) true
  = ([Stderr (MsgDecodingGrid 10 10);
      WriteBytes (Some "out.bin"%string) ABCDE;
      Stderr (MsgDecoded "out.bin" 5); Stderr (MsgCrcStatus true)],
     Ok ABCDE).
Proof. vm_compute. reflexivity. Qed.

(** The empty input, compressed and encoded quietly, then decoded. *)
Example empty_input_roundtrip :
  (img ← saved_image (trace (file_to_image (H := store_zlib) [] "out.png" true false));
   Some (outcome (image_to_file (H := store_zlib) img None true)))
  = Some (Ok []).
Proof. vm_compute. reflexivity. Qed.

Lemma uncompressed_frame_output_witness :
  13 ≤ len (unpacked_bytes ABCDE_image) ∧
  struct_unpack (py_slice (unpacked_bytes ABCDE_image) 0 13)
  = Ok (5, 5, 0x72d31ad5, false) ∧
  outcome (image_to_file (H := store_zlib) ABCDE_image None true)
  = Ok (py_slice (unpacked_bytes ABCDE_image) 13 (13 + 5)).
Proof.
  assert (Hlen : 13 ≤ len (unpacked_bytes ABCDE_image)) by (vm_compute; discriminate).
  assert (Hhdr : struct_unpack (py_slice (unpacked_bytes ABCDE_image) 0 13)
                 = Ok (5, 5, 0x72d31ad5, false)) by (vm_compute; reflexivity).
  split; [exact Hlen|]. split; [exact Hhdr|].
  exact (proj1 (uncompressed_frame_output (H := store_zlib) ABCDE_image None true
                  5 5 0x72d31ad5 Hlen Hhdr)).
Defined.

(** [short_body_image] has the compressed flag unset and declares a body of
    4 bytes: the decode returns the 3 bytes that follow the header, not a
    slice of 4. *)
Lemma uncompressed_output_shorter :
  struct_unpack (py_slice (unpacked_bytes short_body_image) 0 13)
  = Ok (4, 0, 0, false) ∧
  outcome (image_to_file (H := store_zlib) short_body_image None true)
  = Ok [x00; x00; x00] ∧
  len [x00; x00; x00] = 3.
Proof. vm_compute. repeat split. Qed.

(** The quiet decode of [short_body_image]: the CRC-32 of the body is not the
    checksum of the header, the body is returned, and nothing is printed. *)
Lemma checksum_mismatch_silent :
  13 ≤ len (unpacked_bytes short_body_image) ∧
  struct_unpack (py_slice (unpacked_bytes short_body_image) 0 13)
  = Ok (4, 0, 0, false) ∧
  checksum_of (H := store_zlib)
    (py_slice (unpacked_bytes short_body_image) 13 (13 + 4)) = 0xFF41D912 ∧
  image_to_file (H := store_zlib) short_body_image None false
  = ([WriteBytes None [x00; x00; x00]], Ok [x00; x00; x00]).
Proof. vm_compute. repeat split; discriminate. Qed.

Lemma checksum_mismatch_advisory_witness :
  13 ≤ len (unpacked_bytes short_body_image) ∧
  struct_unpack (py_slice (unpacked_bytes short_body_image) 0 13)
  = Ok (4, 0, 0, false) ∧
  checksum_of (H := store_zlib)
    (py_slice (unpacked_bytes short_body_image) 13 (13 + 4)) ≠ 0 ∧
  (Stderr MsgCrcMismatch
   ∈ trace (image_to_file (H := store_zlib) short_body_image None true)
   ↔ true = true).
Proof.
  assert (Hlen : 13 ≤ len (unpacked_bytes short_body_image))
    by (vm_compute; discriminate).
  assert (Hhdr : struct_unpack (py_slice (unpacked_bytes short_body_image) 0 13)
                 = Ok (4, 0, 0, false)) by (vm_compute; reflexivity).
  assert (Hcrc : checksum_of (H := store_zlib)
                   (py_slice (unpacked_bytes short_body_image) 13 (13 + 4)) ≠ 0)
    by (vm_compute; discriminate).
  split; [exact Hlen|]. split; [exact Hhdr|]. split; [exact Hcrc|].
  exact (proj1 (proj2 (checksum_mismatch_advisory (H := store_zlib)
                         short_body_image None true 4 0 0 false Hlen Hhdr Hcrc))).
Defined.

(** [short_body_image] declares a body of 4 bytes and holds 3 after the
    header: decoding returns those 3 bytes and raises nothing. *)
Lemma short_body_not_rejected :
  len (unpacked_bytes short_body_image) = 16 ∧
  struct_unpack (py_slice (unpacked_bytes short_body_image) 0 13)
  = Ok (4, 0, 0, false) ∧
  image_to_file (H := store_zlib) short_body_image (Some "out.bin"%string) true
  = ([Stderr (MsgDecodingGrid 9 9); Stderr MsgCrcMismatch;
      WriteBytes (Some "out.bin"%string) [x00; x00; x00];
      Stderr (MsgDecoded "out.bin" 3); Stderr (MsgCrcStatus false)],
     Ok [x00; x00; x00]).
Proof. vm_compute. repeat split. Qed.

Lemma short_body_decoded_witness :
  13 ≤ len (unpacked_bytes short_body_image) ∧
  struct_unpack (py_slice (unpacked_bytes short_body_image) 0 13)
  = Ok (4, 0, 0, false) ∧
  len (unpacked_bytes short_body_image) - 13 < 4 ∧
  outcome (image_to_file (H := store_zlib) short_body_image None false)
  = Ok (drop 13 (unpacked_bytes short_body_image)).
Proof.
  assert (Hlen : 13 ≤ len (unpacked_bytes short_body_image))
    by (vm_compute; discriminate).
  assert (Hhdr : struct_unpack (py_slice (unpacked_bytes short_body_image) 0 13)
                 = Ok (4, 0, 0, false)) by (vm_compute; reflexivity).
  assert (Hshort : len (unpacked_bytes short_body_image) - 13 < 4)
    by (vm_compute; reflexivity).
  split; [exact Hlen|]. split; [exact Hhdr|]. split; [exact Hshort|].
  exact (short_body_decoded (H := store_zlib) short_body_image None false
           4 0 0 false Hlen Hhdr Hshort).
Defined.

(** The canvas of [b"ABCDE"] declared 83 pixels wide and 85 high: neither is
    a multiple of 8, and decoding succeeds on the 10x10 grid. *)
Lemma ragged_canvas_not_rejected :
  83 mod PIXEL_SIZE ≠ 0 ∧ 85 mod PIXEL_SIZE ≠ 0 ∧
  image_to_file (H := store_zlib) (with_size ABCDE_image 83 85) None true
  = ([Stderr (MsgDecodingGrid 10 10); WriteBytes None ABCDE], Ok ABCDE).
Proof. vm_compute. repeat split; discriminate. Qed.

(** Four GiB of zero bytes: [struct.pack] rejects the length, and no canvas
    is produced to decode. *)
Lemma roundtrip_fails_on_4GiB :
  len (replicate (Z.to_nat (2 ^ 32)) x00) = 2 ^ 32 ∧
  outcome (file_to_image (H := store_zlib)
             (replicate (Z.to_nat (2 ^ 32)) x00) "out.png" false false)
  = Raise StructError ∧
  saved_image (trace (file_to_image (H := store_zlib)
                        (replicate (Z.to_nat (2 ^ 32)) x00) "out.png" false false))
  = None.
Proof.
  assert (Hlen : len (replicate (Z.to_nat (2 ^ 32)) x00) = 2 ^ 32).
  { unfold len. rewrite length_replicate. apply Z2Nat.id. lia. }
  split; [exact Hlen|].
  apply file_to_image_too_long. rewrite Hlen. lia.
Qed.

Lemma encode_decode_roundtrip_witness :
  outcome (file_to_image (H := store_zlib) ABCDE "out.png" true true) = Ok (80, 80) ∧
  decompress_data (H := store_zlib) (compress_data (H := store_zlib) ABCDE)
  = Ok ABCDE ∧
  ∃ img,
    saved_image (trace (file_to_image (H := store_zlib) ABCDE "out.png" true true))
    = Some img ∧
    img_width img = 80 ∧ img_height img = 80 ∧
    (80 * 80 ≤ 2 * MAX_IMAGE_PIXELS
     ↔ len (frame_body (H := store_zlib) ABCDE true) ≤ 1048317) ∧
    outcome (image_to_file_input (H := store_zlib) img None true)
    = if bool_decide (80 * 80 ≤ 2 * MAX_IMAGE_PIXELS) then Ok ABCDE
      else Raise DecompressionBombError.
Proof.
  assert (Hout : outcome (file_to_image (H := store_zlib) ABCDE "out.png" true true)
                 = Ok (80, 80)) by (vm_compute; reflexivity).
  assert (Hzlib : decompress_data (H := store_zlib)
                    (compress_data (H := store_zlib) ABCDE) = Ok ABCDE)
    by reflexivity.
  split; [exact Hout|]. split; [exact Hzlib|].
  exact (encode_decode_roundtrip (H := store_zlib) ABCDE "out.png" true true
           None true 80 80 Hout (λ _, Hzlib)).
Defined.

(** ** The further properties on concrete inputs *)

Lemma ABCDE_image_saved :
  saved_image (trace (file_to_image (H := store_zlib) ABCDE "out.png" false false))
  = Some ABCDE_image.
Proof.
  unfold ABCDE_image.
  destruct (saved_image _) as [img|] eqn:Hsaved; [reflexivity|].
  vm_compute in Hsaved. discriminate Hsaved.
Qed.

Lemma ABCDE_image_noisy_within :
  ∀ cell,
    cell ∈ data_cells (img_width ABCDE_image / PIXEL_SIZE)
                      (img_height ABCDE_image / PIXEL_SIZE) →
    color_within 127 (cell_center_color ABCDE_image cell)
                     (cell_center_color ABCDE_image_noisy cell).
Proof.
  apply Forall_forall.
  set (cells := data_cells _ _). vm_compute in cells. subst cells.
  repeat (apply Forall_cons; split;
          [vm_compute; repeat split; discriminate|]).
  apply Forall_nil_2.
Qed.

Lemma decompression_failure_witness :
  13 ≤ len (unpacked_bytes flagged_image) ∧
  outcome (image_to_file (H := store_zlib) flagged_image None true) = Raise ZlibError ∧
  Stderr MsgDecompressionFailed
  ∈ trace (image_to_file (H := store_zlib) flagged_image None true).
Proof.
  assert (Hlen : 13 ≤ len (unpacked_bytes flagged_image)) by (vm_compute; discriminate).
  split; [exact Hlen|].
  apply (decompression_failure (H := store_zlib) flagged_image None true
           0 0 0 Hlen); vm_compute; reflexivity.
Defined.

Lemma image_to_file_reads_cell_centers_witness :
  image_to_file (H := store_zlib) ABCDE_image_noisy None true
  = image_to_file (H := store_zlib) ABCDE_image None true.
Proof.
  apply (image_to_file_reads_cell_centers (H := store_zlib) ABCDE_image
           ABCDE_image_noisy None true); [reflexivity|reflexivity|].
  apply Forall_forall.
  set (cells := data_cells _ _). vm_compute in cells. subst cells.
  repeat (apply Forall_cons; split; [vm_compute; reflexivity|]).
  apply Forall_nil_2.
Defined.

Lemma saved_canvas_sampled_in_order_witness :
  ∃ full_data,
    build_frame (H := store_zlib) ABCDE 5 false = Ok full_data ∧
    sampled_indices ABCDE_image
    = bytes_to_indices full_data
      ++ replicate
           (length (data_cells (img_width ABCDE_image / PIXEL_SIZE)
                               (img_height ABCDE_image / PIXEL_SIZE))
            - length (bytes_to_indices full_data)) 0%N.
Proof.
  exact (saved_canvas_sampled_in_order (H := store_zlib) ABCDE "out.png" false false
           ABCDE_image ABCDE_image_saved).
Defined.

Lemma saved_canvas_passes_crc_witness :
  (Stderr MsgCrcMismatch
   ∉ trace (image_to_file (H := store_zlib) ABCDE_image None true)) ∧
  (Stderr (MsgCrcStatus false)
   ∉ trace (image_to_file (H := store_zlib) ABCDE_image None true)).
Proof.
  exact (saved_canvas_passes_crc (H := store_zlib) ABCDE "out.png" false false
           ABCDE_image None true ABCDE_image_saved).
Defined.

Lemma noisy_canvas_roundtrip_witness :
  outcome (image_to_file_input (H := store_zlib) ABCDE_image_noisy None true)
  = Ok ABCDE.
Proof.
  apply (noisy_canvas_roundtrip (H := store_zlib) ABCDE "out.png" false false
           ABCDE_image ABCDE_image_noisy None true ABCDE_image_saved);
    [discriminate|vm_compute; discriminate|reflexivity|reflexivity
    |exact ABCDE_image_noisy_within].
Defined.

Lemma info_on_saved_canvas_witness :
  ∃ g,
    9 ≤ g ∧ img_width ABCDE_image = g * PIXEL_SIZE ∧
    img_height ABCDE_image = g * PIXEL_SIZE ∧
    info_command "out.png" ABCDE_image
    = if bool_decide (g * PIXEL_SIZE * (g * PIXEL_SIZE) ≤ 2 * MAX_IMAGE_PIXELS)
      then
        ((if bool_decide (g * PIXEL_SIZE * (g * PIXEL_SIZE) ≤ MAX_IMAGE_PIXELS)
          then []
          else [Stderr (MsgDecompressionBombWarning
                          (g * PIXEL_SIZE * (g * PIXEL_SIZE)))]),
         Ok [InfoTitle; InfoFile "out.png";
             InfoResolution (g * PIXEL_SIZE) (g * PIXEL_SIZE);
             InfoGrid g g; InfoAspectRatio g g; InfoFormat;
             InfoEncodedData; InfoOriginalSize 5; InfoCompressed false;
             InfoCrc32 (checksum_of (H := store_zlib) ABCDE)])
      else ([], Raise DecompressionBombError).
Proof.
  exact (info_on_saved_canvas (H := store_zlib) ABCDE "out.png" "out.png" false false
           ABCDE_image ABCDE_image_saved).
Defined.

(** [info] on the canvas of the empty input, compressed and encoded quietly:
    the section stops after the compression flag. *)
Example info_empty_compressed :
  (img ← saved_image (trace (file_to_image (H := store_zlib) [] "out.png" true false));
   Some (info_image "out.png" img))
  = Some [InfoTitle; InfoFile "out.png"; InfoResolution 72 72; InfoGrid 9 9;
          InfoAspectRatio 9 9; InfoFormat;
          InfoEncodedData; InfoOriginalSize 0; InfoCompressed true].
Proof. vm_compute. reflexivity. Qed.

(** [info] on a blank 40x40 image: 16 data cells, no encoded-data section. *)
Example info_small_image :
  info_image "small.png" (Image_new 40 40)
  = [InfoTitle; InfoFile "small.png"; InfoResolution 40 40; InfoGrid 5 5;
     InfoAspectRatio 5 5; InfoFormat].
Proof. vm_compute. reflexivity. Qed.

(** [info] and the decode on the canvas of [b"ABCDE"], from the open on. *)
Example ABCDE_image_opened :
  info_command "out.png" ABCDE_image
  = ([], Ok [InfoTitle; InfoFile "out.png"; InfoResolution 80 80; InfoGrid 10 10;
             InfoAspectRatio 10 10; InfoFormat;
             InfoEncodedData; InfoOriginalSize 5; InfoCompressed false;
             InfoCrc32 0x72d31ad5]) ∧
  image_to_file_input (H := store_zlib) ABCDE_image None false
  = ([WriteBytes None ABCDE], Ok ABCDE).
Proof. vm_compute. split; reflexivity. Qed.

(** A blank image of 13384 pixels a side, the size of the canvas of a body
    of 1,048,318 bytes: [Image.open] refuses it. *)
Example large_image_refused :
  compute_grid_size (symbol_count 1048318) * PIXEL_SIZE = 13384 ∧
  image_to_file_input (H := store_zlib) (Image_new 13384 13384) None true
  = ([], Raise DecompressionBombError) ∧
  info_command "large.png" (Image_new 13384 13384)
  = ([], Raise DecompressionBombError).
Proof.
  split; [|split; reflexivity].
  change (symbol_count 1048318) with 2795550. unfold compute_grid_size.
  destruct (grow_grid_size_spec 2795550 (2 * MARKER_SIZE)) as (Hle & Hfit & Hmin).
  set (g := grow_grid_size 2795550 (2 * MARKER_SIZE)) in *.
  unfold count_data_positions, MARKER_SIZE, PIXEL_SIZE in *. cbv zeta in *.
  destruct (Z_lt_dec 1673 g) as [Hgt|Hle'].
  - assert (1673 * 1673 - 4 * 3 * 3 < 2795550) by (apply (Hmin 1673); lia). lia.
  - assert (1673 ≤ g) by nia. lia.
Qed.
